(** * AtomGPT training-data tools: JSON traversal and filename derivation

    A shallow embedding of the four command-line tools of the repository

      - [2D/makePOSCARs.py]  (module [Make2D]):   geometry emitter, nested schema
      - [2D/writeIDPROP.py]  (module [IdProp2D]): label emitter, nested schema
      - [3D/makePOSCARs.py]  (module [Make3D]):   geometry emitter, flat schema
      - [3D/writeIDPROP.py]  (module [IdProp3D]): label emitter, flat schema

    together with the fragment of Python's dynamic semantics their [main]
    functions rely on (truthiness, [dict.get], subscription, iteration,
    [min], [str.isalnum], [os.path]).

    Conventions of the model.
      - A Python [str] is a [string]; each character stands for the Unicode
        code point with the same number (0..255).  Code points above 255
        are not represented.
      - A JSON integer is [JInt z]; a finite float is [JFloat q] where [q] is
        its value (the rounding of a decimal literal to binary64 is not
        modelled, NaN and the infinities are not represented).
      - A [dict] is the list of its items in iteration order; keys of a
        loaded document are pairwise distinct, lookup returns the first
        item with the key.
      - Progress messages written to standard output are not recorded;
        diagnostics (skips and errors) are, as values of [diag].
      - The file system and pymatgen are the [world]: which files the glob
        matches, what [json.load] gives for each, whether the output
        directory exists or can be made, whether a structure is accepted and
        written.  Opening the CSV and the marker files for writing, and
        [csv.writer.writerow], are taken to succeed; module [Unguarded]
        gives the [main] functions with these calls of [open], which no
        [try] surrounds, allowed to fail. *)

From Stdlib Require Import String Ascii List ZArith QArith Bool Arith Lia DecimalString DecimalNat.
Import ListNotations.
Open Scope string_scope.
Open Scope nat_scope.

(** ** Python values obtained from [json.load] *)

#[local] Set Warnings "-register-all".

Inductive json : Type :=
| JNull
| JBool (b : bool)
| JInt (z : Z)
| JFloat (q : Q)
| JStr (s : string)
| JArr (l : list json)
| JObj (m : list (string * json)).

(** Exceptions the tools can meet. *)
Inductive exn : Type :=
| AttributeError
| TypeError
| KeyError (k : json)
| IndexError
| OSError.

(** Value of an expression: a result or a raised exception. *)
Inductive result (A : Type) : Type :=
| Ok (a : A)
| Raise (e : exn).
Arguments Ok {A} a.
Arguments Raise {A} e.

Definition rbind {A B} (r : result A) (k : A -> result B) : result B :=
  match r with
  | Ok a => k a
  | Raise e => Raise e
  end.

Module Py.

(** First item stored under key [k]. *)
Fixpoint assoc {A} (k : string) (m : list (string * A)) : option A :=
  match m with
  | [] => None
  | (k', v) :: m' => if String.eqb k k' then Some v else assoc k m'
  end.

(** [bool(v)]: the truth value used by [if not v]. *)
Definition truthy (v : json) : bool :=
  match v with
  | JNull => false
  | JBool b => b
  | JInt z => negb (Z.eqb z 0)
  | JFloat q => negb (Qeq_bool q 0)
  | JStr s => negb (String.eqb s "")
  | JArr l => match l with [] => false | _ :: _ => true end
  | JObj m => match m with [] => false | _ :: _ => true end
  end.

(** [v.get(k, default)]: only a dict has the method. *)
Definition get (v : json) (k : string) (default : json) : result json :=
  match v with
  | JObj m => Ok (match assoc k m with Some x => x | None => default end)
  | _ => Raise AttributeError
  end.

(** Position [i] of a sequence of length [length l], negative indices
    counting from the end. *)
Definition index {A} (l : list A) (i : Z) : result A :=
  let n := Z.of_nat (length l) in
  let j := if (i <? 0)%Z then (i + n)%Z else i in
  if ((j <? 0) || (n <=? j))%Z then Raise IndexError
  else match nth_error l (Z.to_nat j) with
       | Some x => Ok x
       | None => Raise IndexError
       end.

(** The characters of a string, each as a string of length one. *)
Fixpoint chars (s : string) : list string :=
  match s with
  | EmptyString => []
  | String c r => String c EmptyString :: chars r
  end.

(** [v[key]] *)
Definition getitem (v key : json) : result json :=
  match v with
  | JObj m =>
      match key with
      | JStr k => match assoc k m with
                  | Some x => Ok x
                  | None => Raise (KeyError key)
                  end
      | JArr _ | JObj _ => Raise TypeError
      | _ => Raise (KeyError key)
      end
  | JArr l =>
      match key with
      | JInt i => index l i
      | JBool b => index l (if b then 1 else 0)%Z
      | _ => Raise TypeError
      end
  | JStr s =>
      match key with
      | JInt i => rbind (index (chars s) i) (fun c => Ok (JStr c))
      | JBool b => rbind (index (chars s) (if b then 1 else 0)%Z) (fun c => Ok (JStr c))
      | _ => Raise TypeError
      end
  | _ => Raise TypeError
  end.

(** The items [for x in v] runs through; [len(v)] raises on the same values. *)
Definition iter (v : json) : result (list json) :=
  match v with
  | JStr s => Ok (map JStr (chars s))
  | JArr l => Ok l
  | JObj m => Ok (map (fun kv => JStr (fst kv)) m)
  | _ => Raise TypeError
  end.

(** Numeric value of [bool], [int] and [float]. *)
Definition num_val (v : json) : option Q :=
  match v with
  | JBool b => Some (if b then 1 else 0)%Q
  | JInt z => Some (inject_Z z)
  | JFloat q => Some q
  | _ => None
  end.

Definition Qltb (p q : Q) : bool := negb (Qle_bool q p).

(** [a == b] *)
Fixpoint eq (a b : json) {struct a} : bool :=
  match a, b with
  | JNull, JNull => true
  | JStr s, JStr t => String.eqb s t
  | JArr xs, JArr ys =>
      (fix go (xs ys : list json) {struct xs} : bool :=
         match xs, ys with
         | [], [] => true
         | x :: xs', y :: ys' => eq x y && go xs' ys'
         | _, _ => false
         end) xs ys
  | JObj xs, JObj ys =>
      Nat.eqb (length xs) (length ys) &&
      (fix go (xs : list (string * json)) {struct xs} : bool :=
         match xs with
         | [] => true
         | (k, v) :: xs' =>
             match assoc k ys with
             | Some w => eq v w
             | None => false
             end && go xs'
         end) xs
  | _, _ =>
      match num_val a, num_val b with
      | Some p, Some q => Qeq_bool p q
      | _, _ => false
      end
  end.

(** [a < b]: numbers by value, strings by code points, lists
    lexicographically; anything else is a [TypeError]. *)
Fixpoint lt (a b : json) {struct a} : result bool :=
  match a, b with
  | JStr s, JStr t => Ok (String.ltb s t)
  | JArr xs, JArr ys =>
      (fix go (xs ys : list json) {struct xs} : result bool :=
         match xs, ys with
         | [], [] => Ok false
         | [], _ :: _ => Ok true
         | _ :: _, [] => Ok false
         | x :: xs', y :: ys' => if eq x y then go xs' ys' else lt x y
         end) xs ys
  | _, _ =>
      match num_val a, num_val b with
      | Some p, Some q => Ok (Qltb p q)
      | _, _ => Raise TypeError
      end
  end.

(** [min(a, b)]: [b] when [b < a], else [a]. *)
Definition min (a b : json) : result json :=
  rbind (lt b a) (fun c => Ok (if c then b else a)).

(** [str(n)] for a non-negative [int], as f-strings format indices. *)
Definition str_of_nat (n : nat) : string :=
  NilEmpty.string_of_uint (Nat.to_uint n).

(** [c.isalnum()] for one character: ASCII letters and digits, and the
    letters and numeric characters of the Latin-1 supplement. *)
Definition isalnum_char (c : ascii) : bool :=
  let n := nat_of_ascii c in
  ((48 <=? n) && (n <=? 57)) || ((65 <=? n) && (n <=? 90)) ||
  ((97 <=? n) && (n <=? 122)) ||
  (n =? 170) || (n =? 178) || (n =? 179) || (n =? 181) || (n =? 185) ||
  (n =? 186) || ((188 <=? n) && (n <=? 190)) ||
  ((192 <=? n) && (n <=? 214)) || ((216 <=? n) && (n <=? 246)) ||
  ((248 <=? n) && (n <=? 255)).

Fixpoint all_alnum (s : string) : bool :=
  match s with
  | EmptyString => true
  | String c r => isalnum_char c && all_alnum r
  end.

(** [s.isalnum()]: non-empty and every character alphanumeric. *)
Definition isalnum (s : string) : bool :=
  negb (String.eqb s "") && all_alnum s.

(** [sep.join(parts)] with [sep = ""]. *)
Definition join (parts : list string) : string := String.concat "" parts.

(** Split at the last occurrence of [c]: the text before it and after it. *)
Fixpoint split_last (c : ascii) (s : string) : option (string * string) :=
  match s with
  | EmptyString => None
  | String a r =>
      match split_last c r with
      | Some (pre, post) => Some (String a pre, post)
      | None => if Ascii.eqb a c then Some (EmptyString, r) else None
      end
  end.

(** [os.path.basename(p)] *)
Definition basename (p : string) : string :=
  match split_last "/" p with
  | Some (_, post) => post
  | None => p
  end.

Fixpoint only_dots (s : string) : bool :=
  match s with
  | EmptyString => true
  | String c r => Ascii.eqb c "." && only_dots r
  end.

(** [os.path.splitext(p)[0]]: the extension starts at the last dot of the
    last component, unless only dots precede it there. *)
Definition splitext_root (p : string) : string :=
  match split_last "." (basename p) with
  | Some (pre, ext) =>
      if only_dots pre then p
      else substring 0 (String.length p - (String.length ext + 1)) p
  | None => p
  end.

Definition starts_with_sep (s : string) : bool :=
  match s with
  | String c _ => Ascii.eqb c "/"
  | EmptyString => false
  end.

Fixpoint ends_with_sep (s : string) : bool :=
  match s with
  | EmptyString => false
  | String c EmptyString => Ascii.eqb c "/"
  | String _ r => ends_with_sep r
  end.

(** [os.path.join(a, b)] *)
Definition path_join (a b : string) : string :=
  if starts_with_sep b then b
  else if String.eqb a "" || ends_with_sep a then a ++ b
  else a ++ "/" ++ b.

End Py.

(** ** Effects of a run *)

(** Diagnostics the tools print when they skip something or fail. *)
Inductive diag : Type :=
| DLoadError (file_path : string)
| DMkdirError (directory : string)
| DNoJsonFiles (input_dir : string)
| DNoEntriesUnderKey (top_key : json)
| DNoSteps (entry_index : nat) (top_key : json)
| DNoStructure (step_index entry_index : nat) (top_key : json)
| DReconstructStep (step_index entry_index : nat) (top_key : json)
| DMissingStructureOrEnergy (step_index entry_index : nat) (top_key : json)
| DWriteError (filename : string)
| DNoEntriesInFile
| DEntryNoStructure (idx : nat)
| DReconstructEntry (idx : nat)
| DMissingKey (e : exn).

(** What a run leaves behind, oldest first, and the label emitters'
    [skipped] counter. *)
Record effects : Type := mkEffects {
  poscars : list string;
  csv_path : option string;
  rows : list (string * json);
  markers : list string;
  diags : list diag;
  skipped : nat;
}.

Definition no_effects : effects := mkEffects [] None [] [] [] 0.

Definition log (d : diag) (s : effects) : effects :=
  mkEffects (poscars s) (csv_path s) (rows s) (markers s) (diags s ++ [d]) (skipped s).

Definition write_poscar (p : string) (s : effects) : effects :=
  mkEffects (poscars s ++ [p]) (csv_path s) (rows s) (markers s) (diags s) (skipped s).

Definition open_csv (p : string) (s : effects) : effects :=
  mkEffects (poscars s) (Some p) (rows s) (markers s) (diags s) (skipped s).

Definition writerow (r : string * json) (s : effects) : effects :=
  mkEffects (poscars s) (csv_path s) (rows s ++ [r]) (markers s) (diags s) (skipped s).

Definition touch (p : string) (s : effects) : effects :=
  mkEffects (poscars s) (csv_path s) (rows s) (markers s ++ [p]) (diags s) (skipped s).

Definition skip_one (s : effects) : effects :=
  mkEffects (poscars s) (csv_path s) (rows s) (markers s) (diags s) (S (skipped s)).

(** How a statement ends: normally, by [exit(code)], or by an exception
    nobody catches.  The effects so far are kept in each case. *)
Inductive outcome : Type :=
| Done (s : effects)
| Exited (code : Z) (s : effects)
| Crashed (e : exn) (s : effects).

Definition exit_status (o : outcome) : Z :=
  match o with
  | Done _ => 0
  | Exited code _ => code
  | Crashed _ _ => 1
  end.

Definition final (o : outcome) : effects :=
  match o with
  | Done s | Exited _ s | Crashed _ s => s
  end.

(** Evaluate an expression inside a statement: a raised exception ends
    the statement. *)
Definition eval_in {A} (s : effects) (r : result A) (k : A -> outcome) : outcome :=
  match r with
  | Ok a => k a
  | Raise e => Crashed e s
  end.

Notation "'let!' x ':=' r 'within' s 'in' k" :=
  (eval_in s r (fun x => k))
  (at level 10, x name, r at level 100, s at level 0, k at level 200).

(** Sequencing of statements. *)
Definition andthen (o : outcome) (k : effects -> outcome) : outcome :=
  match o with
  | Done s => k s
  | _ => o
  end.

(** [for i, x in enumerate(l, start=i)] *)
Fixpoint for_enum {A} (body : nat -> A -> effects -> outcome)
    (i : nat) (l : list A) (s : effects) : outcome :=
  match l with
  | [] => Done s
  | x :: r => andthen (body i x s) (for_enum body (S i) r)
  end.

(** The world outside the process. *)
Record world : Type := {
  (** [sorted(glob.glob(pattern))] *)
  glob_sorted : string -> list string;
  (** [json.load] of the file at a path; [None] when opening or parsing raises *)
  json_load : string -> option json;
  (** [os.path.exists] *)
  dir_exists : string -> bool;
  (** whether [os.makedirs] succeeds *)
  makedirs_ok : string -> bool;
  (** whether [Structure.from_dict] returns a structure *)
  structure_from_dict : json -> bool;
  (** whether [structure.to(fmt="poscar", filename=...)] writes the file *)
  structure_to : json -> string -> bool;
}.

(** ** The sanitizer (the same text in all four tools) *)

Definition sanitize_item (c : json) : result string :=
  match c with
  | JStr t =>
      Ok (if Py.isalnum t || String.eqb t "_" || String.eqb t "-" then t else "_")
  | _ => Raise AttributeError
  end.

Fixpoint sanitize_items (cs : list json) : result (list string) :=
  match cs with
  | [] => Ok []
  | c :: r =>
      rbind (sanitize_item c) (fun t =>
      rbind (sanitize_items r) (fun ts => Ok (t :: ts)))
  end.

Definition sanitize_filename (name : json) : result string :=
  rbind (Py.iter name) (fun cs =>
  rbind (sanitize_items cs) (fun parts => Ok (Py.join parts))).

(** On a [str] the sanitizer works character by character. *)
Definition sanitize_char (c : ascii) : ascii :=
  if Py.isalnum_char c || Ascii.eqb c "_" || Ascii.eqb c "-" then c else "_"%char.

Fixpoint sanitize_str (s : string) : string :=
  match s with
  | EmptyString => EmptyString
  | String c r => String (sanitize_char c) (sanitize_str r)
  end.

(** [x or "key_empty"] and the like, on strings. *)
Definition or_else (x default : string) : string :=
  if String.eqb x "" then default else x.

(** [v is None] *)
Definition is_none (v : json) : bool :=
  match v with
  | JNull => true
  | _ => false
  end.

(** ** 2D/makePOSCARs.py *)

Module Make2D.

Record args : Type := {
  input : string;
  output : string;
  filename_prefix : string;
}.

Section Tool.
Variable w : world.
Variable a : args.

(** [load_json]: the parsed document, or [None] after reporting the error. *)
Definition load_json (file_path : string) (s : effects) : json * effects :=
  match json_load w file_path with
  | Some data => (data, s)
  | None => (JNull, log (DLoadError file_path) s)
  end.

Definition create_output_directory (directory : string) (s : effects) : outcome :=
  if dir_exists w directory then Done s
  else if makedirs_ok w directory then Done s
  else Exited 1 (log (DMkdirError directory) s).

Definition generate_poscar (structure : json) (filename : string) (s : effects) : effects :=
  if structure_to w structure filename then write_poscar filename s
  else log (DWriteError filename) s.

(** The name built at lines 158-161 of [main]. *)
Definition poscar_filename (file_path : string) (top_key : json)
    (entry_index step_index : nat) : result string :=
  rbind (sanitize_filename top_key) (fun st =>
  let sanitized_top_key := or_else st "key_empty" in
  let base_filename := Py.basename file_path in
  rbind (sanitize_filename (JStr (Py.splitext_root base_filename)))
    (fun sanitized_base_filename =>
  Ok (filename_prefix a ++ sanitized_base_filename ++ "_" ++ sanitized_top_key
      ++ "_entry" ++ Py.str_of_nat entry_index
      ++ "_step" ++ Py.str_of_nat step_index ++ ".vasp"))).

Definition do_step (file_path : string) (top_key : json) (entry_index : nat)
    (step_index : nat) (step : json) (s : effects) : outcome :=
  let! structure_dict := Py.get step "structure" JNull within s in
  if negb (Py.truthy structure_dict) then
    Done (log (DNoStructure step_index entry_index top_key) s)
  else if negb (structure_from_dict w structure_dict) then
    Done (log (DReconstructStep step_index entry_index top_key) s)
  else
    let! name := poscar_filename file_path top_key entry_index step_index within s in
    let poscar_path := Py.path_join (output a) name in
    Done (generate_poscar structure_dict poscar_path s).

Definition do_entry (file_path : string) (top_key : json)
    (entry_index : nat) (entry : json) (s : effects) : outcome :=
  let! steps := Py.get entry "steps" (JArr []) within s in
  if negb (Py.truthy steps) then Done (log (DNoSteps entry_index top_key) s)
  else
    let! items := Py.iter steps within s in
    for_enum (do_step file_path top_key entry_index) 0 items s.

Definition do_key (file_path : string) (data : json)
    (_ : nat) (top_key : json) (s : effects) : outcome :=
  let! entries := Py.getitem data top_key within s in
  if negb (Py.truthy entries) then Done (log (DNoEntriesUnderKey top_key) s)
  else
    let! items := Py.iter entries within s in
    for_enum (do_entry file_path top_key) 0 items s.

Definition do_file (file_index : nat) (file_path : string) (s : effects) : outcome :=
  let (data, s1) := load_json file_path s in
  if is_none data then Done s1
  else
    let! keys := Py.iter data within s1 in
    for_enum (do_key file_path data) 0 keys s1.

Definition main : outcome :=
  andthen (create_output_directory (output a) no_effects) (fun s =>
  let pattern := Py.path_join (input a) "*.json" in
  let json_files := glob_sorted w pattern in
  match json_files with
  | [] => Exited 1 (log (DNoJsonFiles (input a)) s)
  | _ :: _ => for_enum do_file 0 json_files s
  end).

End Tool.
End Make2D.

(** ** 2D/writeIDPROP.py *)

Module IdProp2D.

Record args : Type := {
  input : string;
  output : string;
}.

Section Tool.
Variable w : world.
Variable a : args.

Definition load_json (file_path : string) (s : effects) : json * effects :=
  match json_load w file_path with
  | Some data => (data, s)
  | None => (JNull, log (DLoadError file_path) s)
  end.

(** The name built at line 129 of [main]; the prefix is the literal. *)
Definition poscar_filename (sanitized_base_filename sanitized_top_key : string)
    (entry_index step_index : nat) : string :=
  "POSCAR_" ++ sanitized_base_filename ++ "_" ++ sanitized_top_key
  ++ "_entry" ++ Py.str_of_nat entry_index
  ++ "_step" ++ Py.str_of_nat step_index ++ ".vasp".

Definition do_step (sanitized_base_filename sanitized_top_key : string)
    (top_key : json) (entry_index : nat)
    (step_index : nat) (step : json) (s : effects) : outcome :=
  let! structure_dict := Py.get step "structure" JNull within s in
  let! energy := Py.get step "energy" JNull within s in
  if negb (Py.truthy structure_dict) || is_none energy then
    Done (skip_one (log (DMissingStructureOrEnergy step_index entry_index top_key) s))
  else
    Done (writerow (poscar_filename sanitized_base_filename sanitized_top_key
                      entry_index step_index, energy) s).

Definition do_entry (sanitized_base_filename sanitized_top_key : string)
    (top_key : json) (entry_index : nat) (entry : json) (s : effects) : outcome :=
  let! steps := Py.get entry "steps" (JArr []) within s in
  if negb (Py.truthy steps) then Done (log (DNoSteps entry_index top_key) s)
  else
    let! items := Py.iter steps within s in
    for_enum (do_step sanitized_base_filename sanitized_top_key top_key entry_index)
      0 items s.

Definition do_key (sanitized_base_filename : string) (data : json)
    (_ : nat) (top_key : json) (s : effects) : outcome :=
  let! entries := Py.getitem data top_key within s in
  if negb (Py.truthy entries) then Done (log (DNoEntriesUnderKey top_key) s)
  else
    let! st := sanitize_filename top_key within s in
    let sanitized_top_key := or_else st "key_empty" in
    let! items := Py.iter entries within s in
    for_enum (do_entry sanitized_base_filename sanitized_top_key top_key) 0 items s.

Definition do_file (file_index : nat) (file_path : string) (s : effects) : outcome :=
  let (data, s1) := load_json file_path s in
  if is_none data then Done s1
  else
    let base_filename := Py.basename file_path in
    let! sanitized_base_filename :=
      sanitize_filename (JStr (Py.splitext_root base_filename)) within s1 in
    let! keys := Py.iter data within s1 in
    for_enum (do_key sanitized_base_filename data) 0 keys s1.

Definition main : outcome :=
  if negb (dir_exists w (output a)) && negb (makedirs_ok w (output a)) then
    Crashed OSError no_effects
  else
    let id_prop_path := Py.path_join (output a) "id_prop.csv" in
    let s := open_csv id_prop_path no_effects in
    let pattern := Py.path_join (input a) "*.json" in
    let json_files := glob_sorted w pattern in
    match json_files with
    | [] => Exited 1 (log (DNoJsonFiles (input a)) s)
    | _ :: _ => for_enum do_file 0 json_files s
    end.

End Tool.
End IdProp2D.

(** ** 3D/makePOSCARs.py *)

Module Make3D.

Record args : Type := {
  input : string;
  output : string;
  filename_prefix : string;
}.

Section Tool.
Variable w : world.
Variable a : args.

(** [load_json]: a failure is reported and ends the process. *)
Definition load_json (file_path : string) (s : effects) (k : json -> outcome) : outcome :=
  match json_load w file_path with
  | Some data => k data
  | None => Exited 1 (log (DLoadError file_path) s)
  end.

Definition create_output_directory (directory : string) (s : effects) : outcome :=
  if dir_exists w directory then Done s
  else if makedirs_ok w directory then Done s
  else Exited 1 (log (DMkdirError directory) s).

Definition generate_poscar (structure : json) (filename : string) (s : effects) : effects :=
  if structure_to w structure filename then write_poscar filename s
  else log (DWriteError filename) s.

(** Lines 154-156: the nested [mat_id], or [entry_<idx>]. *)
Definition mat_id_of (entry : json) (idx : nat) : result json :=
  let fallback := JStr ("entry_" ++ Py.str_of_nat idx) in
  rbind (Py.get entry "data" (JObj [])) (fun d =>
  rbind (Py.get d "mat_id" fallback) (fun mat_id =>
  Ok (if negb (Py.truthy mat_id) then fallback else mat_id))).

(** Lines 154-158 of [main]. *)
Definition poscar_filename (index idx : nat) (entry : json) : result string :=
  rbind (mat_id_of entry idx) (fun mat_id =>
  rbind (sanitize_filename mat_id) (fun sanitized_mat_id =>
  Ok (filename_prefix a ++ "_jsonNum_" ++ Py.str_of_nat index
      ++ "_entryNum" ++ Py.str_of_nat idx ++ "_" ++ sanitized_mat_id ++ ".vasp"))).

Definition do_entry (index : nat) (idx : nat) (entry : json) (s : effects) : outcome :=
  let! structure_dict := Py.get entry "structure" JNull within s in
  if negb (Py.truthy structure_dict) then Done (log (DEntryNoStructure idx) s)
  else if negb (structure_from_dict w structure_dict) then
    Done (log (DReconstructEntry idx) s)
  else
    let! name := poscar_filename index idx entry within s in
    let poscar_path := Py.path_join (output a) name in
    Done (generate_poscar structure_dict poscar_path s).

Definition do_file (index : nat) (file_path : string) (s : effects) : outcome :=
  let s1 := touch ("completed" ++ Py.str_of_nat index ++ ".txt") s in
  load_json file_path s1 (fun data =>
  andthen (create_output_directory (output a) s1) (fun s2 =>
  let! entries := Py.get data "entries" (JArr []) within s2 in
  if negb (Py.truthy entries) then Exited 1 (log DNoEntriesInFile s2)
  else
    let! items := Py.iter entries within s2 in
    for_enum (do_entry index) 1 items s2)).

Definition main : outcome :=
  let pattern := Py.path_join (input a) "*.json" in
  for_enum do_file 0 (glob_sorted w pattern) no_effects.

End Tool.
End Make3D.

(** ** 3D/writeIDPROP.py *)

Module IdProp3D.

Record args : Type := {
  input : string;
  output : string;
  filename_prefix : string;
}.

Section Tool.
Variable w : world.
Variable a : args.

Definition load_json (file_path : string) (s : effects) (k : json -> outcome) : outcome :=
  match json_load w file_path with
  | Some data => k data
  | None => Exited 1 (log (DLoadError file_path) s)
  end.

(** Lines 144-146. *)
Definition mat_id_of (entry : json) (idx : nat) : result json :=
  let fallback := JStr ("entry_" ++ Py.str_of_nat idx) in
  rbind (Py.get entry "data" (JObj [])) (fun d =>
  rbind (Py.get d "mat_id" fallback) (fun mat_id =>
  Ok (if negb (Py.truthy mat_id) then fallback else mat_id))).

(** Lines 144-148 of [main]. *)
Definition poscar_filename (index idx : nat) (entry : json) : result string :=
  rbind (mat_id_of entry idx) (fun mat_id =>
  rbind (sanitize_filename mat_id) (fun sanitized_mat_id =>
  Ok (filename_prefix a ++ "_jsonNum_" ++ Py.str_of_nat index
      ++ "_entryNum" ++ Py.str_of_nat idx ++ "_" ++ sanitized_mat_id ++ ".vasp"))).

(** Lines 155-158: the value written next to the name. *)
Definition label_of (entry : json) : result json :=
  rbind (Py.getitem entry (JStr "data")) (fun d1 =>
  rbind (Py.getitem d1 (JStr "band_gap_dir")) (fun direct_bandgap =>
  rbind (Py.getitem entry (JStr "data")) (fun d2 =>
  rbind (Py.getitem d2 (JStr "band_gap_ind")) (fun indirect_bandgap =>
  Py.min direct_bandgap indirect_bandgap)))).

Definition do_entry (index : nat) (idx : nat) (entry : json) (s : effects) : outcome :=
  let! name := poscar_filename index idx entry within s in
  match label_of entry with
  | Ok v => Done (writerow (name, v) s)
  | Raise (KeyError k) => Done (skip_one (log (DMissingKey (KeyError k)) s))
  | Raise e => Crashed e s
  end.

Definition do_file (index : nat) (file_path : string) (s : effects) : outcome :=
  let s1 := touch ("completed" ++ Py.str_of_nat index ++ ".txt") s in
  load_json file_path s1 (fun data =>
  let! entries := Py.get data "entries" (JArr []) within s1 in
  if negb (Py.truthy entries) then Exited 1 (log DNoEntriesInFile s1)
  else
    let! items := Py.iter entries within s1 in
    for_enum (do_entry index) 1 items s1).

Definition main : outcome :=
  let s := open_csv "./id_prop.csv" no_effects in
  let pattern := Py.path_join (input a) "*.json" in
  andthen (for_enum do_file 0 (glob_sorted w pattern) s) (fun s' =>
  Done (touch ("skipped" ++ Py.str_of_nat (skipped s') ++ "entries.txt") s')).

End Tool.
End IdProp3D.

(** ** The calls of [open] that no [try] surrounds

    The label emitters open the CSV file and the flat-schema tools a marker
    file per input file (the label emitter one more at the end) outside any
    [try]: when such a call raises, nothing catches the exception and the
    run ends there.  [open_ok path] tells whether [open(path, 'w')]
    succeeds.  2D/makePOSCARs.py opens no file for writing itself. *)

Module Unguarded.

Section Tools.
Variable w : world.
Variable open_ok : string -> bool.

(** 2D/writeIDPROP.py, [main]: line 79 comes after the directory is made
    and before the input files are listed. *)
Definition IdProp2D_main (a : IdProp2D.args) : outcome :=
  if negb (dir_exists w (IdProp2D.output a))
     && negb (makedirs_ok w (IdProp2D.output a)) then
    Crashed OSError no_effects
  else if negb (open_ok (Py.path_join (IdProp2D.output a) "id_prop.csv")) then
    Crashed OSError no_effects
  else IdProp2D.main w a.

(** 3D/makePOSCARs.py: line 118 is the first statement of the loop body
    that can fail. *)
Definition Make3D_do_file (a : Make3D.args)
    (index : nat) (file_path : string) (s : effects) : outcome :=
  if negb (open_ok ("completed" ++ Py.str_of_nat index ++ ".txt")) then
    Crashed OSError s
  else Make3D.do_file w a index file_path s.

Definition Make3D_main (a : Make3D.args) : outcome :=
  let pattern := Py.path_join (Make3D.input a) "*.json" in
  for_enum (Make3D_do_file a) 0 (glob_sorted w pattern) no_effects.

(** 3D/writeIDPROP.py: line 124 in the loop body, line 113 before the
    loop, line 164 after it. *)
Definition IdProp3D_do_file (a : IdProp3D.args)
    (index : nat) (file_path : string) (s : effects) : outcome :=
  if negb (open_ok ("completed" ++ Py.str_of_nat index ++ ".txt")) then
    Crashed OSError s
  else IdProp3D.do_file w a index file_path s.

Definition IdProp3D_main (a : IdProp3D.args) : outcome :=
  if negb (open_ok "./id_prop.csv") then Crashed OSError no_effects
  else
    let s := open_csv "./id_prop.csv" no_effects in
    let pattern := Py.path_join (IdProp3D.input a) "*.json" in
    andthen (for_enum (IdProp3D_do_file a) 0 (glob_sorted w pattern) s) (fun s' =>
    let marker := "skipped" ++ Py.str_of_nat (skipped s') ++ "entries.txt" in
    if negb (open_ok marker) then Crashed OSError s'
    else Done (touch marker s')).

End Tools.
End Unguarded.

(** ** Worlds and documents used in the examples *)

(** A world holding the given files, in sorted order, in which directories
    can be created and every structure is accepted and written. *)
Definition world_of (files : list (string * option json)) : world := {|
  glob_sorted := fun _ => map fst files;
  json_load := fun p => match Py.assoc p files with Some d => d | None => None end;
  dir_exists := fun _ => false;
  makedirs_ok := fun _ => true;
  structure_from_dict := fun _ => true;
  structure_to := fun _ _ => true;
|}.

(** Stands for a structure description pymatgen accepts. *)
Definition some_structure : json :=
  JObj [("lattice", JObj [("a", JFloat (3 # 1))]); ("sites", JArr [JObj []])].

(** * Vocabulary of the properties: shapes, expected results, sample inputs *)

(** The statement ran to its end. *)
Definition is_done (o : outcome) : bool :=
  match o with
  | Done _ => true
  | _ => false
  end.

(** Every way the tools leave early carries status 1. *)
Definition status_one (o : outcome) : Prop :=
  match o with
  | Exited code _ => code = 1%Z
  | _ => True
  end.

(** The class the specification names: [A-Za-z0-9_-]. *)
Definition ascii_word_char (c : ascii) : bool :=
  let n := nat_of_ascii c in
  ((48 <=? n) && (n <=? 57)) || ((65 <=? n) && (n <=? 90)) ||
  ((97 <=? n) && (n <=? 122)) || (n =? 95) || (n =? 45).

(** The class the code keeps: alphanumeric for [str.isalnum], [_] or [-]. *)
Definition kept_char (c : ascii) : bool :=
  Py.isalnum_char c || Ascii.eqb c "_" || Ascii.eqb c "-".

(** Every character of [s] satisfies [p]. *)
Fixpoint forall_chars (p : ascii -> bool) (s : string) : bool :=
  match s with
  | EmptyString => true
  | String c r => p c && forall_chars p r
  end.

Definition is_ascii (c : ascii) : bool := nat_of_ascii c <? 128.

(** The nested-schema sample: one group, one entry, one step. *)
Definition docA (energy : json) : json :=
  JObj [("groupA", JArr [JObj [("steps",
    JArr [JObj [("structure", some_structure); ("energy", energy)]])]])].

(** U+00E9, LATIN SMALL LETTER E WITH ACUTE. *)
Definition e_acute : ascii := ascii_of_nat 233.

(** A flat-schema entry with all its fields. *)
Definition entryB (mat_id : string) (direct indirect : Q) (structure : json) : json :=
  JObj [("data", JObj [("mat_id", JStr mat_id);
                       ("band_gap_dir", JFloat direct);
                       ("band_gap_ind", JFloat indirect)]);
        ("structure", structure)].

(** The flat-schema sample of the end-to-end scenario. *)
Definition docB (structure : json) : json :=
  JObj [("entries", JArr [entryB "mp-1" (12 # 10) (8 # 10) structure])].

Definition is_number (v : json) : bool :=
  match v with
  | JInt _ | JFloat _ => true
  | _ => false
  end.

Definition is_str (v : json) : bool :=
  match v with
  | JStr _ => true
  | _ => false
  end.

Definition if_present (p : json -> bool) (o : option json) : bool :=
  match o with
  | None => true
  | Some v => p v
  end.

(** The nested [data] dict of a flat-schema entry: the material identifier,
    when given, is a string, and the band gaps, when given, are numbers. *)
Definition dataB_ok (d : list (string * json)) : bool :=
  if_present is_str (Py.assoc "mat_id" d) &&
  if_present is_number (Py.assoc "band_gap_dir" d) &&
  if_present is_number (Py.assoc "band_gap_ind" d).

(** A flat-schema entry: a dict whose [data], when given, is such a dict. *)
Definition schemaB_entry (entry : json) : bool :=
  match entry with
  | JObj m =>
      match Py.assoc "data" m with
      | None => true
      | Some (JObj d) => dataB_ok d
      | Some _ => false
      end
  | _ => false
  end.

(** The two nested band gaps of an entry, when both keys are there. *)
Definition gaps (entry : json) : option (json * json) :=
  match entry with
  | JObj m =>
      match Py.assoc "data" m with
      | Some (JObj d) =>
          match Py.assoc "band_gap_dir" d, Py.assoc "band_gap_ind" d with
          | Some direct, Some indirect => Some (direct, indirect)
          | _, _ => None
          end
      | _ => None
      end
  | _ => None
  end.

Definition has_gaps (entry : json) : bool :=
  match gaps entry with
  | Some _ => true
  | None => false
  end.

(** The smaller of two numbers, the first when they are equal. *)
Definition min_number (x y : json) : json :=
  match Py.num_val x, Py.num_val y with
  | Some p, Some q => if Qle_bool p q then x else y
  | _, _ => x
  end.

(** The material identifier of a flat-schema entry: the nested, non-empty
    [mat_id], else [entry_<idx>]. *)
Definition mat_id_str (entry : json) (idx : nat) : string :=
  match entry with
  | JObj m =>
      match Py.assoc "data" m with
      | Some (JObj d) =>
          match Py.assoc "mat_id" d with
          | Some (JStr t) => or_else t ("entry_" ++ Py.str_of_nat idx)
          | _ => "entry_" ++ Py.str_of_nat idx
          end
      | _ => "entry_" ++ Py.str_of_nat idx
      end
  | _ => "entry_" ++ Py.str_of_nat idx
  end.

(** The name both flat-schema tools give entry [idx] of file [index]. *)
Definition nameB (prefix : string) (index idx : nat) (entry : json) : string :=
  prefix ++ "_jsonNum_" ++ Py.str_of_nat index ++ "_entryNum" ++ Py.str_of_nat idx
  ++ "_" ++ sanitize_str (mat_id_str entry idx) ++ ".vasp".

(** The rows the specification asks for: one per entry that has both band
    gaps, labelled with the smaller one. *)
Fixpoint expected_rows (prefix : string) (index i : nat) (entries : list json)
    : list (string * json) :=
  match entries with
  | [] => []
  | e :: r =>
      match gaps e with
      | Some (direct, indirect) => [(nameB prefix index i e, min_number direct indirect)]
      | None => []
      end ++ expected_rows prefix index (S i) r
  end.

(** Number of entries that lack a band-gap key. *)
Definition count_missing (entries : list json) : nat :=
  length (filter (fun e => negb (has_gaps e)) entries).

(** Three entries, the second without its indirect gap. *)
Definition three_entries : list json :=
  [ entryB "mp-1" (12 # 10) (8 # 10) some_structure;
    JObj [("data", JObj [("mat_id", JStr "mp-2"); ("band_gap_dir", JFloat (2 # 1))]);
          ("structure", some_structure)];
    entryB "mp-3" (5 # 10) (7 # 10) some_structure ].

(** The entry has no usable ['structure']: the key is absent or its value
    is empty or null. *)
Definition no_structure (entry : json) : bool :=
  match entry with
  | JObj m =>
      match Py.assoc "structure" m with
      | None => true
      | Some v => negb (Py.truthy v)
      end
  | _ => false
  end.

(** An entry with both band gaps and no structure. *)
Definition entry_without_structure : json :=
  JObj [("data", JObj [("mat_id", JStr "mp-9");
                       ("band_gap_dir", JFloat (3 # 1));
                       ("band_gap_ind", JFloat (25 # 10))])].


(** The loaded document has no entries: the key is absent, or its value is
    the empty list (or another empty or null value). *)
Definition no_entries (data : json) : bool :=
  match data with
  | JObj m =>
      match Py.assoc "entries" m with
      | None => true
      | Some v => negb (Py.truthy v)
      end
  | _ => false
  end.

(** Three input files, the second a dict without ["entries"]. *)
Definition three_files : list (string * option json) :=
  [("in/a.json", Some (docB some_structure));
   ("in/b.json", Some (JObj [("meta", JStr "no entries here")]));
   ("in/c.json", Some (docB some_structure))].

Definition is_dict (v : json) : bool :=
  match v with
  | JObj _ => true
  | _ => false
  end.

Definition list_of (p : json -> bool) (v : json) : bool :=
  match v with
  | JArr l => forallb p l
  | _ => false
  end.

(** Empty (or null), or of the given shape. *)
Definition empty_or (p : json -> bool) (v : json) : bool :=
  negb (Py.truthy v) || p v.

(** An entry: a dict whose [steps], when given, is empty or a list of dicts. *)
Definition entryA_ok (entry : json) : bool :=
  match entry with
  | JObj e => if_present (empty_or (list_of is_dict)) (Py.assoc "steps" e)
  | _ => false
  end.

(** A nested-schema document: a mapping from group keys to empty values or
    lists of entries. *)
Definition schemaA_doc (data : json) : bool :=
  match data with
  | JObj m => forallb (fun kv => empty_or (list_of entryA_ok) (snd kv)) m
  | _ => false
  end.

(** A flat-schema document: a dict whose [entries], when given, is empty or
    a list of flat-schema entries. *)
Definition schemaB_doc (data : json) : bool :=
  match data with
  | JObj m => if_present (empty_or (list_of schemaB_entry)) (Py.assoc "entries" m)
  | _ => false
  end.

(** The file cannot be loaded, or loads without entries. *)
Definition fatal3D (w : world) (file_path : string) : bool :=
  match json_load w file_path with
  | None => true
  | Some data => no_entries data
  end.

(** The directory exists or [os.makedirs] succeeds. *)
Definition can_make_dir (w : world) (directory : string) : bool :=
  dir_exists w directory || makedirs_ok w directory.

Definition is_nil {A} (l : list A) : bool :=
  match l with
  | [] => true
  | _ :: _ => false
  end.

(** Three flat-schema input files, the second not valid JSON. *)
Definition batch_with_bad_file : list (string * option json) :=
  [("in/a.json", Some (docB some_structure));
   ("in/b.json", None);
   ("in/c.json", Some (docB some_structure))].

(** Three nested-schema input files, the second not valid JSON. *)
Definition nested_batch_with_bad_file : list (string * option json) :=
  [("in/a.json", Some (docA (JFloat (-53 # 10))));
   ("in/b.json", None);
   ("in/c.json", Some (docA (JInt 1)))].

(** The entries of an input file: the list under ["entries"] of the
    loaded document; none when the file cannot be loaded or holds no such
    list. *)
Definition entries_of_file (w : world) (file_path : string) : list json :=
  match json_load w file_path with
  | Some (JObj m) =>
      match Py.assoc "entries" m with
      | Some (JArr l) => l
      | _ => []
      end
  | _ => []
  end.

(** The rows the specification asks for over a batch: those of each file
    in turn, the files numbered from [index], the entries of a file from 1. *)
Fixpoint expected_rows_of_files (w : world) (prefix : string) (index : nat)
    (files : list string) : list (string * json) :=
  match files with
  | [] => []
  | p :: r =>
      (expected_rows prefix index 1 (entries_of_file w p)
       ++ expected_rows_of_files w prefix (S index) r)%list
  end.

(** Number of entries of the batch that lack a band-gap key. *)
Definition missing_in_files (w : world) (files : list string) : nat :=
  list_sum (map (fun p => count_missing (entries_of_file w p)) files).

(** Number of entries of the batch. *)
Definition entries_in_files (w : world) (files : list string) : nat :=
  list_sum (map (fun p => length (entries_of_file w p)) files).

(** The file that reports [n] skipped entries. *)
Definition skipped_marker (n : nat) : string :=
  "skipped" ++ Py.str_of_nat n ++ "entries.txt".


(** One file with the three entries of [three_entries]. *)
Definition three_entries_file : list (string * option json) :=
  [("in/a.json", Some (JObj [("entries", JArr three_entries)]))].

(** ** Vocabulary of the further properties *)

(** An ASCII decimal digit. *)
Definition is_digit (c : ascii) : bool :=
  (48 <=? nat_of_ascii c) && (nat_of_ascii c <=? 57).

(** No character of [s] is [c]. *)
Definition no_char (c : ascii) (s : string) : bool :=
  forall_chars (fun x => negb (Ascii.eqb x c)) s.

(** Nothing of a label emitter's output is there. *)
Definition label_free (s : effects) : Prop :=
  rows s = [] /\ csv_path s = None /\ skipped s = 0.

(** No geometry file is there. *)
Definition geometry_free (s : effects) : Prop := poscars s = [].

(** Length of a list, 0 for any other value. *)
Definition len_list (v : json) : nat :=
  match v with
  | JArr l => length l
  | _ => 0
  end.

(** Number of steps of an entry. *)
Definition steps_of_entry (entry : json) : nat :=
  match entry with
  | JObj e =>
      match Py.assoc "steps" e with
      | Some v => len_list v
      | None => 0
      end
  | _ => 0
  end.

(** Number of steps in the entries of a group. *)
Definition steps_in_group (v : json) : nat :=
  match v with
  | JArr l => list_sum (map steps_of_entry l)
  | _ => 0
  end.

(** Number of steps in the group the loop reaches under a key. *)
Definition steps_under_key (m : list (string * json)) (key : json) : nat :=
  match key with
  | JStr k =>
      match Py.assoc k m with
      | Some v => steps_in_group v
      | None => 0
      end
  | _ => 0
  end.

(** Number of steps the traversal of a document meets. *)
Definition steps_in_doc (data : json) : nat :=
  match data with
  | JObj m => list_sum (map (fun kv => steps_under_key m (JStr (fst kv))) m)
  | _ => 0
  end.

(** Number of steps in a file; none when it cannot be loaded. *)
Definition steps_in_file (w : world) (file_path : string) : nat :=
  match json_load w file_path with
  | Some data => steps_in_doc data
  | None => 0
  end.

(** Rows written plus records skipped. *)
Definition handled (s : effects) : nat := length (rows s) + skipped s.

(** Two groups: one entry with a labelled step and a step without energy,
    one entry without steps; and an empty group. *)
Definition doc_two_groups : json :=
  JObj [("g1", JArr [JObj [("steps",
                      JArr [JObj [("structure", some_structure); ("energy", JInt 2)];
                            JObj [("structure", some_structure)]])];
                     JObj [("steps", JArr [])]]);
        ("g2", JArr [])].

(** Geometry files written plus diagnostics printed. *)
Definition produced (s : effects) : nat := length (poscars s) + length (diags s).

(** Each row of the label side names a file written on the geometry side. *)
Definition rows_have_files (out : string) (sg sl : effects) : Prop :=
  forall n v, In (n, v) (rows sl) -> In (Py.path_join out n) (poscars sg).

(** The entry gives no usable [mat_id]: no [data], no key, or an empty,
    null or zero value. *)
Definition mat_id_missing (entry : json) : bool :=
  match entry with
  | JObj m =>
      match Py.assoc "data" m with
      | None => true
      | Some (JObj d) =>
          match Py.assoc "mat_id" d with
          | None => true
          | Some v => negb (Py.truthy v)
          end
      | Some _ => false
      end
  | _ => false
  end.

(** The marker file of input file [i]. *)
Definition completed_marker (i : nat) : string :=
  "completed" ++ Py.str_of_nat i ++ ".txt".

(** What a statement adds to the effects of a run. *)
Record delta : Type := mkDelta {
  d_poscars : list string;
  d_rows : list (string * json);
  d_markers : list string;
  d_diags : list diag;
  d_skipped : nat;
}.

(** The effects [s] followed by the additions [d]. *)
Definition extend (s : effects) (d : delta) : effects :=
  mkEffects (poscars s ++ d_poscars d) (csv_path s) (rows s ++ d_rows d)
            (markers s ++ d_markers d) (diags s ++ d_diags d)
            (skipped s + d_skipped d).

(** Additions one after the other. *)
Definition delta_app (a b : delta) : delta :=
  mkDelta (d_poscars a ++ d_poscars b) (d_rows a ++ d_rows b)
          (d_markers a ++ d_markers b) (d_diags a ++ d_diags b)
          (d_skipped a + d_skipped b).

(** Nothing added. *)
Definition delta_nil : delta := mkDelta [] [] [] [] 0.

(** The way a statement ends. *)
Inductive ending : Type :=
| EDone
| EExit (code : Z)
| ECrash (e : exn).

(** The outcome with the given ending and effects. *)
Definition finish (k : ending) (s : effects) : outcome :=
  match k with
  | EDone => Done s
  | EExit code => Exited code s
  | ECrash e => Crashed e s
  end.

(** The statement ends the same way and adds the same things whatever was
    written before it. *)
Definition uniform (f : effects -> outcome) : Prop :=
  exists k d, forall s, f s = finish k (extend s d).

(** * Properties *)

Arguments Py.isalnum_char : simpl never.
Arguments Py.str_of_nat : simpl never.
Arguments Py.path_join : simpl never.
Arguments Py.basename : simpl never.
Arguments Py.splitext_root : simpl never.
Arguments sanitize_char : simpl never.

(** ** The Python layer on small inputs *)

Example basename_ex : Py.basename "data/in/sample.json" = "sample.json".
Proof. reflexivity. Qed.

Example splitext_ex :
  Py.splitext_root "sample.v2.json" = "sample.v2" /\
  Py.splitext_root ".json" = ".json" /\
  Py.splitext_root "a/..json" = "a/..json" /\
  Py.splitext_root "a.b/c" = "a.b/c".
Proof. repeat split; reflexivity. Qed.

Example path_join_ex :
  Py.path_join "out" "P_x.vasp" = "out/P_x.vasp" /\
  Py.path_join "out/" "P_x.vasp" = "out/P_x.vasp" /\
  Py.path_join "out" "/tmp/x.vasp" = "/tmp/x.vasp".
Proof. repeat split; reflexivity. Qed.

Example min_ex :
  Py.min (JFloat (12 # 10)) (JFloat (8 # 10)) = Ok (JFloat (8 # 10)) /\
  Py.min (JInt 1) (JFloat 1) = Ok (JInt 1) /\
  Py.min (JStr "b") (JStr "a") = Ok (JStr "a") /\
  Py.min (JArr [JInt 1; JInt 2]) (JArr [JInt 1]) = Ok (JArr [JInt 1]) /\
  Py.min (JInt 1) (JStr "a") = Raise TypeError /\
  Py.min JNull JNull = Raise TypeError.
Proof. repeat split; reflexivity. Qed.

(** ** Loops *)

Lemma for_enum_app {A} (body : nat -> A -> effects -> outcome) l1 l2 i s :
  for_enum body i (l1 ++ l2) s =
  andthen (for_enum body i l1 s) (for_enum body (i + length l1) l2).
Proof.
  revert i s. induction l1 as [|x l1 IH]; intros i s; simpl.
  - now rewrite Nat.add_0_r.
  - destruct (body i x s) as [s1| |]; simpl; auto.
    rewrite IH. now replace (S i + length l1) with (i + S (length l1)) by lia.
Qed.

(** An item whose body never completes ends the loop: what follows it in
    the list is not looked at. *)
Lemma for_enum_stops {A} (body : nat -> A -> effects -> outcome) x pre post :
  (forall i s, is_done (body i x s) = false) ->
  forall i s,
    for_enum body i (pre ++ x :: post) s = for_enum body i (pre ++ [x]) s /\
    is_done (for_enum body i (pre ++ x :: post) s) = false.
Proof.
  intros Hx i s. rewrite !for_enum_app.
  destruct (for_enum body i pre s) as [s1| |]; simpl; auto.
  specialize (Hx (i + length pre) s1).
  destruct (body (i + length pre) x s1); simpl in *; auto; discriminate.
Qed.

Lemma for_enum_final_inv {A} (P : effects -> Prop)
    (body : nat -> A -> effects -> outcome) :
  (forall i x s, P s -> P (final (body i x s))) ->
  forall l i s, P s -> P (final (for_enum body i l s)).
Proof.
  intros Hb l. induction l as [|x l IH]; intros i s Hs; simpl; auto.
  specialize (Hb i x s Hs).
  destruct (body i x s); simpl in *; auto.
Qed.

Lemma for_enum_status {A} (body : nat -> A -> effects -> outcome) :
  (forall i x s, status_one (body i x s)) ->
  forall l i s, status_one (for_enum body i l s).
Proof.
  intros Hb l. induction l as [|x l IH]; intros i s; simpl; auto.
  specialize (Hb i x s). destruct (body i x s); simpl in *; auto.
Qed.

Lemma status_one_eval_in {A} s (r : result A) k :
  (forall x, status_one (k x)) -> status_one (eval_in s r k).
Proof. destruct r; simpl; auto. Qed.

Lemma not_done_status o :
  status_one o -> is_done o = false -> exit_status o = 1%Z.
Proof. destruct o; simpl; intros; auto; discriminate. Qed.

Lemma done_status o : is_done o = true -> exit_status o = 0%Z.
Proof. destruct o; simpl; intros; auto; discriminate. Qed.

(** ** The sanitizer *)

Lemma concat_empty_cons x xs : Py.join (x :: xs) = x ++ Py.join xs.
Proof.
  unfold Py.join. destruct xs; simpl; auto.
  induction x; simpl; congruence.
Qed.

Lemma sanitize_item_char c :
  sanitize_item (JStr (String c EmptyString)) =
  Ok (String (sanitize_char c) EmptyString).
Proof.
  unfold sanitize_item, sanitize_char, Py.isalnum. simpl.
  destruct (Py.isalnum_char c), (Ascii.eqb c "_"), (Ascii.eqb c "-"); reflexivity.
Qed.

Lemma sanitize_items_chars s :
  sanitize_items (map JStr (Py.chars s)) = Ok (Py.chars (sanitize_str s)).
Proof.
  induction s as [|c r IH]; [reflexivity|].
  cbn [Py.chars map sanitize_items sanitize_str].
  rewrite sanitize_item_char. cbn [rbind]. rewrite IH. reflexivity.
Qed.

Lemma join_chars s : Py.join (Py.chars s) = s.
Proof.
  induction s as [|c r IH]; auto.
  simpl Py.chars. rewrite concat_empty_cons, IH. reflexivity.
Qed.

(** On a [str] the sanitizer never raises and is [sanitize_str]. *)
Lemma sanitize_filename_str s : sanitize_filename (JStr s) = Ok (sanitize_str s).
Proof.
  unfold sanitize_filename. simpl. rewrite sanitize_items_chars. simpl.
  now rewrite join_chars.
Qed.

Lemma sanitize_char_idem c : sanitize_char (sanitize_char c) = sanitize_char c.
Proof.
  unfold sanitize_char.
  destruct (Py.isalnum_char c || Ascii.eqb c "_" || Ascii.eqb c "-") eqn:E.
  - now rewrite E.
  - reflexivity.
Qed.

Lemma sanitize_str_idem s : sanitize_str (sanitize_str s) = sanitize_str s.
Proof.
  induction s as [|c r IH]; simpl; auto. now rewrite sanitize_char_idem, IH.
Qed.

Lemma sanitize_str_length s : String.length (sanitize_str s) = String.length s.
Proof. induction s; simpl; auto. Qed.

Lemma sanitize_char_kept c : kept_char (sanitize_char c) = true.
Proof.
  unfold sanitize_char, kept_char.
  destruct (Py.isalnum_char c || Ascii.eqb c "_" || Ascii.eqb c "-") eqn:E; auto.
Qed.

Lemma kept_ascii_is_word c :
  is_ascii c = true -> kept_char c = true -> ascii_word_char c = true.
Proof.
  unfold is_ascii, kept_char, ascii_word_char, Py.isalnum_char.
  intros Ha Hk.
  assert (Hu : Ascii.eqb c "_" = (nat_of_ascii c =? 95)).
  { destruct (Ascii.eqb_spec c "_") as [->|N]; [reflexivity|].
    symmetry. apply Nat.eqb_neq. intro E. apply N.
    rewrite <- (ascii_nat_embedding c), E. reflexivity. }
  assert (Hd : Ascii.eqb c "-" = (nat_of_ascii c =? 45)).
  { destruct (Ascii.eqb_spec c "-") as [->|N]; [reflexivity|].
    symmetry. apply Nat.eqb_neq. intro E. apply N.
    rewrite <- (ascii_nat_embedding c), E. reflexivity. }
  rewrite Hu, Hd in Hk. clear Hu Hd.
  set (n := nat_of_ascii c) in *.
  apply Nat.ltb_lt in Ha.
  repeat rewrite orb_true_iff in Hk. repeat rewrite andb_true_iff in Hk.
  repeat rewrite Nat.leb_le in Hk. repeat rewrite Nat.eqb_eq in Hk.
  repeat rewrite orb_true_iff. repeat rewrite andb_true_iff.
  repeat rewrite Nat.leb_le. repeat rewrite Nat.eqb_eq.
  lia.
Qed.

Lemma sanitize_char_ascii c : is_ascii c = true -> is_ascii (sanitize_char c) = true.
Proof.
  unfold sanitize_char. intros H.
  destruct (Py.isalnum_char c || Ascii.eqb c "_" || Ascii.eqb c "-"); auto.
Qed.

Lemma or_else_nonempty x d : d <> "" -> or_else x d <> "".
Proof.
  unfold or_else. intros Hd. destruct (String.eqb_spec x ""); auto.
Qed.

(** ** Filename derivation, geometry emitter against label emitter *)

(** The two flat-schema tools build the name from the same inputs in the
    same way. *)
Lemma poscar_filename_3D_agree p i1 o1 i2 o2 index idx entry :
  Make3D.poscar_filename
    {| Make3D.input := i1; Make3D.output := o1; Make3D.filename_prefix := p |}
    index idx entry =
  IdProp3D.poscar_filename
    {| IdProp3D.input := i2; IdProp3D.output := o2; IdProp3D.filename_prefix := p |}
    index idx entry.
Proof. reflexivity. Qed.

(** The nested-schema geometry emitter puts the command-line prefix where
    the label emitter puts the literal [POSCAR_]. *)
Lemma poscar_filename_2D_shape a file_path k entry_index step_index :
  let stem := sanitize_str (Py.splitext_root (Py.basename file_path)) in
  let key := or_else (sanitize_str k) "key_empty" in
  let rest := stem ++ "_" ++ key ++ "_entry" ++ Py.str_of_nat entry_index
              ++ "_step" ++ Py.str_of_nat step_index ++ ".vasp" in
  Make2D.poscar_filename a file_path (JStr k) entry_index step_index =
    Ok (Make2D.filename_prefix a ++ rest) /\
  IdProp2D.poscar_filename stem key entry_index step_index = "POSCAR_" ++ rest.
Proof.
  unfold Make2D.poscar_filename, IdProp2D.poscar_filename.
  rewrite !sanitize_filename_str. simpl. auto.
Qed.

(** C1, at the failing input: the nested-schema geometry emitter run with
    [-f STRUCT_] names the record's file [STRUCT_sample_groupA_entry0_step0.vasp],
    the label emitter, which has no prefix option, writes
    [POSCAR_sample_groupA_entry0_step0.vasp] for the same record of the same
    file; the two names differ. *)
Theorem C1_prefix_ignored_by_2D_label_emitter :
  let w := world_of [("in/sample.json", Some (docA (JFloat (-53 # 10))))] in
  poscars (final (Make2D.main w
    {| Make2D.input := "in"; Make2D.output := "POSCAR_files";
       Make2D.filename_prefix := "STRUCT_" |})) =
    ["POSCAR_files/STRUCT_sample_groupA_entry0_step0.vasp"] /\
  rows (final (IdProp2D.main w
    {| IdProp2D.input := "in"; IdProp2D.output := "." |})) =
    [("POSCAR_sample_groupA_entry0_step0.vasp", JFloat (-53 # 10))] /\
  "STRUCT_sample_groupA_entry0_step0.vasp" <> "POSCAR_sample_groupA_entry0_step0.vasp".
Proof.
  repeat split; try reflexivity. discriminate.
Qed.

(** ** C4: the sanitizer *)

(** C4 as stated fails: the letter U+00E9 is alphanumeric for
    [str.isalnum], the sanitizer keeps it, and it is outside [A-Za-z0-9_-]. *)
Lemma C4_non_ascii_letter_kept :
  sanitize_filename (JStr (String e_acute "")) = Ok (String e_acute "") /\
  ascii_word_char e_acute = false.
Proof. split; reflexivity. Qed.

Lemma forall_chars_sanitize_kept s : forall_chars kept_char (sanitize_str s) = true.
Proof.
  induction s as [|c r IH]; [reflexivity|].
  cbn [sanitize_str forall_chars]. now rewrite sanitize_char_kept, IH.
Qed.

Lemma forall_chars_sanitize_ascii s :
  forall_chars is_ascii s = true ->
  forall_chars ascii_word_char (sanitize_str s) = true.
Proof.
  induction s as [|c r IH]; [reflexivity|].
  cbn [sanitize_str forall_chars].
  intros H. apply andb_true_iff in H as [Hc Hr].
  rewrite IH by assumption. rewrite andb_true_r.
  apply kept_ascii_is_word.
  - now apply sanitize_char_ascii.
  - apply sanitize_char_kept.
Qed.

(** C4, amended: on every string the sanitizer returns (never raises), is
    idempotent, and leaves only characters that are [_], [-] or alphanumeric
    in the sense of [str.isalnum]; on ASCII input these are exactly
    [A-Za-z0-9_-].  A group key that sanitizes to the empty string appears in
    the nested-schema filename as [key_empty], so the key segment is never
    empty. *)
Theorem C4_sanitizer_total_idempotent :
  forall s : string,
    sanitize_filename (JStr s) = Ok (sanitize_str s) /\
    sanitize_filename (JStr (sanitize_str s)) = Ok (sanitize_str s) /\
    forall_chars kept_char (sanitize_str s) = true /\
    (forall_chars is_ascii s = true ->
     forall_chars ascii_word_char (sanitize_str s) = true) /\
    (forall a file_path entry_index step_index,
       exists key,
         key <> "" /\
         (sanitize_str s = "" -> key = "key_empty") /\
         (sanitize_str s <> "" -> key = sanitize_str s) /\
         Make2D.poscar_filename a file_path (JStr s) entry_index step_index =
         Ok (Make2D.filename_prefix a
             ++ sanitize_str (Py.splitext_root (Py.basename file_path))
             ++ "_" ++ key ++ "_entry" ++ Py.str_of_nat entry_index
             ++ "_step" ++ Py.str_of_nat step_index ++ ".vasp")).
Proof.
  intros s. repeat split.
  - apply sanitize_filename_str.
  - rewrite sanitize_filename_str. now rewrite sanitize_str_idem.
  - apply forall_chars_sanitize_kept.
  - apply forall_chars_sanitize_ascii.
  - intros a file_path entry_index step_index.
    exists (or_else (sanitize_str s) "key_empty"). repeat split.
    + apply or_else_nonempty. discriminate.
    + intros E. rewrite E. reflexivity.
    + intros N. unfold or_else.
      destruct (String.eqb_spec (sanitize_str s) ""); congruence.
    + apply (poscar_filename_2D_shape a file_path s entry_index step_index).
Qed.

Lemma C4_sanitizer_witness :
  forall_chars is_ascii "my key/1" = true /\
  forall_chars ascii_word_char (sanitize_str "my key/1") = true.
Proof.
  split; [reflexivity|].
  apply (proj1 (proj2 (proj2 (proj2 (C4_sanitizer_total_idempotent "my key/1"))))).
  reflexivity.
Defined.

(** ** C9: where the flat-schema label emitter writes the CSV *)

Ltac step_outcome :=
  repeat match goal with
  | |- context [eval_in _ ?r _] => destruct r; cbn [eval_in]
  | |- context [if ?b then _ else _] => destruct b
  | |- context [match ?r with Ok _ => _ | Raise _ => _ end] => destruct r
  | |- context [match ?e with KeyError _ => _ | _ => _ end] => destruct e
  end; cbn [final andthen]; auto.

Lemma IdProp3D_do_entry_csv a index idx entry s :
  csv_path (final (IdProp3D.do_entry a index idx entry s)) = csv_path s.
Proof. unfold IdProp3D.do_entry. step_outcome. Qed.

Lemma IdProp3D_do_file_csv w a p index file_path s :
  csv_path s = Some p ->
  csv_path (final (IdProp3D.do_file w a index file_path s)) = Some p.
Proof.
  intros Hs. unfold IdProp3D.do_file, IdProp3D.load_json.
  destruct (json_load w file_path) as [data|]; [|exact Hs].
  destruct (Py.get data "entries" (JArr [])) as [entries|]; cbn [eval_in]; [|exact Hs].
  destruct (negb (Py.truthy entries)); [exact Hs|].
  destruct (Py.iter entries) as [items|]; cbn [eval_in]; [|exact Hs].
  apply (for_enum_final_inv (fun s => csv_path s = Some p)); [|exact Hs].
  intros i x s0 H0. now rewrite IdProp3D_do_entry_csv.
Qed.

(** C9: whatever [-o/--output] is, the flat-schema label emitter opens
    [./id_prop.csv]; the run does not depend on the output argument at all. *)
Theorem C9_label_csv_path_ignores_output :
  forall (w : world) (a : IdProp3D.args),
    csv_path (final (IdProp3D.main w a)) = Some "./id_prop.csv" /\
    forall o : string,
      IdProp3D.main w
        {| IdProp3D.input := IdProp3D.input a; IdProp3D.output := o;
           IdProp3D.filename_prefix := IdProp3D.filename_prefix a |} =
      IdProp3D.main w a.
Proof.
  intros w a. split.
  - unfold IdProp3D.main.
    pose proof (for_enum_final_inv (fun s => csv_path s = Some "./id_prop.csv")
                  (IdProp3D.do_file w a)
                  (fun i x s H => IdProp3D_do_file_csv w a _ i x s H)
                  (glob_sorted w (Py.path_join (IdProp3D.input a) "*.json")) 0
                  (open_csv "./id_prop.csv" no_effects) eq_refl) as H.
    destruct (for_enum _ _ _ _); cbn [andthen final] in *; exact H.
  - intros o. destruct a; reflexivity.
Qed.

(** ** C6: the flat-schema scenario *)

Lemma Make3D_create_dir_ok w directory s :
  dir_exists w directory || makedirs_ok w directory = true ->
  Make3D.create_output_directory w directory s = Done s.
Proof.
  unfold Make3D.create_output_directory. intros H.
  destruct (dir_exists w directory); [reflexivity|].
  simpl in H. now rewrite H.
Qed.

(** C6: the document with the single entry (mat_id mp-1, direct gap 1.2,
    indirect gap 0.8, a structure pymatgen accepts), alone in the input
    directory and so processed as file 0, with prefix [POSCAR_]: the geometry
    emitter writes [POSCAR__jsonNum_0_entryNum1_mp-1.vasp] in the output
    directory, the label emitter writes the single row
    ([POSCAR__jsonNum_0_entryNum1_mp-1.vasp], 0.8). *)
Theorem C6_schemaB_end_to_end :
  forall (w : world) (input_dir out_dir label_out file_path : string)
         (structure : json),
    glob_sorted w (Py.path_join input_dir "*.json") = [file_path] ->
    json_load w file_path = Some (docB structure) ->
    Py.truthy structure = true ->
    structure_from_dict w structure = true ->
    dir_exists w out_dir || makedirs_ok w out_dir = true ->
    structure_to w structure
      (Py.path_join out_dir "POSCAR__jsonNum_0_entryNum1_mp-1.vasp") = true ->
    exists g l,
      Make3D.main w
        {| Make3D.input := input_dir; Make3D.output := out_dir;
           Make3D.filename_prefix := "POSCAR_" |} = Done g /\
      poscars g = [Py.path_join out_dir "POSCAR__jsonNum_0_entryNum1_mp-1.vasp"] /\
      IdProp3D.main w
        {| IdProp3D.input := input_dir; IdProp3D.output := label_out;
           IdProp3D.filename_prefix := "POSCAR_" |} = Done l /\
      rows l = [("POSCAR__jsonNum_0_entryNum1_mp-1.vasp", JFloat (8 # 10))].
Proof.
  intros w input_dir out_dir label_out file_path structure
         Hglob Hload Htruthy Hfrom Hdir Hto.
  eexists. eexists. split; [|split; [|split]].
  - unfold Make3D.main. cbn [Make3D.input]. rewrite Hglob.
    cbn [for_enum]. unfold Make3D.do_file, Make3D.load_json.
    rewrite Hload. cbn [Make3D.output].
    rewrite Make3D_create_dir_ok by assumption.
    cbn [andthen]. unfold docB at 1. cbn [Py.get Py.assoc String.eqb Ascii.eqb Bool.eqb eval_in].
    cbn [Py.truthy negb Py.iter eval_in for_enum].
    unfold Make3D.do_entry, entryB.
    cbn [Py.get Py.assoc String.eqb Ascii.eqb Bool.eqb eval_in].
    rewrite Htruthy, Hfrom. cbn [negb].
    replace (Make3D.poscar_filename _ 0 1 _)
      with (Ok (A:=string) "POSCAR__jsonNum_0_entryNum1_mp-1.vasp") by reflexivity.
    cbn [eval_in Make3D.output]. unfold Make3D.generate_poscar.
    rewrite Hto. cbn [andthen]. reflexivity.
  - reflexivity.
  - unfold IdProp3D.main. cbn [IdProp3D.input]. rewrite Hglob.
    cbn [for_enum]. unfold IdProp3D.do_file, IdProp3D.load_json.
    rewrite Hload. unfold docB at 1.
    cbn [Py.get Py.assoc String.eqb Ascii.eqb Bool.eqb eval_in].
    cbn [Py.truthy negb Py.iter eval_in for_enum].
    unfold IdProp3D.do_entry.
    replace (IdProp3D.poscar_filename _ 0 1 _)
      with (Ok (A:=string) "POSCAR__jsonNum_0_entryNum1_mp-1.vasp") by reflexivity.
    cbn [eval_in].
    replace (IdProp3D.label_of _) with (Ok (JFloat (8 # 10))) by reflexivity.
    cbn [andthen]. reflexivity.
  - reflexivity.
Qed.

Lemma C6_schemaB_witness :
  exists g l,
    Make3D.main (world_of [("in/decompressed_000.json", Some (docB some_structure))])
      {| Make3D.input := "in"; Make3D.output := "POSCAR_files";
         Make3D.filename_prefix := "POSCAR_" |} = Done g /\
    poscars g = ["POSCAR_files/POSCAR__jsonNum_0_entryNum1_mp-1.vasp"] /\
    IdProp3D.main (world_of [("in/decompressed_000.json", Some (docB some_structure))])
      {| IdProp3D.input := "in"; IdProp3D.output := ".";
         IdProp3D.filename_prefix := "POSCAR_" |} = Done l /\
    rows l = [("POSCAR__jsonNum_0_entryNum1_mp-1.vasp", JFloat (8 # 10))].
Proof.
  apply (C6_schemaB_end_to_end
           (world_of [("in/decompressed_000.json", Some (docB some_structure))])
           "in" "POSCAR_files" "." "in/decompressed_000.json" some_structure);
    reflexivity.
Defined.

(** ** The flat schema: shape of an entry *)

Lemma min_of_numbers x y :
  is_number x = true -> is_number y = true -> Py.min x y = Ok (min_number x y).
Proof.
  unfold Py.min, min_number.
  destruct x; try discriminate; destruct y; try discriminate; intros _ _;
    cbn [Py.lt Py.num_val rbind]; unfold Py.Qltb;
    match goal with |- context [Qle_bool ?p ?q] => destruct (Qle_bool p q) end;
    reflexivity.
Qed.

(** [min_number] is one of its arguments and is below both. *)
Lemma min_number_spec x y p q :
  Py.num_val x = Some p -> Py.num_val y = Some q ->
  (min_number x y = x \/ min_number x y = y) /\
  exists r, Py.num_val (min_number x y) = Some r /\ (r <= p)%Q /\ (r <= q)%Q.
Proof.
  intros Hx Hy. unfold min_number. rewrite Hx, Hy.
  destruct (Qle_bool p q) eqn:E.
  - split; [now left|]. exists p. repeat split; auto.
    + apply Qle_refl.
    + now apply Qle_bool_iff.
  - split; [now right|]. exists q. repeat split; auto.
    + destruct (Qlt_le_dec q p) as [L|L].
      * now apply Qlt_le_weak.
      * apply Qle_bool_iff in L. congruence.
    + apply Qle_refl.
Qed.

Lemma fallback_truthy idx : Py.truthy (JStr ("entry_" ++ Py.str_of_nat idx)) = true.
Proof. reflexivity. Qed.

Lemma mat_id_of_schemaB entry idx :
  schemaB_entry entry = true ->
  IdProp3D.mat_id_of entry idx = Ok (JStr (mat_id_str entry idx)).
Proof.
  unfold schemaB_entry, IdProp3D.mat_id_of, mat_id_str.
  destruct entry as [| | | | |l|m]; try discriminate.
  cbn [Py.get rbind].
  destruct (Py.assoc "data" m) as [d|]; [|intros _; reflexivity].
  destruct d as [| | | | |l|d]; try discriminate.
  unfold dataB_ok. intros H.
  apply andb_true_iff in H as [H _]. apply andb_true_iff in H as [H _].
  cbn [Py.get rbind].
  destruct (Py.assoc "mat_id" d) as [v|]; [|reflexivity].
  destruct v; try discriminate.
  cbn [Py.truthy]. unfold or_else.
  destruct (String.eqb s ""); reflexivity.
Qed.

Lemma IdProp3D_filename_schemaB a index idx entry :
  schemaB_entry entry = true ->
  IdProp3D.poscar_filename a index idx entry =
  Ok (nameB (IdProp3D.filename_prefix a) index idx entry).
Proof.
  intros H. unfold IdProp3D.poscar_filename.
  rewrite (mat_id_of_schemaB _ _ H). cbn [rbind].
  rewrite sanitize_filename_str. reflexivity.
Qed.

Lemma Make3D_filename_schemaB a index idx entry :
  schemaB_entry entry = true ->
  Make3D.poscar_filename a index idx entry =
  Ok (nameB (Make3D.filename_prefix a) index idx entry).
Proof.
  intros H. unfold Make3D.poscar_filename.
  change (Make3D.mat_id_of entry idx) with (IdProp3D.mat_id_of entry idx).
  rewrite (mat_id_of_schemaB _ _ H). cbn [rbind].
  rewrite sanitize_filename_str. reflexivity.
Qed.

Lemma label_of_with_gaps entry direct indirect :
  schemaB_entry entry = true ->
  gaps entry = Some (direct, indirect) ->
  IdProp3D.label_of entry = Ok (min_number direct indirect).
Proof.
  unfold schemaB_entry, gaps, IdProp3D.label_of.
  destruct entry as [| | | | |l|m]; try discriminate.
  cbn [Py.getitem].
  destruct (Py.assoc "data" m) as [d|]; [|discriminate].
  destruct d as [| | | | |l|d]; try discriminate.
  unfold dataB_ok. intros H.
  apply andb_true_iff in H as [H Hi]. apply andb_true_iff in H as [_ Hd].
  cbn [rbind Py.getitem].
  destruct (Py.assoc "band_gap_dir" d) as [x|]; [|discriminate].
  destruct (Py.assoc "band_gap_ind" d) as [y|]; [|discriminate].
  intros E. injection E as -> ->. cbn [rbind].
  now apply min_of_numbers.
Qed.

Lemma label_of_without_gaps entry :
  schemaB_entry entry = true ->
  gaps entry = None ->
  exists k, IdProp3D.label_of entry = Raise (KeyError (JStr k)).
Proof.
  unfold schemaB_entry, gaps, IdProp3D.label_of.
  destruct entry as [| | | | |l|m]; try discriminate.
  cbn [Py.getitem].
  destruct (Py.assoc "data" m) as [d|]; [|intros _ _; now exists "data"].
  destruct d as [| | | | |l|d]; try discriminate.
  intros _. cbn [rbind Py.getitem].
  destruct (Py.assoc "band_gap_dir" d) as [x|];
    [|intros _; now exists "band_gap_dir"].
  destruct (Py.assoc "band_gap_ind" d) as [y|]; [discriminate|].
  intros _. now exists "band_gap_ind".
Qed.

(** ** The entry loop of the flat-schema label emitter *)

Lemma IdProp3D_do_entry_schemaB a index idx entry s :
  schemaB_entry entry = true ->
  match gaps entry with
  | Some (direct, indirect) =>
      IdProp3D.do_entry a index idx entry s =
      Done (writerow (nameB (IdProp3D.filename_prefix a) index idx entry,
                      min_number direct indirect) s)
  | None =>
      exists k,
        IdProp3D.do_entry a index idx entry s =
        Done (skip_one (log (DMissingKey (KeyError (JStr k))) s))
  end.
Proof.
  intros H. unfold IdProp3D.do_entry.
  rewrite (IdProp3D_filename_schemaB a index idx entry H). cbn [eval_in].
  destruct (gaps entry) as [[direct indirect]|] eqn:G.
  - now rewrite (label_of_with_gaps entry direct indirect H G).
  - destruct (label_of_without_gaps entry H G) as [k Hk].
    exists k. now rewrite Hk.
Qed.

Lemma expected_rows_length prefix index entries :
  forall i, length (expected_rows prefix index i entries) + count_missing entries
            = length entries.
Proof.
  unfold count_missing.
  induction entries as [|e r IH]; intros i; [reflexivity|].
  cbn [expected_rows filter]. rewrite length_app. specialize (IH (S i)).
  unfold has_gaps in *. destruct (gaps e) as [[d n]|]; cbn [negb length] in *; lia.
Qed.

(** Over the entries of a flat-schema file the loop writes one row for each
    entry that has both band-gap keys and counts each of the others as
    skipped; it opens no file. *)
Lemma IdProp3D_entries_rows_and_skips a index entries :
  forall (i : nat) (s : effects),
    forallb schemaB_entry entries = true ->
    exists s',
      for_enum (IdProp3D.do_entry a index) i entries s = Done s' /\
      rows s' = (rows s ++ expected_rows (IdProp3D.filename_prefix a) index i entries)%list /\
      skipped s' = skipped s + count_missing entries /\
      markers s' = markers s.
Proof.
  induction entries as [|e r IH]; intros i s Hall.
  - exists s. cbn [for_enum expected_rows]. unfold count_missing.
    cbn [filter length]. rewrite app_nil_r, Nat.add_0_r.
    repeat split; reflexivity.
  - cbn [forallb] in Hall. apply andb_true_iff in Hall as [He Hr].
    pose proof (IdProp3D_do_entry_schemaB a index i e s He) as Hstep.
    cbn [for_enum expected_rows]. unfold count_missing in *.
    cbn [filter]. unfold has_gaps in *.
    destruct (gaps e) as [[direct indirect]|].
    + rewrite Hstep. cbn [andthen negb].
      destruct (IH (S i) (writerow (nameB (IdProp3D.filename_prefix a) index i e,
                                    min_number direct indirect) s) Hr)
        as (s' & Hrun & Hrows & Hskip & Hm).
      exists s'. repeat split.
      * exact Hrun.
      * rewrite Hrows. cbn [rows writerow]. now rewrite <- app_assoc.
      * rewrite Hskip. reflexivity.
      * rewrite Hm. reflexivity.
    + destruct Hstep as [k Hstep]. rewrite Hstep. cbn [andthen negb].
      destruct (IH (S i) (skip_one (log (DMissingKey (KeyError (JStr k))) s)) Hr)
        as (s' & Hrun & Hrows & Hskip & Hm).
      exists s'. repeat split.
      * exact Hrun.
      * rewrite Hrows. reflexivity.
      * rewrite Hskip. cbn [skipped skip_one log length]. lia.
      * rewrite Hm. reflexivity.
Qed.

(** ** C10: rows without a geometry file *)

Lemma Make3D_do_entry_no_structure w a index idx entry s :
  no_structure entry = true ->
  Make3D.do_entry w a index idx entry s = Done (log (DEntryNoStructure idx) s).
Proof.
  unfold no_structure, Make3D.do_entry.
  destruct entry as [| | | | |l|m]; try discriminate.
  cbn [Py.get eval_in].
  destruct (Py.assoc "structure" m) as [v|]; intros H.
  - now rewrite H.
  - reflexivity.
Qed.

(** C10: for a flat-schema entry that has both band gaps but no structure,
    the label emitter writes its row while the geometry emitter skips the
    entry; so a run exists whose CSV names a file the geometry emitter, run
    on the same input with the same prefix, never writes. *)
Theorem C10_label_rows_without_geometry :
  (forall (w : world) (ag : Make3D.args) (al : IdProp3D.args)
          (index idx : nat) (entry direct indirect : json) (sg sl : effects),
      schemaB_entry entry = true ->
      gaps entry = Some (direct, indirect) ->
      no_structure entry = true ->
      IdProp3D.do_entry al index idx entry sl =
        Done (writerow (nameB (IdProp3D.filename_prefix al) index idx entry,
                        min_number direct indirect) sl) /\
      Make3D.do_entry w ag index idx entry sg =
        Done (log (DEntryNoStructure idx) sg)) /\
  (exists (w : world) (input_dir out_dir prefix name : string) (v : json),
      let g := final (Make3D.main w
                 {| Make3D.input := input_dir; Make3D.output := out_dir;
                    Make3D.filename_prefix := prefix |}) in
      let l := final (IdProp3D.main w
                 {| IdProp3D.input := input_dir; IdProp3D.output := out_dir;
                    IdProp3D.filename_prefix := prefix |}) in
      In (name, v) (rows l) /\ ~ In (Py.path_join out_dir name) (poscars g)).
Proof.
  split.
  - intros w ag al index idx entry direct indirect sg sl Hshape Hgaps Hno.
    split.
    + pose proof (IdProp3D_do_entry_schemaB al index idx entry sl Hshape) as H.
      now rewrite Hgaps in H.
    + now apply Make3D_do_entry_no_structure.
  - exists (world_of [("in/a.json",
                       Some (JObj [("entries", JArr [entry_without_structure])]))]).
    exists "in", "POSCAR_files", "POSCAR_".
    exists "POSCAR__jsonNum_0_entryNum1_mp-9.vasp", (JFloat (25 # 10)).
    split.
    + left. reflexivity.
    + intros H. exact H.
Qed.

Lemma C10_witness :
  IdProp3D.do_entry
    {| IdProp3D.input := "in"; IdProp3D.output := ".";
       IdProp3D.filename_prefix := "POSCAR_" |} 0 1 entry_without_structure no_effects =
    Done (writerow ("POSCAR__jsonNum_0_entryNum1_mp-9.vasp", JFloat (25 # 10)) no_effects) /\
  Make3D.do_entry (world_of [])
    {| Make3D.input := "in"; Make3D.output := "POSCAR_files";
       Make3D.filename_prefix := "POSCAR_" |} 0 1 entry_without_structure no_effects =
    Done (log (DEntryNoStructure 1) no_effects).
Proof.
  exact (proj1 C10_label_rows_without_geometry (world_of [])
           {| Make3D.input := "in"; Make3D.output := "POSCAR_files";
              Make3D.filename_prefix := "POSCAR_" |}
           {| IdProp3D.input := "in"; IdProp3D.output := ".";
              IdProp3D.filename_prefix := "POSCAR_" |}
           0 1 entry_without_structure (JFloat (3 # 1)) (JFloat (25 # 10))
           no_effects no_effects eq_refl eq_refl eq_refl).
Defined.

(** ** C8: records whose label is absent or not a number *)


(** In the flat schema a present label of another type is handed to [min]:
    two strings give a row, a number and a string end the run. *)
Example flat_non_numeric_gaps :
  let a := {| IdProp3D.input := "in"; IdProp3D.output := ".";
              IdProp3D.filename_prefix := "POSCAR_" |} in
  IdProp3D.do_entry a 0 1
    (JObj [("data", JObj [("band_gap_dir", JStr "b"); ("band_gap_ind", JStr "a")])])
    no_effects =
    Done (writerow ("POSCAR__jsonNum_0_entryNum1_entry_1.vasp", JStr "a") no_effects) /\
  IdProp3D.do_entry a 0 1
    (JObj [("data", JObj [("band_gap_dir", JInt 1); ("band_gap_ind", JStr "a")])])
    no_effects =
    Crashed TypeError no_effects.
Proof. split; reflexivity. Qed.

(** The flat-schema label emitter derives the file name before it reads
    the label, outside the [try]: a [mat_id] that is a number raises there. *)
Example flat_numeric_mat_id :
  let a := {| IdProp3D.input := "in"; IdProp3D.output := ".";
              IdProp3D.filename_prefix := "POSCAR_" |} in
  let entry := JObj [("data", JObj [("mat_id", JInt 12345);
                                    ("band_gap_dir", JFloat (1 # 1))])] in
  gaps entry = None /\
  IdProp3D.poscar_filename a 0 1 entry = Raise TypeError /\
  IdProp3D.do_entry a 0 1 entry no_effects = Crashed TypeError no_effects.
Proof. repeat split; reflexivity. Qed.




(** ** Early exits of the flat-schema tools *)

Lemma Make3D_do_entry_status w a index idx entry s :
  status_one (Make3D.do_entry w a index idx entry s).
Proof. unfold Make3D.do_entry. step_outcome; exact I. Qed.

Lemma Make3D_do_file_status w a index file_path s :
  status_one (Make3D.do_file w a index file_path s).
Proof.
  unfold Make3D.do_file, Make3D.load_json, Make3D.create_output_directory.
  destruct (json_load w file_path) as [data|]; [|reflexivity].
  destruct (dir_exists w (Make3D.output a)) eqn:Ed;
    [|destruct (makedirs_ok w (Make3D.output a)); [|reflexivity]];
    cbn [andthen];
    (destruct (Py.get data "entries" (JArr [])) as [entries|]; cbn [eval_in]; [|exact I];
     destruct (negb (Py.truthy entries)); [reflexivity|];
     destruct (Py.iter entries) as [items|]; cbn [eval_in]; [|exact I];
     apply for_enum_status; intros; apply Make3D_do_entry_status).
Qed.

Lemma IdProp3D_do_entry_status a index idx entry s :
  status_one (IdProp3D.do_entry a index idx entry s).
Proof. unfold IdProp3D.do_entry. step_outcome; exact I. Qed.

Lemma IdProp3D_do_file_status w a index file_path s :
  status_one (IdProp3D.do_file w a index file_path s).
Proof.
  unfold IdProp3D.do_file, IdProp3D.load_json.
  destruct (json_load w file_path) as [data|]; [|reflexivity].
  destruct (Py.get data "entries" (JArr [])) as [entries|]; cbn [eval_in]; [|exact I].
  destruct (negb (Py.truthy entries)); [reflexivity|].
  destruct (Py.iter entries) as [items|]; cbn [eval_in]; [|exact I].
  apply for_enum_status; intros; apply IdProp3D_do_entry_status.
Qed.

(** When the file loop does not complete, the label emitter's [main] ends
    where the loop ended. *)
Lemma IdProp3D_main_not_done w a :
  is_done (for_enum (IdProp3D.do_file w a) 0
             (glob_sorted w (Py.path_join (IdProp3D.input a) "*.json"))
             (open_csv "./id_prop.csv" no_effects)) = false ->
  IdProp3D.main w a =
  for_enum (IdProp3D.do_file w a) 0
    (glob_sorted w (Py.path_join (IdProp3D.input a) "*.json"))
    (open_csv "./id_prop.csv" no_effects).
Proof.
  unfold IdProp3D.main. intros H.
  destruct (for_enum _ _ _ _); cbn [andthen]; auto. discriminate.
Qed.

Lemma no_entries_get data :
  no_entries data = true ->
  exists entries,
    Py.get data "entries" (JArr []) = Ok entries /\ Py.truthy entries = false.
Proof.
  unfold no_entries. destruct data as [| | | | |l|m]; try discriminate.
  cbn [Py.get]. destruct (Py.assoc "entries" m) as [v|]; intros H.
  - exists v. split; auto. now apply negb_true_iff.
  - exists (JArr []). split; reflexivity.
Qed.

Lemma Make3D_do_file_no_entries w a file_path data :
  json_load w file_path = Some data ->
  no_entries data = true ->
  forall index s,
    is_done (Make3D.do_file w a index file_path s) = false /\
    (dir_exists w (Make3D.output a) || makedirs_ok w (Make3D.output a) = true ->
     Make3D.do_file w a index file_path s =
     Exited 1 (log DNoEntriesInFile
                 (touch ("completed" ++ Py.str_of_nat index ++ ".txt") s))).
Proof.
  intros Hload Hno index s.
  destruct (no_entries_get data Hno) as (entries & Hget & Hfalsy).
  unfold Make3D.do_file, Make3D.load_json. rewrite Hload.
  unfold Make3D.create_output_directory.
  destruct (dir_exists w (Make3D.output a));
    [|destruct (makedirs_ok w (Make3D.output a))]; cbn [andthen orb];
    try (rewrite Hget; cbn [eval_in]; rewrite Hfalsy; cbn [negb]; split; auto).
  split; [reflexivity|discriminate].
Qed.

Lemma IdProp3D_do_file_no_entries w a file_path data :
  json_load w file_path = Some data ->
  no_entries data = true ->
  forall index s,
    IdProp3D.do_file w a index file_path s =
    Exited 1 (log DNoEntriesInFile
                (touch ("completed" ++ Py.str_of_nat index ++ ".txt") s)).
Proof.
  intros Hload Hno index s.
  destruct (no_entries_get data Hno) as (entries & Hget & Hfalsy).
  unfold IdProp3D.do_file, IdProp3D.load_json. rewrite Hload.
  rewrite Hget. cbn [eval_in]. rewrite Hfalsy. reflexivity.
Qed.

(** ** C3: a flat-schema file without entries *)

(** C3: in both flat-schema tools a file that loads but has no entries
    ends the whole run with status 1: the run is the run on the files up to
    and including that one, whatever files follow it in sorted order; when
    the files before it were processed to the end, the run ends at the
    "no entries" exit of that file. *)
Theorem C3_missing_entries_aborts_batch :
  forall (w : world) (pre post : list string) (p : string) (data : json),
    json_load w p = Some data ->
    no_entries data = true ->
    (forall a : Make3D.args,
        glob_sorted w (Py.path_join (Make3D.input a) "*.json") = (pre ++ p :: post)%list ->
        Make3D.main w a =
          for_enum (Make3D.do_file w a) 0 (pre ++ [p]) no_effects /\
        exit_status (Make3D.main w a) = 1%Z /\
        (forall s1,
            for_enum (Make3D.do_file w a) 0 pre no_effects = Done s1 ->
            dir_exists w (Make3D.output a) || makedirs_ok w (Make3D.output a) = true ->
            Make3D.main w a =
            Exited 1 (log DNoEntriesInFile
                        (touch ("completed" ++ Py.str_of_nat (length pre) ++ ".txt") s1)))) /\
    (forall a : IdProp3D.args,
        glob_sorted w (Py.path_join (IdProp3D.input a) "*.json") = (pre ++ p :: post)%list ->
        IdProp3D.main w a =
          for_enum (IdProp3D.do_file w a) 0 (pre ++ [p])
                   (open_csv "./id_prop.csv" no_effects) /\
        exit_status (IdProp3D.main w a) = 1%Z /\
        (forall s1,
            for_enum (IdProp3D.do_file w a) 0 pre
                     (open_csv "./id_prop.csv" no_effects) = Done s1 ->
            IdProp3D.main w a =
            Exited 1 (log DNoEntriesInFile
                        (touch ("completed" ++ Py.str_of_nat (length pre) ++ ".txt") s1)))).
Proof.
  intros w pre post p data Hload Hno. split.
  - intros a Hglob.
    assert (Hnd : forall i s, is_done (Make3D.do_file w a i p s) = false)
      by (intros i s; apply (Make3D_do_file_no_entries w a p data Hload Hno i s)).
    destruct (for_enum_stops (Make3D.do_file w a) p pre post Hnd 0 no_effects)
      as [Heq Hstop].
    unfold Make3D.main. rewrite Hglob. split; [exact Heq|]. split.
    + apply not_done_status; [|exact Hstop].
      apply for_enum_status. intros; apply Make3D_do_file_status.
    + intros s1 Hpre Hdir. rewrite for_enum_app, Hpre. cbn [andthen for_enum].
      rewrite (proj2 (Make3D_do_file_no_entries w a p data Hload Hno _ _) Hdir).
      reflexivity.
  - intros a Hglob.
    assert (Hnd : forall i s, is_done (IdProp3D.do_file w a i p s) = false)
      by (intros i s; now rewrite (IdProp3D_do_file_no_entries w a p data Hload Hno)).
    destruct (for_enum_stops (IdProp3D.do_file w a) p pre post Hnd 0
                (open_csv "./id_prop.csv" no_effects)) as [Heq Hstop].
    assert (Hmain : IdProp3D.main w a =
                    for_enum (IdProp3D.do_file w a) 0 (pre ++ p :: post)
                      (open_csv "./id_prop.csv" no_effects)).
    { rewrite <- Hglob. apply IdProp3D_main_not_done. now rewrite Hglob. }
    rewrite Hmain. split; [exact Heq|]. split.
    + apply not_done_status; [|exact Hstop].
      apply for_enum_status. intros; apply IdProp3D_do_file_status.
    + intros s1 Hpre. rewrite for_enum_app, Hpre. cbn [andthen for_enum].
      rewrite (IdProp3D_do_file_no_entries w a p data Hload Hno). reflexivity.
Qed.

Lemma C3_missing_entries_witness :
  exit_status (Make3D.main (world_of three_files)
    {| Make3D.input := "in"; Make3D.output := "POSCAR_files";
       Make3D.filename_prefix := "POSCAR_" |}) = 1%Z /\
  IdProp3D.main (world_of three_files)
    {| IdProp3D.input := "in"; IdProp3D.output := ".";
       IdProp3D.filename_prefix := "POSCAR_" |} =
  Exited 1
    {| poscars := []; csv_path := Some "./id_prop.csv";
       rows := [("POSCAR__jsonNum_0_entryNum1_mp-1.vasp", JFloat (8 # 10))];
       markers := ["completed0.txt"; "completed1.txt"];
       diags := [DNoEntriesInFile]; skipped := 0 |}.
Proof.
  destruct (C3_missing_entries_aborts_batch (world_of three_files)
              ["in/a.json"] ["in/c.json"] "in/b.json"
              (JObj [("meta", JStr "no entries here")]) eq_refl eq_refl)
    as [Hmake Hlabel].
  split.
  - exact (proj1 (proj2 (Hmake {| Make3D.input := "in"; Make3D.output := "POSCAR_files";
                                  Make3D.filename_prefix := "POSCAR_" |} eq_refl))).
  - exact (proj2 (proj2 (Hlabel {| IdProp3D.input := "in"; IdProp3D.output := ".";
                                   IdProp3D.filename_prefix := "POSCAR_" |} eq_refl))
             _ eq_refl).
Defined.

(** ** The nested schema: shape of a document *)

Lemma for_enum_all_done {A} (body : nat -> A -> effects -> outcome) l :
  (forall i x s, In x l -> is_done (body i x s) = true) ->
  forall i s, is_done (for_enum body i l s) = true.
Proof.
  induction l as [|x l IH]; intros Hb i s; [reflexivity|].
  cbn [for_enum].
  pose proof (Hb i x s (or_introl eq_refl)) as Hx.
  destruct (body i x s); try discriminate. cbn [andthen].
  apply IH. intros; apply Hb; now right.
Qed.

Lemma for_enum_one_not_done {A} (body : nat -> A -> effects -> outcome) l x :
  In x l ->
  (forall i s, is_done (body i x s) = false) ->
  forall i s, is_done (for_enum body i l s) = false.
Proof.
  intros Hin Hx i s. apply in_split in Hin as (pre & post & ->).
  apply (for_enum_stops body x pre post Hx i s).
Qed.

Lemma assoc_forallb {A} (p : string * A -> bool) (m : list (string * A)) k :
  forallb p m = true ->
  In k (map fst m) ->
  exists v, Py.assoc k m = Some v /\ p (k, v) = true.
Proof.
  induction m as [|[k' v'] m IH]; intros Hall Hin; [destruct Hin|].
  cbn [forallb] in Hall. apply andb_true_iff in Hall as [Hp Hall].
  cbn [Py.assoc]. destruct (String.eqb_spec k k') as [->|N].
  - exists v'. auto.
  - destruct Hin as [E|Hin]; [cbn in E; congruence|]. now apply IH.
Qed.

Lemma list_of_iter p v :
  Py.truthy v = true -> empty_or (list_of p) v = true ->
  exists l, v = JArr l /\ forallb p l = true.
Proof.
  unfold empty_or. intros Ht H. rewrite Ht in H. cbn [negb orb] in H.
  destruct v; try discriminate. now exists l.
Qed.

Lemma forallb_In {A} (p : A -> bool) l x :
  forallb p l = true -> In x l -> p x = true.
Proof. intros H Hin. rewrite forallb_forall in H. now apply H. Qed.

(** *** 2D/makePOSCARs.py runs through a well-shaped document *)

Lemma Make2D_do_step_done w a file_path k entry_index step_index step s :
  is_dict step = true ->
  is_done (Make2D.do_step w a file_path (JStr k) entry_index step_index step s) = true.
Proof.
  destruct step; try discriminate. intros _.
  unfold Make2D.do_step. cbn [Py.get eval_in].
  destruct (negb (Py.truthy _)); [reflexivity|].
  destruct (negb (structure_from_dict w _)); [reflexivity|].
  rewrite (proj1 (poscar_filename_2D_shape a file_path k entry_index step_index)).
  reflexivity.
Qed.

Lemma Make2D_do_entry_done w a file_path k entry_index entry s :
  entryA_ok entry = true ->
  is_done (Make2D.do_entry w a file_path (JStr k) entry_index entry s) = true.
Proof.
  destruct entry as [| | | | |l|e]; try discriminate.
  unfold entryA_ok, Make2D.do_entry. cbn [Py.get eval_in]. intros H.
  destruct (Py.assoc "steps" e) as [v|]; [|reflexivity].
  cbn [if_present] in H.
  destruct (Py.truthy v) eqn:Ht; [|reflexivity]. cbn [negb].
  destruct (list_of_iter _ v Ht H) as (l & -> & Hl). cbn [Py.iter eval_in].
  apply for_enum_all_done. intros i x s0 Hin.
  apply Make2D_do_step_done. now apply (forallb_In _ l).
Qed.

Lemma Make2D_do_key_done w a file_path m i key s :
  schemaA_doc (JObj m) = true ->
  In key (map (fun kv => JStr (fst kv)) m) ->
  is_done (Make2D.do_key w a file_path (JObj m) i key s) = true.
Proof.
  cbn [schemaA_doc]. intros Hdoc Hin.
  apply in_map_iff in Hin as ([k v0] & <- & Hin). cbn [fst].
  destruct (assoc_forallb _ m k Hdoc) as (v & Hv & Hp).
  { apply in_map_iff. now exists (k, v0). }
  cbn [snd] in Hp.
  unfold Make2D.do_key. cbn [Py.getitem]. rewrite Hv. cbn [eval_in].
  destruct (Py.truthy v) eqn:Ht; [|reflexivity]. cbn [negb].
  destruct (list_of_iter _ v Ht Hp) as (l & -> & Hl). cbn [Py.iter eval_in].
  apply for_enum_all_done. intros j x s0 Hx.
  apply Make2D_do_entry_done. now apply (forallb_In _ l).
Qed.

Lemma Make2D_do_file_load_error w a index file_path s :
  json_load w file_path = None ->
  Make2D.do_file w a index file_path s = Done (log (DLoadError file_path) s).
Proof.
  intros H. unfold Make2D.do_file, Make2D.load_json. now rewrite H.
Qed.

Lemma Make2D_do_file_done w a index file_path s :
  (forall data, json_load w file_path = Some data -> schemaA_doc data = true) ->
  is_done (Make2D.do_file w a index file_path s) = true.
Proof.
  intros Hshape.
  destruct (json_load w file_path) as [data|] eqn:Hload.
  - specialize (Hshape data eq_refl).
    unfold Make2D.do_file, Make2D.load_json. rewrite Hload.
    destruct data as [| | | | |l|m]; try discriminate.
    cbn [is_none Py.iter eval_in].
    apply for_enum_all_done. intros i key s0 Hin.
    now apply Make2D_do_key_done.
  - now rewrite Make2D_do_file_load_error.
Qed.

(** *** 2D/writeIDPROP.py runs through a well-shaped document *)

Lemma IdProp2D_do_step_done sb sk top_key entry_index step_index step s :
  is_dict step = true ->
  is_done (IdProp2D.do_step sb sk top_key entry_index step_index step s) = true.
Proof.
  destruct step; try discriminate. intros _.
  unfold IdProp2D.do_step. cbn [Py.get eval_in].
  destruct (negb (Py.truthy _) || is_none _); reflexivity.
Qed.

Lemma IdProp2D_do_entry_done sb sk top_key entry_index entry s :
  entryA_ok entry = true ->
  is_done (IdProp2D.do_entry sb sk top_key entry_index entry s) = true.
Proof.
  destruct entry as [| | | | |l|e]; try discriminate.
  unfold entryA_ok, IdProp2D.do_entry. cbn [Py.get eval_in]. intros H.
  destruct (Py.assoc "steps" e) as [v|]; [|reflexivity].
  cbn [if_present] in H.
  destruct (Py.truthy v) eqn:Ht; [|reflexivity]. cbn [negb].
  destruct (list_of_iter _ v Ht H) as (l & -> & Hl). cbn [Py.iter eval_in].
  apply for_enum_all_done. intros i x s0 Hin.
  apply IdProp2D_do_step_done. now apply (forallb_In _ l).
Qed.

Lemma IdProp2D_do_key_done sb m i key s :
  schemaA_doc (JObj m) = true ->
  In key (map (fun kv => JStr (fst kv)) m) ->
  is_done (IdProp2D.do_key sb (JObj m) i key s) = true.
Proof.
  cbn [schemaA_doc]. intros Hdoc Hin.
  apply in_map_iff in Hin as ([k v0] & <- & Hin). cbn [fst].
  destruct (assoc_forallb _ m k Hdoc) as (v & Hv & Hp).
  { apply in_map_iff. now exists (k, v0). }
  cbn [snd] in Hp.
  unfold IdProp2D.do_key. cbn [Py.getitem]. rewrite Hv. cbn [eval_in].
  destruct (Py.truthy v) eqn:Ht; [|reflexivity]. cbn [negb].
  rewrite sanitize_filename_str. cbn [eval_in].
  destruct (list_of_iter _ v Ht Hp) as (l & -> & Hl). cbn [Py.iter eval_in].
  apply for_enum_all_done. intros j x s0 Hx.
  apply IdProp2D_do_entry_done. now apply (forallb_In _ l).
Qed.

Lemma IdProp2D_do_file_load_error w index file_path s :
  json_load w file_path = None ->
  IdProp2D.do_file w index file_path s = Done (log (DLoadError file_path) s).
Proof.
  intros H. unfold IdProp2D.do_file, IdProp2D.load_json. now rewrite H.
Qed.

Lemma IdProp2D_do_file_done w index file_path s :
  (forall data, json_load w file_path = Some data -> schemaA_doc data = true) ->
  is_done (IdProp2D.do_file w index file_path s) = true.
Proof.
  intros Hshape.
  destruct (json_load w file_path) as [data|] eqn:Hload.
  - specialize (Hshape data eq_refl).
    unfold IdProp2D.do_file, IdProp2D.load_json. rewrite Hload.
    destruct data as [| | | | |l|m]; try discriminate.
    cbn [is_none]. rewrite sanitize_filename_str. cbn [Py.iter eval_in].
    apply for_enum_all_done. intros i key s0 Hin.
    now apply IdProp2D_do_key_done.
  - now rewrite IdProp2D_do_file_load_error.
Qed.

(** ** The flat schema: shape of a document *)


Lemma IdProp3D_do_entry_done a index idx entry s :
  schemaB_entry entry = true ->
  is_done (IdProp3D.do_entry a index idx entry s) = true.
Proof.
  intros H. pose proof (IdProp3D_do_entry_schemaB a index idx entry s H) as Hs.
  destruct (gaps entry) as [[d n]|].
  - now rewrite Hs.
  - destruct Hs as [k Hs]. now rewrite Hs.
Qed.

Lemma schemaB_doc_entries data :
  schemaB_doc data = true ->
  no_entries data = false ->
  exists l,
    Py.get data "entries" (JArr []) = Ok (JArr l) /\
    Py.truthy (JArr l) = true /\ forallb schemaB_entry l = true.
Proof.
  unfold schemaB_doc, no_entries.
  destruct data as [| | | | |l|m]; try discriminate.
  cbn [Py.get]. destruct (Py.assoc "entries" m) as [v|]; [|discriminate].
  cbn [if_present]. intros Hshape Hne. apply negb_false_iff in Hne.
  destruct (list_of_iter _ v Hne Hshape) as (l & -> & Hl).
  exists l. auto.
Qed.

Lemma Make3D_do_file_load_error w a index file_path s :
  json_load w file_path = None ->
  Make3D.do_file w a index file_path s =
  Exited 1 (log (DLoadError file_path)
              (touch ("completed" ++ Py.str_of_nat index ++ ".txt") s)).
Proof.
  intros H. unfold Make3D.do_file, Make3D.load_json. now rewrite H.
Qed.

Lemma IdProp3D_do_file_load_error w a index file_path s :
  json_load w file_path = None ->
  IdProp3D.do_file w a index file_path s =
  Exited 1 (log (DLoadError file_path)
              (touch ("completed" ++ Py.str_of_nat index ++ ".txt") s)).
Proof.
  intros H. unfold IdProp3D.do_file, IdProp3D.load_json. now rewrite H.
Qed.


Lemma IdProp3D_do_file_fatal w a index file_path s :
  fatal3D w file_path = true ->
  is_done (IdProp3D.do_file w a index file_path s) = false.
Proof.
  unfold fatal3D. destruct (json_load w file_path) as [data|] eqn:Hload; intros H.
  - now rewrite (IdProp3D_do_file_no_entries w a file_path data Hload H).
  - now rewrite IdProp3D_do_file_load_error.
Qed.



Lemma IdProp3D_do_file_done w a index file_path s :
  fatal3D w file_path = false ->
  (forall data, json_load w file_path = Some data -> schemaB_doc data = true) ->
  is_done (IdProp3D.do_file w a index file_path s) = true.
Proof.
  unfold fatal3D. intros Hfatal Hshape.
  destruct (json_load w file_path) as [data|] eqn:Hload; [|discriminate].
  destruct (schemaB_doc_entries data (Hshape data eq_refl) Hfatal)
    as (l & Hget & Ht & Hl).
  unfold IdProp3D.do_file, IdProp3D.load_json. rewrite Hload.
  rewrite Hget. cbn [eval_in]. rewrite Ht. cbn [negb Py.iter eval_in].
  apply for_enum_all_done. intros i x s0 Hin.
  apply IdProp3D_do_entry_done. now apply (forallb_In _ l).
Qed.

Lemma IdProp3D_main_status w a :
  exit_status (IdProp3D.main w a) =
  exit_status (for_enum (IdProp3D.do_file w a) 0
                 (glob_sorted w (Py.path_join (IdProp3D.input a) "*.json"))
                 (open_csv "./id_prop.csv" no_effects)).
Proof.
  unfold IdProp3D.main. destruct (for_enum _ _ _ _); reflexivity.
Qed.

(** ** C7: rows and skip counter of the flat-schema label emitter *)

Lemma entries_of_file_get w p data :
  json_load w p = Some data ->
  schemaB_doc data = true ->
  no_entries data = false ->
  Py.get data "entries" (JArr []) = Ok (JArr (entries_of_file w p)) /\
  Py.truthy (JArr (entries_of_file w p)) = true /\
  forallb schemaB_entry (entries_of_file w p) = true.
Proof.
  intros Hload. unfold entries_of_file. rewrite Hload.
  unfold schemaB_doc, no_entries.
  destruct data as [| | | | |l|m]; try discriminate.
  cbn [Py.get]. destruct (Py.assoc "entries" m) as [v|]; [|discriminate].
  cbn [if_present]. intros Hshape Hne. apply negb_false_iff in Hne.
  destruct (list_of_iter _ v Hne Hshape) as (l & -> & Hl). auto.
Qed.

(** One file of the batch: its marker, then the rows and skips of its
    entries. *)
Lemma IdProp3D_do_file_rows w a index p s :
  fatal3D w p = false ->
  (forall data, json_load w p = Some data -> schemaB_doc data = true) ->
  exists s',
    IdProp3D.do_file w a index p s = Done s' /\
    rows s' = (rows s ++ expected_rows (IdProp3D.filename_prefix a) index 1
                                       (entries_of_file w p))%list /\
    skipped s' = skipped s + count_missing (entries_of_file w p) /\
    markers s' = (markers s ++ [completed_marker index])%list.
Proof.
  unfold fatal3D. intros Hfatal Hshape.
  destruct (json_load w p) as [data|] eqn:Hload; [|discriminate].
  destruct (entries_of_file_get w p data Hload (Hshape data eq_refl) Hfatal)
    as (Hget & Ht & Hl).
  unfold IdProp3D.do_file, IdProp3D.load_json. rewrite Hload.
  rewrite Hget. cbn [eval_in]. rewrite Ht. cbn [negb Py.iter eval_in].
  destruct (IdProp3D_entries_rows_and_skips a index (entries_of_file w p) 1
              (touch ("completed" ++ Py.str_of_nat index ++ ".txt") s) Hl)
    as (s' & Hrun & Hrows & Hskip & Hm).
  exists s'. repeat split; assumption.
Qed.

(** The files of a batch in turn. *)
Lemma IdProp3D_files_rows w a files :
  forall (index : nat) (s : effects),
    existsb (fatal3D w) files = false ->
    (forall p data, In p files -> json_load w p = Some data ->
                    schemaB_doc data = true) ->
    exists s',
      for_enum (IdProp3D.do_file w a) index files s = Done s' /\
      rows s' = (rows s ++ expected_rows_of_files w (IdProp3D.filename_prefix a)
                                                  index files)%list /\
      skipped s' = skipped s + missing_in_files w files /\
      markers s' = (markers s
                    ++ map completed_marker (seq index (length files)))%list.
Proof.
  induction files as [|p r IH]; intros index s Hfatal Hshape.
  - exists s. cbn [for_enum expected_rows_of_files length seq map].
    unfold missing_in_files. cbn [map list_sum fold_right].
    rewrite !app_nil_r, Nat.add_0_r. repeat split; reflexivity.
  - cbn [existsb] in Hfatal. apply orb_false_iff in Hfatal as [Hp Hr].
    destruct (IdProp3D_do_file_rows w a index p s Hp) as (s1 & Hrun1 & Hrows1 & Hskip1 & Hm1).
    { intros data Hload. apply (Hshape p data); [now left|exact Hload]. }
    destruct (IH (S index) s1 Hr) as (s' & Hrun & Hrows & Hskip & Hm).
    { intros q data Hin Hload. apply (Hshape q data); [now right|exact Hload]. }
    exists s'. cbn [for_enum]. rewrite Hrun1. cbn [andthen].
    split; [exact Hrun|]. split; [|split].
    + rewrite Hrows, Hrows1. cbn [expected_rows_of_files]. now rewrite app_assoc.
    + rewrite Hskip, Hskip1. unfold missing_in_files.
      change (list_sum (map (fun q => count_missing (entries_of_file w q)) (p :: r)))
        with (count_missing (entries_of_file w p)
              + list_sum (map (fun q => count_missing (entries_of_file w q)) r)).
      lia.
    + rewrite Hm, Hm1. cbn [length seq map]. now rewrite <- app_assoc.
Qed.

Lemma expected_rows_of_files_length w prefix files :
  forall index,
    length (expected_rows_of_files w prefix index files) + missing_in_files w files
    = entries_in_files w files.
Proof.
  unfold missing_in_files, entries_in_files.
  induction files as [|p r IH]; intros index; [reflexivity|].
  cbn [expected_rows_of_files]. rewrite length_app.
  change (list_sum (map (fun q => count_missing (entries_of_file w q)) (p :: r)))
    with (count_missing (entries_of_file w p)
          + list_sum (map (fun q => count_missing (entries_of_file w q)) r)).
  change (list_sum (map (fun q => length (entries_of_file w q)) (p :: r)))
    with (length (entries_of_file w p)
          + list_sum (map (fun q => length (entries_of_file w q)) r)).
  pose proof (expected_rows_length prefix index (entries_of_file w p) 1).
  specialize (IH (S index)). lia.
Qed.

(** C7: run on flat-schema files that all load and have entries, the label
    emitter ends normally; its CSV holds, file by file and entry by entry,
    exactly one row for each entry that has both nested band-gap keys,
    labelled with the smaller of the two gaps; each entry that lacks one of
    the keys gets no row and adds one to the skip counter, so that rows and
    skips add up to the number of entries; and the last file the run
    creates is [skipped<n>entries.txt] with [n] the final counter. *)
Theorem C7_label_rows_and_skip_count :
  forall (w : world) (a : IdProp3D.args),
    let files := glob_sorted w (Py.path_join (IdProp3D.input a) "*.json") in
    existsb (fatal3D w) files = false ->
    (forall p data, In p files -> json_load w p = Some data ->
                    schemaB_doc data = true) ->
    exists s',
      IdProp3D.main w a = Done s' /\
      csv_path s' = Some "./id_prop.csv" /\
      rows s' = expected_rows_of_files w (IdProp3D.filename_prefix a) 0 files /\
      skipped s' = missing_in_files w files /\
      length (rows s') + skipped s' = entries_in_files w files /\
      markers s' =
        (map completed_marker (seq 0 (length files))
         ++ [skipped_marker (skipped s')])%list.
Proof.
  intros w a files Hfatal Hshape.
  destruct (IdProp3D_files_rows w a files 0 (open_csv "./id_prop.csv" no_effects)
              Hfatal Hshape) as (s1 & Hrun & Hrows & Hskip & Hm).
  cbn [rows skipped markers open_csv no_effects app Nat.add] in Hrows, Hskip, Hm.
  exists (touch (skipped_marker (skipped s1)) s1).
  unfold IdProp3D.main. fold files. rewrite Hrun. cbn [andthen].
  split; [reflexivity|].
  cbn [csv_path rows skipped markers touch].
  split; [|split; [exact Hrows|split; [exact Hskip|split]]].
  - pose proof (for_enum_final_inv (fun s => csv_path s = Some "./id_prop.csv")
                  (IdProp3D.do_file w a)) as Hinv.
    specialize (Hinv (fun i x s Hs => IdProp3D_do_file_csv w a _ i x s Hs)
                     files 0 (open_csv "./id_prop.csv" no_effects) eq_refl).
    now rewrite Hrun in Hinv.
  - rewrite Hrows, Hskip. apply expected_rows_of_files_length.
  - now rewrite Hm.
Qed.

(** Three entries, the second without its indirect gap: two rows, the
    counter at 1, reported by [skipped1entries.txt]. *)
Lemma C7_three_entries_witness :
  exists s',
    IdProp3D.main (world_of three_entries_file)
      {| IdProp3D.input := "in"; IdProp3D.output := ".";
         IdProp3D.filename_prefix := "POSCAR_" |} = Done s' /\
    rows s' = [("POSCAR__jsonNum_0_entryNum1_mp-1.vasp", JFloat (8 # 10));
               ("POSCAR__jsonNum_0_entryNum3_mp-3.vasp", JFloat (5 # 10))] /\
    skipped s' = 1 /\
    markers s' = ["completed0.txt"; "skipped1entries.txt"].
Proof.
  destruct (C7_label_rows_and_skip_count
              (world_of three_entries_file)
              {| IdProp3D.input := "in"; IdProp3D.output := ".";
                 IdProp3D.filename_prefix := "POSCAR_" |}
              eq_refl)
    as (s' & Hrun & _ & Hrows & Hskip & _ & Hm).
  { intros p data Hin Hload.
    destruct Hin as [<-|[]]. injection Hload as <-. reflexivity. }
  exists s'. split; [exact Hrun|]. split; [|split].
  - rewrite Hrows. reflexivity.
  - rewrite Hskip. reflexivity.
  - rewrite Hm, Hskip. reflexivity.
Defined.

(** ** C5: exit status *)

Lemma Make2D_main_exit w a :
  (forall p data,
      In p (glob_sorted w (Py.path_join (Make2D.input a) "*.json")) ->
      json_load w p = Some data -> schemaA_doc data = true) ->
  exit_status (Make2D.main w a) =
  if can_make_dir w (Make2D.output a)
     && negb (is_nil (glob_sorted w (Py.path_join (Make2D.input a) "*.json")))
  then 0%Z else 1%Z.
Proof.
  intros Hshape. unfold Make2D.main, Make2D.create_output_directory, can_make_dir.
  set (files := glob_sorted w (Py.path_join (Make2D.input a) "*.json")) in *.
  assert (Hrun : forall s, exit_status (for_enum (Make2D.do_file w a) 0 files s) = 0%Z).
  { intros s. apply done_status. apply for_enum_all_done.
    intros i p s0 Hin. apply Make2D_do_file_done.
    intros data Hload. now apply (Hshape p). }
  destruct (dir_exists w (Make2D.output a));
    [|destruct (makedirs_ok w (Make2D.output a)); [|reflexivity]];
    cbn [andthen orb andb]; specialize (Hrun no_effects);
    destruct files; cbn [is_nil negb]; auto.
Qed.

Lemma IdProp2D_main_exit w a :
  (forall p data,
      In p (glob_sorted w (Py.path_join (IdProp2D.input a) "*.json")) ->
      json_load w p = Some data -> schemaA_doc data = true) ->
  exit_status (IdProp2D.main w a) =
  if can_make_dir w (IdProp2D.output a)
     && negb (is_nil (glob_sorted w (Py.path_join (IdProp2D.input a) "*.json")))
  then 0%Z else 1%Z.
Proof.
  intros Hshape. unfold IdProp2D.main, can_make_dir.
  set (files := glob_sorted w (Py.path_join (IdProp2D.input a) "*.json")) in *.
  assert (Hrun : forall s, exit_status (for_enum (IdProp2D.do_file w) 0 files s) = 0%Z).
  { intros s. apply done_status. apply for_enum_all_done.
    intros i p s0 Hin. apply IdProp2D_do_file_done.
    intros data Hload. now apply (Hshape p). }
  destruct (dir_exists w (IdProp2D.output a));
    [|destruct (makedirs_ok w (IdProp2D.output a)); [|reflexivity]];
    cbn [negb andb orb];
    specialize (Hrun (open_csv (Py.path_join (IdProp2D.output a) "id_prop.csv") no_effects));
    destruct files; cbn [is_nil negb]; auto.
Qed.

Lemma existsb_fatal_false w files p :
  existsb (fatal3D w) files = false -> In p files -> fatal3D w p = false.
Proof.
  intros H Hin. destruct (fatal3D w p) eqn:E; auto.
  assert (existsb (fatal3D w) files = true) by (apply existsb_exists; eauto).
  congruence.
Qed.


Lemma IdProp3D_main_exit w a :
  (forall p data,
      In p (glob_sorted w (Py.path_join (IdProp3D.input a) "*.json")) ->
      json_load w p = Some data -> schemaB_doc data = true) ->
  exit_status (IdProp3D.main w a) =
  if existsb (fatal3D w) (glob_sorted w (Py.path_join (IdProp3D.input a) "*.json"))
  then 1%Z else 0%Z.
Proof.
  intros Hshape. rewrite IdProp3D_main_status.
  set (files := glob_sorted w (Py.path_join (IdProp3D.input a) "*.json")) in *.
  set (s0 := open_csv "./id_prop.csv" no_effects).
  assert (Hst : status_one (for_enum (IdProp3D.do_file w a) 0 files s0))
    by (apply for_enum_status; intros; apply IdProp3D_do_file_status).
  destruct (existsb (fatal3D w) files) eqn:Hf.
  - apply existsb_exists in Hf as (p & Hin & Hp).
    apply not_done_status; [exact Hst|].
    apply (for_enum_one_not_done _ files p Hin).
    intros i s. now apply IdProp3D_do_file_fatal.
  - apply done_status. apply for_enum_all_done. intros i p s Hin.
    apply IdProp3D_do_file_done.
    + now apply (existsb_fatal_false w files).
    + intros data Hload. now apply (Hshape p).
Qed.


(** An empty input directory: the flat-schema tools have no test for it and
    end with status 0. *)
Example flat_empty_batch :
  exit_status (Make3D.main (world_of [])
    {| Make3D.input := "in"; Make3D.output := "POSCAR_files";
       Make3D.filename_prefix := "POSCAR_" |}) = 0%Z /\
  exit_status (IdProp3D.main (world_of [])
    {| IdProp3D.input := "in"; IdProp3D.output := ".";
       IdProp3D.filename_prefix := "POSCAR_" |}) = 0%Z.
Proof. split; reflexivity. Qed.

(** *** The unguarded calls of [open] *)

(** When every file can be opened, the tools of [Unguarded] are the [main]
    functions. *)
Lemma Unguarded_all_open w :
  (forall a, Unguarded.IdProp2D_main w (fun _ => true) a = IdProp2D.main w a) /\
  (forall a, Unguarded.Make3D_main w (fun _ => true) a = Make3D.main w a) /\
  (forall a, Unguarded.IdProp3D_main w (fun _ => true) a = IdProp3D.main w a).
Proof.
  split; [|split]; intros a.
  - unfold Unguarded.IdProp2D_main, IdProp2D.main. cbn [negb].
    destruct (negb (dir_exists w (IdProp2D.output a))
              && negb (makedirs_ok w (IdProp2D.output a))); reflexivity.
  - reflexivity.
  - reflexivity.
Qed.

(** The label emitters end at once when the CSV file cannot be opened; the
    flat-schema geometry emitter ends at the first marker it cannot open. *)
Example csv_cannot_be_opened :
  let open_ok := fun p => negb (String.eqb p "./id_prop.csv") in
  Unguarded.IdProp2D_main (world_of [("in/sample.json", Some (docA (JInt 1)))]) open_ok
    {| IdProp2D.input := "in"; IdProp2D.output := "." |} =
  Crashed OSError no_effects /\
  Unguarded.IdProp3D_main (world_of [("in/a.json", Some (docB some_structure))]) open_ok
    {| IdProp3D.input := "in"; IdProp3D.output := ".";
       IdProp3D.filename_prefix := "POSCAR_" |} =
  Crashed OSError no_effects /\
  exit_status
    (Unguarded.Make3D_main (world_of [("in/a.json", Some (docB some_structure))])
       (fun p => negb (String.eqb p "completed0.txt"))
       {| Make3D.input := "in"; Make3D.output := "POSCAR_files";
          Make3D.filename_prefix := "POSCAR_" |}) = 1%Z.
Proof. repeat split; reflexivity. Qed.













(** ** C2: a file that is not valid JSON *)

(** C2 as stated fails for the flat-schema tools: with the second of three
    files malformed, the label emitter reports the error and exits with
    status 1; the third file is never read. *)
Lemma C2_flat_tools_stop_at_malformed_file :
  IdProp3D.main (world_of batch_with_bad_file)
    {| IdProp3D.input := "in"; IdProp3D.output := ".";
       IdProp3D.filename_prefix := "POSCAR_" |} =
  Exited 1
    {| poscars := []; csv_path := Some "./id_prop.csv";
       rows := [("POSCAR__jsonNum_0_entryNum1_mp-1.vasp", JFloat (8 # 10))];
       markers := ["completed0.txt"; "completed1.txt"];
       diags := [DLoadError "in/b.json"]; skipped := 0 |} /\
  exit_status (Make3D.main (world_of batch_with_bad_file)
    {| Make3D.input := "in"; Make3D.output := "POSCAR_files";
       Make3D.filename_prefix := "POSCAR_" |}) = 1%Z.
Proof. split; reflexivity. Qed.

Lemma Make2D_create_dir_ok w directory s :
  can_make_dir w directory = true ->
  Make2D.create_output_directory w directory s = Done s.
Proof.
  unfold Make2D.create_output_directory, can_make_dir. intros H.
  destruct (dir_exists w directory); [reflexivity|].
  simpl in H. now rewrite H.
Qed.

Lemma shape_without_bad {P : json -> bool} w (pre post : list string) p :
  json_load w p = None ->
  (forall q data, In q (pre ++ post) -> json_load w q = Some data -> P data = true) ->
  forall q data, In q (pre ++ p :: post) -> json_load w q = Some data -> P data = true.
Proof.
  intros Hbad H q data Hin Hload.
  apply in_app_or in Hin as [Hin|[<-|Hin]].
  - apply (H q); auto. apply in_or_app; now left.
  - congruence.
  - apply (H q); auto. apply in_or_app; now right.
Qed.

(** C2, amended: in the nested-schema tools a file that cannot be loaded is
    reported and skipped, the files after it are processed, and the run ends
    with status 0 when the other files are nested-schema documents; in the
    flat-schema tools the same file is reported and ends the run with
    status 1, the files after it are not processed. *)
Theorem C2_malformed_file :
  forall (w : world) (pre post : list string) (p : string),
    json_load w p = None ->
    (forall a : Make2D.args,
        glob_sorted w (Py.path_join (Make2D.input a) "*.json") = (pre ++ p :: post)%list ->
        can_make_dir w (Make2D.output a) = true ->
        Make2D.main w a =
          andthen (for_enum (Make2D.do_file w a) 0 pre no_effects)
            (fun s1 => for_enum (Make2D.do_file w a) (S (length pre)) post
                         (log (DLoadError p) s1)) /\
        ((forall q data, In q (pre ++ post) -> json_load w q = Some data ->
                         schemaA_doc data = true) ->
         exit_status (Make2D.main w a) = 0%Z)) /\
    (forall a : IdProp2D.args,
        glob_sorted w (Py.path_join (IdProp2D.input a) "*.json") = (pre ++ p :: post)%list ->
        can_make_dir w (IdProp2D.output a) = true ->
        IdProp2D.main w a =
          andthen (for_enum (IdProp2D.do_file w) 0 pre
                     (open_csv (Py.path_join (IdProp2D.output a) "id_prop.csv") no_effects))
            (fun s1 => for_enum (IdProp2D.do_file w) (S (length pre)) post
                         (log (DLoadError p) s1)) /\
        ((forall q data, In q (pre ++ post) -> json_load w q = Some data ->
                         schemaA_doc data = true) ->
         exit_status (IdProp2D.main w a) = 0%Z)) /\
    (forall a : Make3D.args,
        glob_sorted w (Py.path_join (Make3D.input a) "*.json") = (pre ++ p :: post)%list ->
        Make3D.main w a = for_enum (Make3D.do_file w a) 0 (pre ++ [p]) no_effects /\
        exit_status (Make3D.main w a) = 1%Z /\
        (forall s1,
            for_enum (Make3D.do_file w a) 0 pre no_effects = Done s1 ->
            Make3D.main w a =
            Exited 1 (log (DLoadError p)
                        (touch ("completed" ++ Py.str_of_nat (length pre) ++ ".txt") s1)))) /\
    (forall a : IdProp3D.args,
        glob_sorted w (Py.path_join (IdProp3D.input a) "*.json") = (pre ++ p :: post)%list ->
        IdProp3D.main w a =
          for_enum (IdProp3D.do_file w a) 0 (pre ++ [p])
                   (open_csv "./id_prop.csv" no_effects) /\
        exit_status (IdProp3D.main w a) = 1%Z /\
        (forall s1,
            for_enum (IdProp3D.do_file w a) 0 pre
                     (open_csv "./id_prop.csv" no_effects) = Done s1 ->
            IdProp3D.main w a =
            Exited 1 (log (DLoadError p)
                        (touch ("completed" ++ Py.str_of_nat (length pre) ++ ".txt") s1)))).
Proof.
  intros w pre post p Hbad. split; [|split; [|split]].
  - intros a Hglob Hdir. split.
    + unfold Make2D.main. rewrite Make2D_create_dir_ok by exact Hdir.
      cbn [andthen]. rewrite Hglob.
      replace (match (pre ++ p :: post)%list with
               | [] => Exited 1 (log (DNoJsonFiles (Make2D.input a)) no_effects)
               | _ :: _ => for_enum (Make2D.do_file w a) 0 (pre ++ p :: post) no_effects
               end)
        with (for_enum (Make2D.do_file w a) 0 (pre ++ p :: post) no_effects)
        by (destruct pre; reflexivity).
      rewrite for_enum_app.
      destruct (for_enum (Make2D.do_file w a) 0 pre no_effects); cbn [andthen for_enum]; auto.
      now rewrite Make2D_do_file_load_error.
    + intros Hshape. rewrite Make2D_main_exit.
      * rewrite Hdir, Hglob. destruct pre; reflexivity.
      * rewrite Hglob. now apply shape_without_bad.
  - intros a Hglob Hdir. split.
    + unfold IdProp2D.main. unfold can_make_dir in Hdir.
      replace (negb (dir_exists w (IdProp2D.output a)) &&
               negb (makedirs_ok w (IdProp2D.output a))) with false
        by (destruct (dir_exists w (IdProp2D.output a)),
                     (makedirs_ok w (IdProp2D.output a)); auto; discriminate).
      rewrite Hglob.
      set (s0 := open_csv (Py.path_join (IdProp2D.output a) "id_prop.csv") no_effects).
      replace (match (pre ++ p :: post)%list with
               | [] => Exited 1 (log (DNoJsonFiles (IdProp2D.input a)) s0)
               | _ :: _ => for_enum (IdProp2D.do_file w) 0 (pre ++ p :: post) s0
               end)
        with (for_enum (IdProp2D.do_file w) 0 (pre ++ p :: post) s0)
        by (destruct pre; reflexivity).
      rewrite for_enum_app.
      destruct (for_enum (IdProp2D.do_file w) 0 pre s0); cbn [andthen for_enum]; auto.
      now rewrite IdProp2D_do_file_load_error.
    + intros Hshape. rewrite IdProp2D_main_exit.
      * rewrite Hdir, Hglob. destruct pre; reflexivity.
      * rewrite Hglob. now apply shape_without_bad.
  - intros a Hglob.
    assert (Hnd : forall i s, is_done (Make3D.do_file w a i p s) = false)
      by (intros i s; now rewrite Make3D_do_file_load_error).
    destruct (for_enum_stops (Make3D.do_file w a) p pre post Hnd 0 no_effects)
      as [Heq Hstop].
    unfold Make3D.main. rewrite Hglob. split; [exact Heq|]. split.
    + apply not_done_status; [|exact Hstop].
      apply for_enum_status. intros; apply Make3D_do_file_status.
    + intros s1 Hpre. rewrite for_enum_app, Hpre. cbn [andthen for_enum].
      now rewrite Make3D_do_file_load_error.
  - intros a Hglob.
    assert (Hnd : forall i s, is_done (IdProp3D.do_file w a i p s) = false)
      by (intros i s; now rewrite IdProp3D_do_file_load_error).
    destruct (for_enum_stops (IdProp3D.do_file w a) p pre post Hnd 0
                (open_csv "./id_prop.csv" no_effects)) as [Heq Hstop].
    assert (Hmain : IdProp3D.main w a =
                    for_enum (IdProp3D.do_file w a) 0 (pre ++ p :: post)
                      (open_csv "./id_prop.csv" no_effects)).
    { rewrite <- Hglob. apply IdProp3D_main_not_done. now rewrite Hglob. }
    rewrite Hmain. split; [exact Heq|]. split.
    + apply not_done_status; [|exact Hstop].
      apply for_enum_status. intros; apply IdProp3D_do_file_status.
    + intros s1 Hpre. rewrite for_enum_app, Hpre. cbn [andthen for_enum].
      now rewrite IdProp3D_do_file_load_error.
Qed.

Lemma C2_malformed_file_witness :
  let w := world_of nested_batch_with_bad_file in
  let a := {| IdProp2D.input := "in"; IdProp2D.output := "." |} in
  exit_status (IdProp2D.main w a) = 0%Z /\
  rows (final (IdProp2D.main w a)) =
    [("POSCAR_a_groupA_entry0_step0.vasp", JFloat (-53 # 10));
     ("POSCAR_c_groupA_entry0_step0.vasp", JInt 1)] /\
  diags (final (IdProp2D.main w a)) = [DLoadError "in/b.json"].
Proof.
  split; [|split; reflexivity].
  destruct (C2_malformed_file (world_of nested_batch_with_bad_file)
              ["in/a.json"] ["in/c.json"] "in/b.json" eq_refl)
    as (_ & Hlabel & _).
  apply (proj2 (Hlabel {| IdProp2D.input := "in"; IdProp2D.output := "." |}
                  eq_refl eq_refl)).
  intros q data Hin Hload.
  destruct Hin as [<-|[<-|[]]]; injection Hload as <-; reflexivity.
Defined.

(** * Further properties of the tools *)

(** ** Strings and decimal numerals *)

Lemma append_assoc_str (a b c : string) : (a ++ b) ++ c = a ++ (b ++ c).
Proof. induction a as [|x a IH]; simpl; congruence. Qed.

Lemma append_nil_r_str (a : string) : a ++ "" = a.
Proof. induction a as [|x a IH]; simpl; congruence. Qed.

Lemma append_length_str (a b : string) :
  String.length (a ++ b) = String.length a + String.length b.
Proof. induction a as [|x a IH]; simpl; congruence. Qed.

Lemma append_cancel_l (p a b : string) : p ++ a = p ++ b -> a = b.
Proof. induction p as [|x p IH]; simpl; intros H; [exact H|]. injection H. exact IH. Qed.

Lemma append_cancel_r (a b t : string) : a ++ t = b ++ t -> a = b.
Proof.
  revert b. induction a as [|x a IH]; intros [|y b] H; simpl in H.
  - reflexivity.
  - exfalso. apply (f_equal String.length) in H. simpl in H.
    rewrite append_length_str in H. lia.
  - exfalso. apply (f_equal String.length) in H. simpl in H.
    rewrite append_length_str in H. lia.
  - injection H as -> H. f_equal. now apply IH.
Qed.

Lemma str_of_nat_digits n : forall_chars is_digit (Py.str_of_nat n) = true.
Proof.
  unfold Py.str_of_nat. generalize (Nat.to_uint n). intros d.
  induction d; simpl; auto.
Qed.

Lemma str_of_nat_inj n m : Py.str_of_nat n = Py.str_of_nat m -> n = m.
Proof.
  unfold Py.str_of_nat. intros H.
  apply (f_equal NilEmpty.uint_of_string) in H. rewrite !NilEmpty.usu in H.
  injection H as H. apply (f_equal Nat.of_uint) in H.
  now rewrite !DecimalNat.Unsigned.of_to in H.
Qed.

(** Two numerals, each followed by a character that is not a digit: equal
    texts have equal numerals and equal remainders. *)
Lemma digits_then_sep d1 d2 c1 c2 r1 r2 :
  forall_chars is_digit d1 = true -> forall_chars is_digit d2 = true ->
  is_digit c1 = false -> is_digit c2 = false ->
  d1 ++ String c1 r1 = d2 ++ String c2 r2 ->
  d1 = d2 /\ String c1 r1 = String c2 r2.
Proof.
  revert d2. induction d1 as [|x d1 IH]; intros [|y d2] H1 H2 Hc1 Hc2 E;
    cbn [append forall_chars] in *.
  - auto.
  - injection E as -> _. apply andb_true_iff in H2 as [H2 _]. congruence.
  - injection E as -> _. apply andb_true_iff in H1 as [H1 _]. congruence.
  - injection E as -> E.
    apply andb_true_iff in H1 as [_ H1]. apply andb_true_iff in H2 as [_ H2].
    destruct (IH d2 H1 H2 Hc1 Hc2 E) as [-> ER]. auto.
Qed.

(** ** The sanitizer: fixed points and the empty string *)

Lemma sanitize_char_fixed c : sanitize_char c = c <-> kept_char c = true.
Proof.
  unfold sanitize_char, kept_char.
  destruct (Py.isalnum_char c || Ascii.eqb c "_" || Ascii.eqb c "-") eqn:E.
  - split; auto.
  - split; [|discriminate]. intros <-.
    rewrite orb_false_iff in E. destruct E as [E _].
    rewrite orb_false_iff in E. destruct E as [_ E]. discriminate.
Qed.

(** X1: the strings the sanitizer leaves unchanged are exactly those made
    of alphanumeric characters, [_] and [-]. *)
Theorem X1_sanitize_fixed_points :
  forall s : string,
    sanitize_filename (JStr s) = Ok s <-> forall_chars kept_char s = true.
Proof.
  intros s. rewrite sanitize_filename_str.
  split.
  - intros H. injection H as H. rewrite <- H. apply forall_chars_sanitize_kept.
  - intros H. f_equal.
    induction s as [|c r IH]; [reflexivity|].
    cbn [forall_chars] in H. apply andb_true_iff in H as [Hc Hr].
    cbn [sanitize_str]. rewrite (proj2 (sanitize_char_fixed c) Hc), IH; auto.
Qed.

(** X2: the sanitizer keeps the length of a string, character for
    character; its result is empty only for the empty string. *)
Theorem X2_sanitize_keeps_length :
  forall s : string,
    exists t, sanitize_filename (JStr s) = Ok t /\
              String.length t = String.length s /\
              (t = "" <-> s = "").
Proof.
  intros s. exists (sanitize_str s). split; [apply sanitize_filename_str|].
  split; [apply sanitize_str_length|].
  destruct s; cbn [sanitize_str]; split; intros H; auto; discriminate.
Qed.

(** ** Which records share a filename *)

Lemma Make3D_filename_form a index idx entry n :
  Make3D.poscar_filename a index idx entry = Ok n ->
  exists sm,
    n = Make3D.filename_prefix a ++ "_jsonNum_" ++ Py.str_of_nat index
        ++ "_entryNum" ++ Py.str_of_nat idx ++ "_" ++ sm ++ ".vasp".
Proof.
  unfold Make3D.poscar_filename.
  destruct (Make3D.mat_id_of entry idx) as [m|]; cbn [rbind]; [|discriminate].
  destruct (sanitize_filename m) as [sm|]; cbn [rbind]; [|discriminate].
  intros H. injection H as <-. now exists sm.
Qed.

Lemma flat_name_inj prefix i1 j1 m1 i2 j2 m2 :
  prefix ++ "_jsonNum_" ++ Py.str_of_nat i1 ++ "_entryNum" ++ Py.str_of_nat j1
    ++ "_" ++ m1 ++ ".vasp" =
  prefix ++ "_jsonNum_" ++ Py.str_of_nat i2 ++ "_entryNum" ++ Py.str_of_nat j2
    ++ "_" ++ m2 ++ ".vasp" ->
  i1 = i2 /\ j1 = j2 /\ m1 = m2.
Proof.
  intros H. apply append_cancel_l in H.
  cbn [append] in H. repeat (injection H as H).
  apply digits_then_sep in H as [Hi H];
    try apply str_of_nat_digits; try reflexivity.
  repeat (injection H as H).
  apply digits_then_sep in H as [Hj H];
    try apply str_of_nat_digits; try reflexivity.
  injection H as H. apply append_cancel_r in H.
  repeat split; auto using str_of_nat_inj.
Qed.

(** X4: in the flat-schema tools the derived filename determines the file
    index and the entry index: two entries of one run never get the same
    name, whatever their material identifiers are. *)
Theorem X4_flat_filenames_distinct :
  forall (ag : Make3D.args) (al : IdProp3D.args)
         (i1 j1 i2 j2 : nat) (e1 e2 : json) (n : string),
    (Make3D.poscar_filename ag i1 j1 e1 = Ok n ->
     Make3D.poscar_filename ag i2 j2 e2 = Ok n -> i1 = i2 /\ j1 = j2) /\
    (IdProp3D.poscar_filename al i1 j1 e1 = Ok n ->
     IdProp3D.poscar_filename al i2 j2 e2 = Ok n -> i1 = i2 /\ j1 = j2).
Proof.
  intros ag al i1 j1 i2 j2 e1 e2 n.
  assert (Hg : Make3D.poscar_filename ag i1 j1 e1 = Ok n ->
               Make3D.poscar_filename ag i2 j2 e2 = Ok n -> i1 = i2 /\ j1 = j2).
  { intros H1 H2.
    apply Make3D_filename_form in H1 as [m1 H1].
    apply Make3D_filename_form in H2 as [m2 H2].
    rewrite H1 in H2. apply flat_name_inj in H2 as (Hi & Hj & _). auto. }
  split; [exact Hg|].
  destruct al as [inp out pre]. intros H1 H2.
  pose (ag' := {| Make3D.input := inp; Make3D.output := out;
                  Make3D.filename_prefix := pre |}).
  change (Make3D.poscar_filename ag' i1 j1 e1 = Ok n) in H1.
  change (Make3D.poscar_filename ag' i2 j2 e2 = Ok n) in H2.
  apply Make3D_filename_form in H1 as [m1 H1].
  apply Make3D_filename_form in H2 as [m2 H2].
  rewrite H1 in H2. apply flat_name_inj in H2 as (Hi & Hj & _). auto.
Qed.

Lemma X4_flat_filenames_witness :
  Make3D.poscar_filename
    {| Make3D.input := "in"; Make3D.output := "out"; Make3D.filename_prefix := "P" |}
    0 1 (JObj [("data", JObj [("mat_id", JStr "7_entryNum1_x")])]) =
  Ok "P_jsonNum_0_entryNum1_7_entryNum1_x.vasp" /\
  0 = 0 /\ 1 = 1.
Proof.
  split; [reflexivity|].
  apply (proj1 (X4_flat_filenames_distinct
                  {| Make3D.input := "in"; Make3D.output := "out";
                     Make3D.filename_prefix := "P" |}
                  {| IdProp3D.input := "in"; IdProp3D.output := "out";
                     IdProp3D.filename_prefix := "P" |}
                  0 1 0 1
                  (JObj [("data", JObj [("mat_id", JStr "7_entryNum1_x")])])
                  (JObj [("data", JObj [("mat_id", JStr "7_entryNum1_x")])])
                  "P_jsonNum_0_entryNum1_7_entryNum1_x.vasp") eq_refl eq_refl).
Defined.

Lemma Make2D_filename_form a file_path top_key entry_index step_index n :
  Make2D.poscar_filename a file_path top_key entry_index step_index = Ok n ->
  exists st,
    sanitize_filename top_key = Ok st /\
    n = Make2D.filename_prefix a
        ++ sanitize_str (Py.splitext_root (Py.basename file_path))
        ++ "_" ++ or_else st "key_empty"
        ++ "_entry" ++ Py.str_of_nat entry_index
        ++ "_step" ++ Py.str_of_nat step_index ++ ".vasp".
Proof.
  unfold Make2D.poscar_filename.
  destruct (sanitize_filename top_key) as [st|]; cbn [rbind]; [|discriminate].
  rewrite sanitize_filename_str. cbn [rbind].
  intros H. injection H as <-. now exists st.
Qed.

Lemma nested_suffix_inj e1 s1 e2 s2 :
  "_entry" ++ Py.str_of_nat e1 ++ "_step" ++ Py.str_of_nat s1 ++ ".vasp" =
  "_entry" ++ Py.str_of_nat e2 ++ "_step" ++ Py.str_of_nat s2 ++ ".vasp" ->
  e1 = e2 /\ s1 = s2.
Proof.
  intros H. cbn [append] in H. repeat (injection H as H).
  apply digits_then_sep in H as [He H];
    try apply str_of_nat_digits; try reflexivity.
  repeat (injection H as H).
  apply digits_then_sep in H as [Hs _];
    try apply str_of_nat_digits; try reflexivity.
  split; auto using str_of_nat_inj.
Qed.

(** X3: in the nested-schema geometry emitter two group keys of one file
    give the same filename at the same entry and step exactly when their
    sanitized forms (with [key_empty] for an empty one) coincide; keys that
    differ only in replaced characters therefore share their filenames. *)
Theorem X3_nested_keys_share_filenames :
  forall (a : Make2D.args) (file_path k1 k2 : string) (entry_index step_index : nat),
    Make2D.poscar_filename a file_path (JStr k1) entry_index step_index =
    Make2D.poscar_filename a file_path (JStr k2) entry_index step_index
    <->
    or_else (sanitize_str k1) "key_empty" = or_else (sanitize_str k2) "key_empty".
Proof.
  intros a file_path k1 k2 entry_index step_index.
  rewrite (proj1 (poscar_filename_2D_shape a file_path k1 entry_index step_index)).
  rewrite (proj1 (poscar_filename_2D_shape a file_path k2 entry_index step_index)).
  split.
  - intros H. injection H as H.
    apply append_cancel_l in H. apply append_cancel_l in H.
    cbn [append] in H. injection H as H.
    now apply append_cancel_r in H.
  - intros H. now rewrite H.
Qed.

(** Two groups whose keys differ in a blank, and the empty key next to the
    key [key_empty]: each pair writes to one and the same file. *)
Example nested_keys_collide :
  let a := {| Make2D.input := "in"; Make2D.output := "out";
              Make2D.filename_prefix := "POSCAR_" |} in
  Make2D.poscar_filename a "in/s.json" (JStr "a b") 0 0 =
  Make2D.poscar_filename a "in/s.json" (JStr "a_b") 0 0 /\
  Make2D.poscar_filename a "in/s.json" (JStr "") 0 0 =
  Make2D.poscar_filename a "in/s.json" (JStr "key_empty") 0 0.
Proof. split; reflexivity. Qed.

(** X5: within one group of one file, the nested-schema filename determines
    the entry index and the step index. *)
Theorem X5_nested_filenames_distinct_in_group :
  forall (a : Make2D.args) (file_path : string) (top_key : json)
         (e1 s1 e2 s2 : nat) (n : string),
    Make2D.poscar_filename a file_path top_key e1 s1 = Ok n ->
    Make2D.poscar_filename a file_path top_key e2 s2 = Ok n ->
    e1 = e2 /\ s1 = s2.
Proof.
  intros a file_path top_key e1 s1 e2 s2 n H1 H2.
  apply Make2D_filename_form in H1 as (st1 & Hst1 & H1).
  apply Make2D_filename_form in H2 as (st2 & Hst2 & H2).
  rewrite Hst1 in Hst2. injection Hst2 as <-.
  rewrite H1 in H2.
  apply append_cancel_l in H2. apply append_cancel_l in H2.
  change ("_" ++ or_else st1 "key_empty" ++ "_entry" ++ Py.str_of_nat e1
            ++ "_step" ++ Py.str_of_nat s1 ++ ".vasp")
    with (String "_" (or_else st1 "key_empty" ++ "_entry" ++ Py.str_of_nat e1
            ++ "_step" ++ Py.str_of_nat s1 ++ ".vasp")) in H2.
  change ("_" ++ or_else st1 "key_empty" ++ "_entry" ++ Py.str_of_nat e2
            ++ "_step" ++ Py.str_of_nat s2 ++ ".vasp")
    with (String "_" (or_else st1 "key_empty" ++ "_entry" ++ Py.str_of_nat e2
            ++ "_step" ++ Py.str_of_nat s2 ++ ".vasp")) in H2.
  injection H2 as H2. apply append_cancel_l in H2.
  now apply nested_suffix_inj.
Qed.

Lemma X5_nested_filenames_witness :
  Make2D.poscar_filename
    {| Make2D.input := "in"; Make2D.output := "out"; Make2D.filename_prefix := "POSCAR_" |}
    "in/sample.json" (JStr "groupA") 3 12 =
  Ok "POSCAR_sample_groupA_entry3_step12.vasp" /\ 3 = 3 /\ 12 = 12.
Proof.
  split; [reflexivity|].
  apply (X5_nested_filenames_distinct_in_group
           {| Make2D.input := "in"; Make2D.output := "out";
              Make2D.filename_prefix := "POSCAR_" |}
           "in/sample.json" (JStr "groupA") 3 12 3 12
           "POSCAR_sample_groupA_entry3_step12.vasp" eq_refl eq_refl).
Defined.

(** ** Paths: the stem of a matched file *)

Lemma split_last_none c s : no_char c s = true -> Py.split_last c s = None.
Proof.
  unfold no_char. induction s as [|x s IH]; [reflexivity|].
  cbn [forall_chars Py.split_last]. intros H.
  apply andb_true_iff in H as [Hx Hs]. rewrite (IH Hs).
  apply negb_true_iff in Hx. now rewrite Hx.
Qed.

Lemma split_last_app c a n :
  no_char c n = true -> Py.split_last c (a ++ String c n) = Some (a, n).
Proof.
  intros Hn. induction a as [|x a IH]; cbn [append Py.split_last].
  - rewrite (split_last_none c n Hn). now rewrite Ascii.eqb_refl.
  - now rewrite IH.
Qed.

Lemma no_char_app c a b :
  no_char c (a ++ b) = no_char c a && no_char c b.
Proof.
  unfold no_char. induction a as [|x a IH]; [reflexivity|].
  cbn [append forall_chars]. now rewrite IH, andb_assoc.
Qed.

Lemma ends_with_sep_split d :
  Py.ends_with_sep d = true -> exists d', d = d' ++ "/".
Proof.
  induction d as [|x d IH]; [discriminate|].
  destruct d as [|y d].
  - cbn [Py.ends_with_sep]. intros H. apply Ascii.eqb_eq in H as ->. now exists "".
  - intros H. change (Py.ends_with_sep (String y d) = true) in H.
    destruct (IH H) as [d' ->]. now exists (String x d').
Qed.

Lemma starts_with_sep_no_char n : no_char "/" n = true -> Py.starts_with_sep n = false.
Proof.
  destruct n as [|x n]; [reflexivity|].
  unfold no_char. cbn [forall_chars Py.starts_with_sep]. intros H.
  apply andb_true_iff in H as [H _]. now apply negb_true_iff in H.
Qed.

Lemma basename_no_sep n : no_char "/" n = true -> Py.basename n = n.
Proof. intros H. unfold Py.basename. now rewrite (split_last_none _ _ H). Qed.

Lemma basename_path_join d n :
  no_char "/" n = true -> Py.basename (Py.path_join d n) = n.
Proof.
  intros Hn. unfold Py.path_join. rewrite (starts_with_sep_no_char n Hn).
  destruct (String.eqb_spec d "") as [->|Hd]; cbn [orb].
  - now apply basename_no_sep.
  - destruct (Py.ends_with_sep d) eqn:E.
    + destruct (ends_with_sep_split d E) as [d' ->].
      rewrite append_assoc_str. cbn [append].
      unfold Py.basename. now rewrite (split_last_app "/" d' n Hn).
    + cbn [append]. unfold Py.basename. now rewrite (split_last_app "/" d n Hn).
Qed.

Lemma substring_prefix a b : substring 0 (String.length a) (a ++ b) = a.
Proof.
  induction a as [|x a IH]; cbn [String.length append substring].
  - destruct b; reflexivity.
  - now rewrite IH.
Qed.

Lemma splitext_root_stem stem ext :
  no_char "/" stem = true -> no_char "/" ext = true -> no_char "." ext = true ->
  Py.only_dots stem = false ->
  Py.splitext_root (stem ++ "." ++ ext) = stem.
Proof.
  intros Hs He Hd Hdots. unfold Py.splitext_root.
  rewrite basename_no_sep.
  - cbn [append]. rewrite (split_last_app "." stem ext Hd). rewrite Hdots.
    replace (String.length (stem ++ String "." ext) - (String.length ext + 1))
      with (String.length stem)
      by (rewrite append_length_str; cbn [String.length]; lia).
    apply substring_prefix.
  - rewrite no_char_app, Hs. cbn [append]. unfold no_char in *.
    cbn [forall_chars]. now rewrite He.
Qed.

(** X6: for a file [stem.ext] found in the input directory, where the stem
    has a character other than a dot and neither part contains a slash, the
    base name the nested-schema tools sanitize is the stem: the directory
    and the extension leave no trace in the derived filename. *)
Theorem X6_stem_of_matched_file :
  forall (input_dir stem ext : string),
    no_char "/" stem = true -> no_char "/" ext = true -> no_char "." ext = true ->
    Py.only_dots stem = false ->
    let file_path := Py.path_join input_dir (stem ++ "." ++ ext) in
    Py.basename file_path = stem ++ "." ++ ext /\
    Py.splitext_root (Py.basename file_path) = stem /\
    forall (a : Make2D.args) (k : string) (entry_index step_index : nat),
      Make2D.poscar_filename a file_path (JStr k) entry_index step_index =
      Ok (Make2D.filename_prefix a ++ sanitize_str stem ++ "_"
          ++ or_else (sanitize_str k) "key_empty"
          ++ "_entry" ++ Py.str_of_nat entry_index
          ++ "_step" ++ Py.str_of_nat step_index ++ ".vasp").
Proof.
  intros input_dir stem ext Hs He Hd Hdots file_path.
  assert (Hn : no_char "/" (stem ++ "." ++ ext) = true).
  { rewrite no_char_app, Hs. cbn [append]. unfold no_char in *.
    cbn [forall_chars]. now rewrite He. }
  assert (Hb : Py.basename file_path = stem ++ "." ++ ext)
    by (apply basename_path_join; exact Hn).
  assert (Hr : Py.splitext_root (Py.basename file_path) = stem)
    by (rewrite Hb; now apply splitext_root_stem).
  repeat split; auto.
  intros a k entry_index step_index.
  rewrite (proj1 (poscar_filename_2D_shape a file_path k entry_index step_index)).
  now rewrite Hr.
Qed.

Lemma X6_stem_witness :
  Py.splitext_root (Py.basename (Py.path_join "data/in/" ("run.v2" ++ "." ++ "json")))
  = "run.v2".
Proof.
  exact (proj1 (proj2 (X6_stem_of_matched_file "data/in/" "run.v2" "json"
                         eq_refl eq_refl eq_refl eq_refl))).
Defined.

(** ** Exit status of any run *)

Lemma status_zero_or_one o :
  status_one o -> exit_status o = 0%Z \/ exit_status o = 1%Z.
Proof. destruct o; cbn; auto. Qed.

Lemma Make2D_do_step_status w a fp k ei si step s :
  status_one (Make2D.do_step w a fp k ei si step s).
Proof. unfold Make2D.do_step. step_outcome; exact I. Qed.

Lemma Make2D_do_entry_status w a fp k ei entry s :
  status_one (Make2D.do_entry w a fp k ei entry s).
Proof.
  unfold Make2D.do_entry.
  destruct (Py.get entry "steps" (JArr [])) as [steps|]; cbn [eval_in]; [|exact I].
  destruct (negb (Py.truthy steps)); [exact I|].
  destruct (Py.iter steps) as [items|]; cbn [eval_in]; [|exact I].
  apply for_enum_status. intros; apply Make2D_do_step_status.
Qed.

Lemma Make2D_do_key_status w a fp data i key s :
  status_one (Make2D.do_key w a fp data i key s).
Proof.
  unfold Make2D.do_key.
  destruct (Py.getitem data key) as [entries|]; cbn [eval_in]; [|exact I].
  destruct (negb (Py.truthy entries)); [exact I|].
  destruct (Py.iter entries) as [items|]; cbn [eval_in]; [|exact I].
  apply for_enum_status. intros; apply Make2D_do_entry_status.
Qed.

Lemma Make2D_do_file_status w a i p s :
  status_one (Make2D.do_file w a i p s).
Proof.
  unfold Make2D.do_file. destruct (Make2D.load_json w p s) as [data s1].
  destruct (is_none data); [exact I|].
  destruct (Py.iter data) as [keys|]; cbn [eval_in]; [|exact I].
  apply for_enum_status. intros; apply Make2D_do_key_status.
Qed.

Lemma Make2D_main_status w a : status_one (Make2D.main w a).
Proof.
  unfold Make2D.main, Make2D.create_output_directory.
  destruct (dir_exists w (Make2D.output a));
    [|destruct (makedirs_ok w (Make2D.output a)); [|reflexivity]];
    cbn [andthen];
    (destruct (glob_sorted w _) eqn:E; [reflexivity|];
     apply for_enum_status; intros; apply Make2D_do_file_status).
Qed.

Lemma IdProp2D_do_step_status sb sk k ei si step s :
  status_one (IdProp2D.do_step sb sk k ei si step s).
Proof. unfold IdProp2D.do_step. step_outcome; exact I. Qed.

Lemma IdProp2D_do_entry_status sb sk k ei entry s :
  status_one (IdProp2D.do_entry sb sk k ei entry s).
Proof.
  unfold IdProp2D.do_entry.
  destruct (Py.get entry "steps" (JArr [])) as [steps|]; cbn [eval_in]; [|exact I].
  destruct (negb (Py.truthy steps)); [exact I|].
  destruct (Py.iter steps) as [items|]; cbn [eval_in]; [|exact I].
  apply for_enum_status. intros; apply IdProp2D_do_step_status.
Qed.

Lemma IdProp2D_do_key_status sb data i key s :
  status_one (IdProp2D.do_key sb data i key s).
Proof.
  unfold IdProp2D.do_key.
  destruct (Py.getitem data key) as [entries|]; cbn [eval_in]; [|exact I].
  destruct (negb (Py.truthy entries)); [exact I|].
  destruct (sanitize_filename key) as [st|]; cbn [eval_in]; [|exact I].
  destruct (Py.iter entries) as [items|]; cbn [eval_in]; [|exact I].
  apply for_enum_status. intros; apply IdProp2D_do_entry_status.
Qed.

Lemma IdProp2D_do_file_status w i p s :
  status_one (IdProp2D.do_file w i p s).
Proof.
  unfold IdProp2D.do_file. destruct (IdProp2D.load_json w p s) as [data s1].
  destruct (is_none data); [exact I|].
  destruct (sanitize_filename _) as [sb|]; cbn [eval_in]; [|exact I].
  destruct (Py.iter data) as [keys|]; cbn [eval_in]; [|exact I].
  apply for_enum_status. intros; apply IdProp2D_do_key_status.
Qed.

Lemma IdProp2D_main_status w a : status_one (IdProp2D.main w a).
Proof.
  unfold IdProp2D.main.
  destruct (negb (dir_exists w (IdProp2D.output a)) &&
            negb (makedirs_ok w (IdProp2D.output a))); [exact I|].
  destruct (glob_sorted w _) eqn:E; [reflexivity|].
  apply for_enum_status. intros; apply IdProp2D_do_file_status.
Qed.

(** X7: whatever the input files contain and whatever the file system and
    pymatgen do, each of the four tools ends with status 0 or 1: every
    [exit] in the code carries 1, and an uncaught exception ends the
    interpreter with 1. *)
Theorem X7_exit_status_zero_or_one :
  forall w : world,
    (forall a, exit_status (Make2D.main w a) = 0%Z \/ exit_status (Make2D.main w a) = 1%Z) /\
    (forall a, exit_status (IdProp2D.main w a) = 0%Z \/ exit_status (IdProp2D.main w a) = 1%Z) /\
    (forall a, exit_status (Make3D.main w a) = 0%Z \/ exit_status (Make3D.main w a) = 1%Z) /\
    (forall a, exit_status (IdProp3D.main w a) = 0%Z \/ exit_status (IdProp3D.main w a) = 1%Z).
Proof.
  intros w. repeat split; intros a; apply status_zero_or_one.
  - apply Make2D_main_status.
  - apply IdProp2D_main_status.
  - unfold Make3D.main. apply for_enum_status. intros; apply Make3D_do_file_status.
  - unfold IdProp3D.main.
    pose proof (for_enum_status (IdProp3D.do_file w a)
                  (fun i x s => IdProp3D_do_file_status w a i x s)
                  (glob_sorted w (Py.path_join (IdProp3D.input a) "*.json")) 0
                  (open_csv "./id_prop.csv" no_effects)) as H.
    destruct (for_enum _ _ _ _); cbn [andthen]; auto.
Qed.

(** ** What each tool never touches *)

Ltac frame_loop lem :=
  match goal with
  | H : ?P ?s |- ?P (final (for_enum _ _ _ ?s)) =>
      apply (for_enum_final_inv P); [intros; apply lem; assumption | exact H]
  end.

Ltac frame_step :=
  repeat match goal with
  | |- context [eval_in _ ?r _] => destruct r; cbn [eval_in]
  | |- context [if ?b then _ else _] => destruct b
  | |- context [match ?r with Ok _ => _ | Raise _ => _ end] => destruct r
  | |- context [match ?e with KeyError _ => _ | _ => _ end] => destruct e
  end; cbn [final andthen]; try assumption.

Lemma Make2D_do_step_frame w a fp k ei si step s :
  label_free s -> label_free (final (Make2D.do_step w a fp k ei si step s)).
Proof. intros H. unfold Make2D.do_step, Make2D.generate_poscar. frame_step. Qed.

Lemma Make2D_do_entry_frame w a fp k ei entry s :
  label_free s -> label_free (final (Make2D.do_entry w a fp k ei entry s)).
Proof.
  intros H. unfold Make2D.do_entry.
  destruct (Py.get entry "steps" (JArr [])) as [steps|]; cbn [eval_in final]; auto.
  destruct (negb (Py.truthy steps)); cbn [final]; auto.
  destruct (Py.iter steps) as [items|]; cbn [eval_in final]; auto.
  frame_loop Make2D_do_step_frame.
Qed.

Lemma Make2D_do_key_frame w a fp data i key s :
  label_free s -> label_free (final (Make2D.do_key w a fp data i key s)).
Proof.
  intros H. unfold Make2D.do_key.
  destruct (Py.getitem data key) as [entries|]; cbn [eval_in final]; auto.
  destruct (negb (Py.truthy entries)); cbn [final]; auto.
  destruct (Py.iter entries) as [items|]; cbn [eval_in final]; auto.
  frame_loop Make2D_do_entry_frame.
Qed.

Lemma Make2D_do_file_frame w a i p s :
  label_free s -> label_free (final (Make2D.do_file w a i p s)).
Proof.
  intros H. unfold Make2D.do_file, Make2D.load_json.
  destruct (json_load w p) as [data|]; [|exact H].
  destruct (is_none data); [exact H|].
  destruct (Py.iter data) as [keys|]; cbn [eval_in final]; auto.
  frame_loop Make2D_do_key_frame.
Qed.

Lemma Make3D_do_entry_frame w a index idx entry s :
  label_free s -> label_free (final (Make3D.do_entry w a index idx entry s)).
Proof. intros H. unfold Make3D.do_entry, Make3D.generate_poscar. frame_step. Qed.

Lemma Make3D_do_file_frame w a i p s :
  label_free s -> label_free (final (Make3D.do_file w a i p s)).
Proof.
  intros H. unfold Make3D.do_file, Make3D.load_json, Make3D.create_output_directory.
  destruct (json_load w p) as [data|]; [|exact H].
  destruct (dir_exists w (Make3D.output a));
    [|destruct (makedirs_ok w (Make3D.output a)); [|exact H]];
    cbn [andthen];
    (destruct (Py.get data "entries" (JArr [])) as [entries|]; cbn [eval_in final]; auto;
     destruct (negb (Py.truthy entries)); cbn [final]; auto;
     destruct (Py.iter entries) as [items|]; cbn [eval_in final]; auto;
     apply (for_enum_final_inv label_free);
     [intros; now apply Make3D_do_entry_frame | exact H]).
Qed.

Lemma IdProp2D_do_step_frame sb sk k ei si step s :
  geometry_free s -> geometry_free (final (IdProp2D.do_step sb sk k ei si step s)).
Proof. intros H. unfold IdProp2D.do_step. frame_step. Qed.

Lemma IdProp2D_do_entry_frame sb sk k ei entry s :
  geometry_free s -> geometry_free (final (IdProp2D.do_entry sb sk k ei entry s)).
Proof.
  intros H. unfold IdProp2D.do_entry.
  destruct (Py.get entry "steps" (JArr [])) as [steps|]; cbn [eval_in final]; auto.
  destruct (negb (Py.truthy steps)); cbn [final]; auto.
  destruct (Py.iter steps) as [items|]; cbn [eval_in final]; auto.
  frame_loop IdProp2D_do_step_frame.
Qed.

Lemma IdProp2D_do_key_frame sb data i key s :
  geometry_free s -> geometry_free (final (IdProp2D.do_key sb data i key s)).
Proof.
  intros H. unfold IdProp2D.do_key.
  destruct (Py.getitem data key) as [entries|]; cbn [eval_in final]; auto.
  destruct (negb (Py.truthy entries)); cbn [final]; auto.
  destruct (sanitize_filename key) as [st|]; cbn [eval_in final]; auto.
  destruct (Py.iter entries) as [items|]; cbn [eval_in final]; auto.
  frame_loop IdProp2D_do_entry_frame.
Qed.

Lemma IdProp2D_do_file_frame w i p s :
  geometry_free s -> geometry_free (final (IdProp2D.do_file w i p s)).
Proof.
  intros H. unfold IdProp2D.do_file, IdProp2D.load_json.
  destruct (json_load w p) as [data|]; [|exact H].
  destruct (is_none data); [exact H|].
  destruct (sanitize_filename _) as [sb|]; cbn [eval_in final]; auto.
  destruct (Py.iter data) as [keys|]; cbn [eval_in final]; auto.
  frame_loop IdProp2D_do_key_frame.
Qed.

Lemma IdProp3D_do_entry_frame a index idx entry s :
  geometry_free s -> geometry_free (final (IdProp3D.do_entry a index idx entry s)).
Proof. intros H. unfold IdProp3D.do_entry. frame_step. Qed.

Lemma IdProp3D_do_file_frame w a i p s :
  geometry_free s -> geometry_free (final (IdProp3D.do_file w a i p s)).
Proof.
  intros H. unfold IdProp3D.do_file, IdProp3D.load_json.
  destruct (json_load w p) as [data|]; [|exact H].
  destruct (Py.get data "entries" (JArr [])) as [entries|]; cbn [eval_in final]; auto.
  destruct (negb (Py.truthy entries)); cbn [final]; auto.
  destruct (Py.iter entries) as [items|]; cbn [eval_in final]; auto.
  apply (for_enum_final_inv geometry_free);
    [intros; now apply IdProp3D_do_entry_frame | exact H].
Qed.

(** X8: the geometry emitters never open a CSV, write a row or count a
    skip, and the label emitters never write a geometry file, on any input
    and however the run ends: the two outputs of a dataset come from two
    separate passes. *)
Theorem X8_emitters_keep_to_their_output :
  forall w : world,
    (forall a, label_free (final (Make2D.main w a))) /\
    (forall a, label_free (final (Make3D.main w a))) /\
    (forall a, geometry_free (final (IdProp2D.main w a))) /\
    (forall a, geometry_free (final (IdProp3D.main w a))).
Proof.
  intros w. split; [|split; [|split]]; intros a.
  - unfold Make2D.main, Make2D.create_output_directory.
    destruct (dir_exists w (Make2D.output a));
      [|destruct (makedirs_ok w (Make2D.output a)); [|repeat split; reflexivity]];
      cbn [andthen];
      (destruct (glob_sorted w _); [repeat split; reflexivity|];
       apply (for_enum_final_inv label_free);
       [intros; now apply Make2D_do_file_frame | repeat split; reflexivity]).
  - unfold Make3D.main. apply (for_enum_final_inv label_free);
      [intros; now apply Make3D_do_file_frame | repeat split; reflexivity].
  - unfold IdProp2D.main.
    destruct (negb (dir_exists w (IdProp2D.output a)) &&
              negb (makedirs_ok w (IdProp2D.output a))); [reflexivity|].
    destruct (glob_sorted w _); [reflexivity|].
    apply (for_enum_final_inv geometry_free);
      [intros; now apply IdProp2D_do_file_frame | reflexivity].
  - unfold IdProp3D.main.
    pose proof (for_enum_final_inv geometry_free (IdProp3D.do_file w a)
                  (fun i x s H => IdProp3D_do_file_frame w a i x s H)
                  (glob_sorted w (Py.path_join (IdProp3D.input a) "*.json")) 0
                  (open_csv "./id_prop.csv" no_effects) eq_refl) as H.
    destruct (for_enum _ _ _ _); cbn [andthen final] in *; exact H.
Qed.

(** ** Every record is accounted for *)

Lemma for_enum_measure {A} (mu : effects -> nat) (f : A -> nat)
    (body : nat -> A -> effects -> outcome) l :
  (forall i x s, In x l -> exists s', body i x s = Done s' /\ mu s' = mu s + f x) ->
  forall i s,
    exists s', for_enum body i l s = Done s' /\ mu s' = mu s + list_sum (map f l).
Proof.
  induction l as [|x l IH]; intros Hb i s.
  - exists s. cbn. split; [reflexivity|lia].
  - destruct (Hb i x s (or_introl eq_refl)) as (s1 & H1 & M1).
    destruct (IH (fun j y t Hy => Hb j y t (or_intror Hy)) (S i) s1)
      as (s2 & H2 & M2).
    exists s2. cbn [for_enum]. rewrite H1. cbn [andthen].
    split; [exact H2|].
    change (list_sum (map f (x :: l))) with (f x + list_sum (map f l)). lia.
Qed.

Lemma IdProp2D_do_step_handled sb sk k ei si step s :
  is_dict step = true ->
  exists s', IdProp2D.do_step sb sk k ei si step s = Done s' /\
             handled s' = handled s + 1.
Proof.
  destruct step; try discriminate. intros _.
  unfold IdProp2D.do_step, handled. cbn [Py.get eval_in].
  destruct (negb (Py.truthy _) || is_none _); eexists; split; try reflexivity.
  - cbn [rows skipped skip_one log]. lia.
  - cbn [rows skipped writerow]. rewrite length_app. cbn [length]. lia.
Qed.

Lemma falsy_len_list v : Py.truthy v = false -> len_list v = 0.
Proof. destruct v; cbn; try reflexivity. destruct l; [reflexivity|discriminate]. Qed.

Lemma IdProp2D_do_entry_handled sb sk k ei entry s :
  entryA_ok entry = true ->
  exists s', IdProp2D.do_entry sb sk k ei entry s = Done s' /\
             handled s' = handled s + steps_of_entry entry.
Proof.
  destruct entry as [| | | | |l|e]; try discriminate.
  unfold entryA_ok, IdProp2D.do_entry, steps_of_entry. cbn [Py.get eval_in]. intros H.
  destruct (Py.assoc "steps" e) as [v|].
  - cbn [if_present] in H. destruct (Py.truthy v) eqn:Ht; cbn [negb].
    + destruct (list_of_iter _ v Ht H) as (l & -> & Hl). cbn [Py.iter eval_in len_list].
      destruct (for_enum_measure handled (fun _ => 1)
                  (IdProp2D.do_step sb sk k ei) l
                  (fun i x t Hx => IdProp2D_do_step_handled sb sk k ei i x t
                                     (forallb_In _ l x Hl Hx)) 0 s)
        as (s' & Hrun & Hm).
      exists s'. split; [exact Hrun|]. rewrite Hm. f_equal.
      clear. induction l; cbn; auto.
    + exists (log (DNoSteps ei k) s). split; [reflexivity|].
      rewrite (falsy_len_list v Ht). unfold handled. cbn [rows skipped log]. lia.
  - exists (log (DNoSteps ei k) s). split; [reflexivity|].
    unfold handled. cbn [rows skipped log]. lia.
Qed.

Lemma falsy_steps_in_group v : Py.truthy v = false -> steps_in_group v = 0.
Proof. destruct v; cbn; try reflexivity. destruct l; [reflexivity|discriminate]. Qed.

Lemma IdProp2D_do_key_handled sb m i key s :
  schemaA_doc (JObj m) = true ->
  In key (map (fun kv => JStr (fst kv)) m) ->
  exists s', IdProp2D.do_key sb (JObj m) i key s = Done s' /\
             handled s' = handled s + steps_under_key m key.
Proof.
  cbn [schemaA_doc]. intros Hdoc Hin.
  apply in_map_iff in Hin as ([k v0] & <- & Hin). cbn [fst].
  destruct (assoc_forallb _ m k Hdoc) as (v & Hv & Hp).
  { apply in_map_iff. now exists (k, v0). }
  cbn [snd] in Hp.
  unfold IdProp2D.do_key, steps_under_key. cbn [Py.getitem]. rewrite Hv. cbn [eval_in].
  destruct (Py.truthy v) eqn:Ht; cbn [negb].
  - rewrite sanitize_filename_str. cbn [eval_in].
    destruct (list_of_iter _ v Ht Hp) as (l & -> & Hl). cbn [Py.iter eval_in steps_in_group].
    apply (for_enum_measure handled steps_of_entry).
    intros j x t Hx. apply IdProp2D_do_entry_handled. now apply (forallb_In _ l).
  - exists (log (DNoEntriesUnderKey (JStr k)) s). split; [reflexivity|].
    rewrite (falsy_steps_in_group v Ht). unfold handled. cbn [rows skipped log]. lia.
Qed.

Lemma IdProp2D_do_file_handled w i p s :
  (forall data, json_load w p = Some data -> schemaA_doc data = true) ->
  exists s', IdProp2D.do_file w i p s = Done s' /\
             handled s' = handled s + steps_in_file w p.
Proof.
  intros Hshape. unfold steps_in_file.
  destruct (json_load w p) as [data|] eqn:Hload.
  - specialize (Hshape data eq_refl).
    unfold IdProp2D.do_file, IdProp2D.load_json. rewrite Hload.
    destruct data as [| | | | |l|m]; try discriminate.
    cbn [is_none]. rewrite sanitize_filename_str. cbn [Py.iter eval_in steps_in_doc].
    rewrite <- (map_map (fun kv => JStr (fst kv)) (steps_under_key m)).
    apply (for_enum_measure handled (steps_under_key m)).
    intros j key t Hin. now apply IdProp2D_do_key_handled.
  - rewrite IdProp2D_do_file_load_error by exact Hload.
    eexists. split; [reflexivity|]. unfold handled. cbn [rows skipped log]. lia.
Qed.

(** X9: on nested-schema documents the label emitter accounts for every
    step of every entry of every group of every file: when the run ends,
    the rows of the CSV and the skip counter add up to the number of steps
    in the input. *)
Theorem X9_nested_label_accounts_for_every_step :
  forall (w : world) (a : IdProp2D.args),
    let files := glob_sorted w (Py.path_join (IdProp2D.input a) "*.json") in
    files <> [] ->
    can_make_dir w (IdProp2D.output a) = true ->
    (forall p data, In p files -> json_load w p = Some data ->
                    schemaA_doc data = true) ->
    exists s',
      IdProp2D.main w a = Done s' /\
      length (rows s') + skipped s' = list_sum (map (steps_in_file w) files).
Proof.
  intros w a files Hne Hdir Hshape.
  unfold IdProp2D.main. unfold can_make_dir in Hdir.
  replace (negb (dir_exists w (IdProp2D.output a)) &&
           negb (makedirs_ok w (IdProp2D.output a))) with false
    by (destruct (dir_exists w (IdProp2D.output a)),
                 (makedirs_ok w (IdProp2D.output a)); auto; discriminate).
  fold files. destruct files as [|p r] eqn:E; [congruence|]. rewrite <- E in *.
  destruct (for_enum_measure handled (steps_in_file w) (IdProp2D.do_file w) files
              (fun i x t Hx => IdProp2D_do_file_handled w i x t
                                 (fun d Hd => Hshape x d Hx Hd))
              0 (open_csv (Py.path_join (IdProp2D.output a) "id_prop.csv") no_effects))
    as (s' & Hrun & Hm).
  exists s'. split; [exact Hrun|]. exact Hm.
Qed.

Lemma X9_nested_label_witness :
  exists s',
    IdProp2D.main (world_of [("in/a.json", Some doc_two_groups); ("in/b.json", None)])
      {| IdProp2D.input := "in"; IdProp2D.output := "." |} = Done s' /\
    length (rows s') + skipped s' = 2.
Proof.
  apply (X9_nested_label_accounts_for_every_step
           (world_of [("in/a.json", Some doc_two_groups); ("in/b.json", None)])
           {| IdProp2D.input := "in"; IdProp2D.output := "." |}).
  - discriminate.
  - reflexivity.
  - intros p data Hin Hload.
    destruct Hin as [<-|[<-|[]]]; [|discriminate].
    injection Hload as <-. reflexivity.
Defined.

Lemma Make3D_do_entry_produced w a index idx entry s :
  schemaB_entry entry = true ->
  exists s', Make3D.do_entry w a index idx entry s = Done s' /\
             produced s' = produced s + 1.
Proof.
  intros H. unfold Make3D.do_entry, Make3D.generate_poscar, produced.
  rewrite (Make3D_filename_schemaB a index idx entry H).
  destruct entry as [| | | | |l|m]; try discriminate.
  cbn [Py.get eval_in].
  destruct (negb (Py.truthy _));
    [|destruct (negb (structure_from_dict w _));
      [|destruct (structure_to w _ _)]];
    eexists; (split; [reflexivity|]);
    cbn [poscars diags log write_poscar]; rewrite length_app; cbn [length]; lia.
Qed.

Lemma Make2D_do_step_produced w a fp k ei si step s :
  is_dict step = true ->
  exists s', Make2D.do_step w a fp (JStr k) ei si step s = Done s' /\
             produced s' = produced s + 1.
Proof.
  destruct step; try discriminate. intros _.
  unfold Make2D.do_step, Make2D.generate_poscar, produced.
  rewrite (proj1 (poscar_filename_2D_shape a fp k ei si)).
  cbn [Py.get eval_in].
  destruct (negb (Py.truthy _));
    [|destruct (negb (structure_from_dict w _));
      [|destruct (structure_to w _ _)]];
    eexists; (split; [reflexivity|]);
    cbn [poscars diags log write_poscar]; rewrite length_app; cbn [length]; lia.
Qed.

Lemma list_sum_ones {A} (l : list A) : list_sum (map (fun _ => 1) l) = length l.
Proof. induction l; cbn; auto. Qed.

(** X10: the geometry emitters drop no record silently: over the entries of
    a flat-schema file, and over the steps of a nested-schema entry, each
    record leaves exactly one trace, a geometry file or a diagnostic saying
    why there is none (no structure, not reconstructible, not writable). *)
Theorem X10_geometry_file_or_diagnostic :
  (forall (w : world) (a : Make3D.args) (index : nat) (entries : list json)
          (i : nat) (s : effects),
      forallb schemaB_entry entries = true ->
      exists s',
        for_enum (Make3D.do_entry w a index) i entries s = Done s' /\
        length (poscars s') + length (diags s') =
        length (poscars s) + length (diags s) + length entries) /\
  (forall (w : world) (a : Make2D.args) (file_path k : string) (entry_index : nat)
          (steps : list json) (i : nat) (s : effects),
      forallb is_dict steps = true ->
      exists s',
        for_enum (Make2D.do_step w a file_path (JStr k) entry_index) i steps s = Done s' /\
        length (poscars s') + length (diags s') =
        length (poscars s) + length (diags s) + length steps).
Proof.
  split.
  - intros w a index entries i s Hall.
    destruct (for_enum_measure produced (fun _ => 1) (Make3D.do_entry w a index) entries
                (fun j x t Hx => Make3D_do_entry_produced w a index j x t
                                   (forallb_In _ entries x Hall Hx)) i s)
      as (s' & Hrun & Hm).
    exists s'. split; [exact Hrun|]. rewrite list_sum_ones in Hm. exact Hm.
  - intros w a file_path k entry_index steps i s Hall.
    destruct (for_enum_measure produced (fun _ => 1)
                (Make2D.do_step w a file_path (JStr k) entry_index) steps
                (fun j x t Hx => Make2D_do_step_produced w a file_path k entry_index j x t
                                   (forallb_In _ steps x Hall Hx)) i s)
      as (s' & Hrun & Hm).
    exists s'. split; [exact Hrun|]. rewrite list_sum_ones in Hm. exact Hm.
Qed.

Lemma X10_geometry_witness :
  exists s',
    for_enum (Make3D.do_entry (world_of [])
                {| Make3D.input := "in"; Make3D.output := "out";
                   Make3D.filename_prefix := "POSCAR_" |} 0)
             1 (entry_without_structure :: three_entries) no_effects = Done s' /\
    length (poscars s') + length (diags s') = 4.
Proof.
  apply (proj1 X10_geometry_file_or_diagnostic (world_of [])
           {| Make3D.input := "in"; Make3D.output := "out";
              Make3D.filename_prefix := "POSCAR_" |}
           0 (entry_without_structure :: three_entries) 1 no_effects eq_refl).
Defined.

(** ** Nested schema: every label row has its geometry file *)

Lemma for_enum_lockstep {A} (R : effects -> effects -> Prop)
    (b1 b2 : nat -> A -> effects -> outcome) (l : list A) :
  (forall i x s1 s2, In x l -> R s1 s2 ->
     exists t1 t2, b1 i x s1 = Done t1 /\ b2 i x s2 = Done t2 /\ R t1 t2) ->
  forall i s1 s2, R s1 s2 ->
    exists t1 t2,
      for_enum b1 i l s1 = Done t1 /\ for_enum b2 i l s2 = Done t2 /\ R t1 t2.
Proof.
  induction l as [|x l IH]; intros Hb i s1 s2 HR.
  - exists s1, s2. auto.
  - destruct (Hb i x s1 s2 (or_introl eq_refl) HR) as (u1 & u2 & H1 & H2 & HU).
    destruct (IH (fun j y a b Hy => Hb j y a b (or_intror Hy)) (S i) u1 u2 HU)
      as (t1 & t2 & G1 & G2 & HT).
    exists t1, t2. cbn [for_enum]. rewrite H1, H2. cbn [andthen]. auto.
Qed.

Section NestedAgreement.
Variable w : world.
Variable ag : Make2D.args.
Hypothesis default_prefix : Make2D.filename_prefix ag = "POSCAR_".
Hypothesis from_dict_ok : forall v, structure_from_dict w v = true.
Hypothesis to_ok : forall v p, structure_to w v p = true.

Let R := rows_have_files (Make2D.output ag).

Lemma nested_step_agree fp k ei si step sg sl :
  is_dict step = true -> R sg sl ->
  exists tg tl,
    Make2D.do_step w ag fp (JStr k) ei si step sg = Done tg /\
    IdProp2D.do_step (sanitize_str (Py.splitext_root (Py.basename fp)))
                     (or_else (sanitize_str k) "key_empty")
                     (JStr k) ei si step sl = Done tl /\
    R tg tl.
Proof.
  destruct step as [| | | | |l|m]; try discriminate. intros _ HR.
  unfold Make2D.do_step, IdProp2D.do_step, Make2D.generate_poscar.
  destruct (poscar_filename_2D_shape ag fp k ei si) as [Hg Hl].
  rewrite Hg, default_prefix. cbn [Py.get eval_in].
  rewrite from_dict_ok, to_ok. cbn [negb].
  destruct (Py.truthy _) eqn:Ht; cbn [negb orb].
  - destruct (is_none _).
    + eexists. eexists. repeat split.
      intros n v Hin. cbn [rows skip_one log] in Hin.
      cbn [poscars write_poscar]. apply in_or_app. left. now apply (HR n v).
    + eexists. eexists. repeat split.
      intros n v Hin. cbn [rows writerow] in Hin. cbn [poscars write_poscar].
      apply in_app_or in Hin as [Hin|[E|[]]].
      * apply in_or_app. left. now apply (HR n v).
      * injection E as <- _. rewrite Hl. apply in_or_app. right. now left.
  - eexists. eexists. repeat split. exact HR.
Qed.

Lemma nested_entry_agree fp k ei entry sg sl :
  entryA_ok entry = true -> R sg sl ->
  exists tg tl,
    Make2D.do_entry w ag fp (JStr k) ei entry sg = Done tg /\
    IdProp2D.do_entry (sanitize_str (Py.splitext_root (Py.basename fp)))
                      (or_else (sanitize_str k) "key_empty")
                      (JStr k) ei entry sl = Done tl /\
    R tg tl.
Proof.
  destruct entry as [| | | | |l|e]; try discriminate.
  unfold entryA_ok, Make2D.do_entry, IdProp2D.do_entry. cbn [Py.get eval_in].
  intros H HR.
  destruct (Py.assoc "steps" e) as [v|]; [|eexists; eexists; repeat split; exact HR].
  cbn [if_present] in H.
  destruct (Py.truthy v) eqn:Ht; cbn [negb];
    [|eexists; eexists; repeat split; exact HR].
  destruct (list_of_iter _ v Ht H) as (l & -> & Hl). cbn [Py.iter eval_in].
  apply (for_enum_lockstep R); [|exact HR].
  intros i x s1 s2 Hx H12. apply nested_step_agree; auto.
  now apply (forallb_In _ l).
Qed.

Lemma nested_key_agree fp m i key sg sl :
  schemaA_doc (JObj m) = true ->
  In key (map (fun kv => JStr (fst kv)) m) -> R sg sl ->
  exists tg tl,
    Make2D.do_key w ag fp (JObj m) i key sg = Done tg /\
    IdProp2D.do_key (sanitize_str (Py.splitext_root (Py.basename fp)))
                    (JObj m) i key sl = Done tl /\
    R tg tl.
Proof.
  cbn [schemaA_doc]. intros Hdoc Hin HR.
  apply in_map_iff in Hin as ([k v0] & <- & Hin). cbn [fst].
  destruct (assoc_forallb _ m k Hdoc) as (v & Hv & Hp).
  { apply in_map_iff. now exists (k, v0). }
  cbn [snd] in Hp.
  unfold Make2D.do_key, IdProp2D.do_key. cbn [Py.getitem]. rewrite Hv. cbn [eval_in].
  destruct (Py.truthy v) eqn:Ht; cbn [negb];
    [|eexists; eexists; repeat split; exact HR].
  rewrite sanitize_filename_str. cbn [eval_in].
  destruct (list_of_iter _ v Ht Hp) as (l & -> & Hl). cbn [Py.iter eval_in].
  apply (for_enum_lockstep R); [|exact HR].
  intros j x s1 s2 Hx H12. apply nested_entry_agree; auto.
  now apply (forallb_In _ l).
Qed.

Lemma nested_file_agree i p sg sl :
  (forall data, json_load w p = Some data -> schemaA_doc data = true) ->
  R sg sl ->
  exists tg tl,
    Make2D.do_file w ag i p sg = Done tg /\
    IdProp2D.do_file w i p sl = Done tl /\
    R tg tl.
Proof.
  intros Hshape HR.
  unfold Make2D.do_file, IdProp2D.do_file, Make2D.load_json, IdProp2D.load_json.
  destruct (json_load w p) as [data|] eqn:Hload;
    [|eexists; eexists; repeat split; exact HR].
  specialize (Hshape data eq_refl).
  destruct data as [| | | | |l|m]; try discriminate.
  cbn [is_none]. rewrite sanitize_filename_str. cbn [Py.iter eval_in].
  apply (for_enum_lockstep R); [|exact HR].
  intros j key s1 s2 Hin H12. now apply nested_key_agree.
Qed.

End NestedAgreement.

(** X11: in the nested schema, when the geometry emitter runs with the
    default prefix, pymatgen accepts and writes every structure and the
    documents have the nested shape, every filename in the CSV is the name
    of a geometry file written in the output directory: a row is written
    only for a step that has a structure. *)
Theorem X11_nested_rows_have_geometry_files :
  forall (w : world) (ag : Make2D.args) (al : IdProp2D.args),
    Make2D.input ag = IdProp2D.input al ->
    Make2D.filename_prefix ag = "POSCAR_" ->
    (forall v, structure_from_dict w v = true) ->
    (forall v p, structure_to w v p = true) ->
    can_make_dir w (Make2D.output ag) = true ->
    (forall p data,
        In p (glob_sorted w (Py.path_join (Make2D.input ag) "*.json")) ->
        json_load w p = Some data -> schemaA_doc data = true) ->
    forall n v,
      In (n, v) (rows (final (IdProp2D.main w al))) ->
      In (Py.path_join (Make2D.output ag) n) (poscars (final (Make2D.main w ag))).
Proof.
  intros w ag al Hin Hpre Hfrom Hto Hdir Hshape.
  unfold IdProp2D.main, Make2D.main.
  rewrite Make2D_create_dir_ok by exact Hdir. cbn [andthen].
  rewrite <- Hin.
  destruct (negb (dir_exists w (IdProp2D.output al)) &&
            negb (makedirs_ok w (IdProp2D.output al))); [intros n v []|].
  set (files := glob_sorted w (Py.path_join (Make2D.input ag) "*.json")) in *.
  destruct files as [|p r] eqn:E; [intros n v []|]. rewrite <- E in *.
  destruct (for_enum_lockstep (rows_have_files (Make2D.output ag))
              (Make2D.do_file w ag) (IdProp2D.do_file w) files
              (fun i x s1 s2 Hx H12 =>
                 nested_file_agree w ag Hpre Hfrom Hto i x s1 s2
                   (fun d Hd => Hshape x d Hx Hd) H12)
              0 no_effects
              (open_csv (Py.path_join (IdProp2D.output al) "id_prop.csv") no_effects)
              (fun n v (H : In (n, v) []) => match H with end))
    as (tg & tl & Hg & Hl & HR).
  rewrite Hg, Hl. exact HR.
Qed.

Lemma X11_nested_rows_witness :
  In (Py.path_join "out" "POSCAR_a_g1_entry0_step0.vasp")
     (poscars (final (Make2D.main (world_of [("in/a.json", Some doc_two_groups)])
        {| Make2D.input := "in"; Make2D.output := "out";
           Make2D.filename_prefix := "POSCAR_" |}))).
Proof.
  apply (X11_nested_rows_have_geometry_files
           (world_of [("in/a.json", Some doc_two_groups)])
           {| Make2D.input := "in"; Make2D.output := "out";
              Make2D.filename_prefix := "POSCAR_" |}
           {| IdProp2D.input := "in"; IdProp2D.output := "." |}
           eq_refl eq_refl (fun _ => eq_refl) (fun _ _ => eq_refl) eq_refl)
    with (v := JInt 2).
  - intros p data Hin Hload. destruct Hin as [<-|[]].
    injection Hload as <-. reflexivity.
  - left. reflexivity.
Defined.

(** ** Flat schema: the material identifier *)

(** X12: a flat-schema entry whose [mat_id] is a non-zero number, as in
    ["mat_id": 12345], ends the run with an uncaught [TypeError]: the
    sanitizer iterates over its argument.  The label emitter stops at every
    such entry, the geometry emitter once the entry's structure has been
    reconstructed. *)
Theorem X12_numeric_mat_id_ends_run :
  forall (m d : list (string * json)) (v : json),
    Py.assoc "data" m = Some (JObj d) ->
    Py.assoc "mat_id" d = Some v ->
    is_number v = true ->
    Py.truthy v = true ->
    (forall (al : IdProp3D.args) (index idx : nat) (s : effects),
        IdProp3D.do_entry al index idx (JObj m) s = Crashed TypeError s) /\
    (forall (w : world) (ag : Make3D.args) (index idx : nat) (s : effects)
            (structure : json),
        Py.assoc "structure" m = Some structure ->
        Py.truthy structure = true ->
        structure_from_dict w structure = true ->
        Make3D.do_entry w ag index idx (JObj m) s = Crashed TypeError s).
Proof.
  intros m d v Hdata Hid Hnum Htruthy.
  assert (Hsan : sanitize_filename v = Raise TypeError)
    by (destruct v; try discriminate; reflexivity).
  split.
  - intros al index idx s.
    unfold IdProp3D.do_entry, IdProp3D.poscar_filename, IdProp3D.mat_id_of.
    cbn [Py.get rbind]. rewrite Hdata. cbn [Py.get rbind]. rewrite Hid, Htruthy.
    cbn [negb rbind]. rewrite Hsan. reflexivity.
  - intros w ag index idx s structure Hs Ht Hfrom.
    unfold Make3D.do_entry, Make3D.poscar_filename, Make3D.mat_id_of.
    cbn [Py.get eval_in rbind]. rewrite Hs, Ht, Hfrom, Hdata.
    cbn [negb Py.get rbind]. rewrite Hid, Htruthy.
    cbn [negb rbind]. rewrite Hsan. reflexivity.
Qed.

Lemma X12_numeric_mat_id_witness :
  IdProp3D.do_entry
    {| IdProp3D.input := "in"; IdProp3D.output := "."; IdProp3D.filename_prefix := "POSCAR_" |}
    0 1
    (JObj [("data", JObj [("mat_id", JInt 12345); ("band_gap_dir", JFloat (1 # 1));
                          ("band_gap_ind", JFloat (1 # 1))])])
    no_effects = Crashed TypeError no_effects.
Proof.
  apply (proj1 (X12_numeric_mat_id_ends_run
                  [("data", JObj [("mat_id", JInt 12345); ("band_gap_dir", JFloat (1 # 1));
                                  ("band_gap_ind", JFloat (1 # 1))])]
                  [("mat_id", JInt 12345); ("band_gap_dir", JFloat (1 # 1));
                   ("band_gap_ind", JFloat (1 # 1))]
                  (JInt 12345) eq_refl eq_refl eq_refl eq_refl)).
Defined.

Lemma digit_kept c : is_digit c = true -> kept_char c = true.
Proof.
  unfold is_digit, kept_char, Py.isalnum_char. intros H. now rewrite H.
Qed.

Lemma sanitize_str_digits s : forall_chars is_digit s = true -> sanitize_str s = s.
Proof.
  induction s as [|c r IH]; [reflexivity|].
  cbn [forall_chars sanitize_str]. intros H. apply andb_true_iff in H as [Hc Hr].
  rewrite (proj2 (sanitize_char_fixed c) (digit_kept c Hc)), IH; auto.
Qed.

Lemma sanitize_entry_fallback idx :
  sanitize_str ("entry_" ++ Py.str_of_nat idx) = "entry_" ++ Py.str_of_nat idx.
Proof.
  cbn [append sanitize_str].
  rewrite (sanitize_str_digits _ (str_of_nat_digits idx)).
  reflexivity.
Qed.

(** X13: a flat-schema entry without a usable [mat_id] is named after its
    position: both tools derive
    [<prefix>_jsonNum_<index>_entryNum<idx>_entry_<idx>.vasp]. *)
Theorem X13_missing_mat_id_uses_entry_index :
  forall (entry : json) (ag : Make3D.args) (al : IdProp3D.args) (index idx : nat),
    mat_id_missing entry = true ->
    Make3D.poscar_filename ag index idx entry =
      Ok (Make3D.filename_prefix ag ++ "_jsonNum_" ++ Py.str_of_nat index
          ++ "_entryNum" ++ Py.str_of_nat idx ++ "_entry_" ++ Py.str_of_nat idx
          ++ ".vasp") /\
    IdProp3D.poscar_filename al index idx entry =
      Ok (IdProp3D.filename_prefix al ++ "_jsonNum_" ++ Py.str_of_nat index
          ++ "_entryNum" ++ Py.str_of_nat idx ++ "_entry_" ++ Py.str_of_nat idx
          ++ ".vasp").
Proof.
  intros entry ag al index idx H.
  assert (Hm : IdProp3D.mat_id_of entry idx = Ok (JStr ("entry_" ++ Py.str_of_nat idx))).
  { unfold mat_id_missing in H. unfold IdProp3D.mat_id_of.
    destruct entry as [| | | | |l|m]; try discriminate. cbn [Py.get rbind].
    destruct (Py.assoc "data" m) as [d|]; [|reflexivity].
    destruct d as [| | | | |l|d]; try discriminate. cbn [Py.get rbind].
    destruct (Py.assoc "mat_id" d) as [v|]; [|reflexivity].
    now rewrite H. }
  split.
  - unfold Make3D.poscar_filename.
    change (Make3D.mat_id_of entry idx) with (IdProp3D.mat_id_of entry idx).
    rewrite Hm. cbn [rbind]. rewrite sanitize_filename_str. cbn [rbind].
    rewrite sanitize_entry_fallback. reflexivity.
  - unfold IdProp3D.poscar_filename.
    rewrite Hm. cbn [rbind]. rewrite sanitize_filename_str. cbn [rbind].
    rewrite sanitize_entry_fallback. reflexivity.
Qed.

Lemma X13_missing_mat_id_witness :
  Make3D.poscar_filename
    {| Make3D.input := "in"; Make3D.output := "out"; Make3D.filename_prefix := "POSCAR_" |}
    2 7 (JObj [("data", JObj [("mat_id", JStr "")]); ("structure", some_structure)]) =
  Ok "POSCAR__jsonNum_2_entryNum7_entry_7.vasp".
Proof.
  exact (proj1 (X13_missing_mat_id_uses_entry_index
                  (JObj [("data", JObj [("mat_id", JStr "")]); ("structure", some_structure)])
                  {| Make3D.input := "in"; Make3D.output := "out";
                     Make3D.filename_prefix := "POSCAR_" |}
                  {| IdProp3D.input := "in"; IdProp3D.output := ".";
                     IdProp3D.filename_prefix := "POSCAR_" |}
                  2 7 eq_refl)).
Defined.

(** ** Flat schema: the progress markers *)

Lemma for_enum_markers {A} (body : nat -> A -> effects -> outcome) :
  (forall i x s, markers (final (body i x s)) = (markers s ++ [completed_marker i])%list) ->
  forall l i s,
    exists k,
      k <= length l /\
      (l <> [] -> 1 <= k) /\
      (is_done (for_enum body i l s) = true -> k = length l) /\
      markers (final (for_enum body i l s)) =
      (markers s ++ map completed_marker (seq i k))%list.
Proof.
  intros Hb l. induction l as [|x l IH]; intros i s.
  - exists 0. cbn. rewrite app_nil_r. repeat split; auto. congruence.
  - cbn [for_enum]. specialize (Hb i x s).
    destruct (body i x s) as [s1|c s1|e s1] eqn:E; cbn [andthen final] in *.
    + destruct (IH (S i) s1) as (k & Hk & _ & Hd & Hm).
      exists (S k). cbn [length seq map]. repeat split; try lia.
      * intros D. f_equal. now apply Hd.
      * rewrite Hm, Hb, <- app_assoc. reflexivity.
    + exists 1. cbn [length seq map is_done].
      repeat split; try lia; try discriminate; exact Hb.
    + exists 1. cbn [length seq map is_done].
      repeat split; try lia; try discriminate; exact Hb.
Qed.

Lemma Make3D_do_entry_markers w a index idx entry s :
  markers (final (Make3D.do_entry w a index idx entry s)) = markers s.
Proof. unfold Make3D.do_entry, Make3D.generate_poscar. step_outcome. Qed.

Lemma Make3D_do_file_markers w a i p s :
  markers (final (Make3D.do_file w a i p s)) = (markers s ++ [completed_marker i])%list.
Proof.
  unfold Make3D.do_file, Make3D.load_json, Make3D.create_output_directory.
  destruct (json_load w p) as [data|]; [|reflexivity].
  destruct (dir_exists w (Make3D.output a));
    [|destruct (makedirs_ok w (Make3D.output a)); [|reflexivity]];
    cbn [andthen];
    (destruct (Py.get data "entries" (JArr [])) as [entries|]; cbn [eval_in final];
     [|reflexivity];
     destruct (negb (Py.truthy entries)); [reflexivity|];
     destruct (Py.iter entries) as [items|]; cbn [eval_in final]; [|reflexivity];
     apply (for_enum_final_inv
              (fun t => markers t = (markers s ++ [completed_marker i])%list));
     [intros; now rewrite Make3D_do_entry_markers | reflexivity]).
Qed.

Lemma IdProp3D_do_entry_markers a index idx entry s :
  markers (final (IdProp3D.do_entry a index idx entry s)) = markers s.
Proof. unfold IdProp3D.do_entry. step_outcome. Qed.

Lemma IdProp3D_do_file_markers w a i p s :
  markers (final (IdProp3D.do_file w a i p s)) = (markers s ++ [completed_marker i])%list.
Proof.
  unfold IdProp3D.do_file, IdProp3D.load_json.
  destruct (json_load w p) as [data|]; [|reflexivity].
  destruct (Py.get data "entries" (JArr [])) as [entries|]; cbn [eval_in final];
    [|reflexivity].
  destruct (negb (Py.truthy entries)); [reflexivity|].
  destruct (Py.iter entries) as [items|]; cbn [eval_in final]; [|reflexivity].
  apply (for_enum_final_inv
           (fun t => markers t = (markers s ++ [completed_marker i])%list));
    [intros; now rewrite IdProp3D_do_entry_markers | reflexivity].
Qed.

(** X14: the flat-schema tools leave one marker [completed<i>.txt] for each
    input file they started, in order and without gaps, so the markers count
    the files reached (all of them when the run completes).  The label
    emitter adds [skipped<n>entries.txt], with [n] the final skip counter,
    exactly when the run completes; a run that exits early leaves no such
    marker. *)
Theorem X14_progress_markers :
  forall w : world,
    (forall a : Make3D.args,
        let files := glob_sorted w (Py.path_join (Make3D.input a) "*.json") in
        exists k,
          k <= length files /\ (files <> [] -> 1 <= k) /\
          (is_done (Make3D.main w a) = true -> k = length files) /\
          markers (final (Make3D.main w a)) = map completed_marker (seq 0 k)) /\
    (forall a : IdProp3D.args,
        let files := glob_sorted w (Py.path_join (IdProp3D.input a) "*.json") in
        (forall s', IdProp3D.main w a = Done s' ->
           markers s' =
           (map completed_marker (seq 0 (length files))
            ++ [("skipped" ++ Py.str_of_nat (skipped s') ++ "entries.txt")%string])%list) /\
        (is_done (IdProp3D.main w a) = false ->
           exists k, 1 <= k <= length files /\
             markers (final (IdProp3D.main w a)) = map completed_marker (seq 0 k))).
Proof.
  intros w. split.
  - intros a files. unfold Make3D.main. fold files.
    destruct (for_enum_markers (Make3D.do_file w a) (Make3D_do_file_markers w a)
                files 0 no_effects) as (k & Hk & H1 & Hd & Hm).
    exists k. repeat split; auto.
  - intros a files. unfold IdProp3D.main. fold files.
    destruct (for_enum_markers (IdProp3D.do_file w a) (IdProp3D_do_file_markers w a)
                files 0 (open_csv "./id_prop.csv" no_effects)) as (k & Hk & H1 & Hd & Hm).
    destruct (for_enum (IdProp3D.do_file w a) 0 files
                (open_csv "./id_prop.csv" no_effects)) as [s1|c s1|e s1] eqn:Eo;
      cbn [andthen final is_done markers touch skipped] in *.
    + split.
      * intros s' E. injection E as <-. cbn [markers touch skipped].
        rewrite Hm, (Hd eq_refl). reflexivity.
      * discriminate.
    + split; [discriminate|]. intros _. exists k. split; [|exact Hm].
      split; [|exact Hk]. apply H1. intros Hnil. rewrite Hnil in Eo. discriminate.
    + split; [discriminate|]. intros _. exists k. split; [|exact Hm].
      split; [|exact Hk]. apply H1. intros Hnil. rewrite Hnil in Eo. discriminate.
Qed.

Lemma X1_sanitize_fixed_points_witness :
  sanitize_filename (JStr "mp-1234_relaxed") = Ok "mp-1234_relaxed".
Proof.
  exact (proj2 (X1_sanitize_fixed_points "mp-1234_relaxed") eq_refl).
Defined.

Lemma X3_nested_keys_witness :
  Make2D.poscar_filename
    {| Make2D.input := "in"; Make2D.output := "out"; Make2D.filename_prefix := "POSCAR_" |}
    "in/s.json" (JStr "Mo S2") 0 0 =
  Make2D.poscar_filename
    {| Make2D.input := "in"; Make2D.output := "out"; Make2D.filename_prefix := "POSCAR_" |}
    "in/s.json" (JStr "Mo/S2") 0 0.
Proof.
  exact (proj2 (X3_nested_keys_share_filenames
                  {| Make2D.input := "in"; Make2D.output := "out";
                     Make2D.filename_prefix := "POSCAR_" |}
                  "in/s.json" "Mo S2" "Mo/S2" 0 0) eq_refl).
Defined.

Lemma X14_progress_markers_witness :
  markers (final (IdProp3D.main
    (world_of [("in/a.json", Some (JObj [("entries", JArr three_entries)]));
               ("in/b.json", Some (docB some_structure))])
    {| IdProp3D.input := "in"; IdProp3D.output := ".";
       IdProp3D.filename_prefix := "POSCAR_" |})) =
  ["completed0.txt"; "completed1.txt"; "skipped1entries.txt"].
Proof.
  exact (proj1 (proj2 (X14_progress_markers
                         (world_of [("in/a.json", Some (JObj [("entries", JArr three_entries)]));
                                    ("in/b.json", Some (docB some_structure))]))
                  {| IdProp3D.input := "in"; IdProp3D.output := ".";
                     IdProp3D.filename_prefix := "POSCAR_" |})
           _ eq_refl).
Defined.

(** ** Nested schema: what a file contributes does not depend on the batch *)

Lemma extend_nil s : extend s delta_nil = s.
Proof.
  destruct s. unfold extend, delta_nil. cbn.
  now rewrite !app_nil_r, Nat.add_0_r.
Qed.

Lemma extend_extend s a b : extend (extend s a) b = extend s (delta_app a b).
Proof.
  unfold extend, delta_app. cbn.
  now rewrite <- !app_assoc, Nat.add_assoc.
Qed.

Lemma uniform_ext f g : (forall s, f s = g s) -> uniform g -> uniform f.
Proof.
  intros E (k & d & H). exists k, d. intros s. now rewrite E.
Qed.

Lemma uniform_added (k : ending) (g : effects -> effects) d :
  (forall s, g s = extend s d) -> uniform (fun s => finish k (g s)).
Proof. intros H. exists k, d. intros s. now rewrite H. Qed.

Lemma uniform_crash e : uniform (fun s => Crashed e s).
Proof. exists (ECrash e), delta_nil. intros s. now rewrite extend_nil. Qed.

Lemma uniform_done : uniform (fun s => Done s).
Proof. exists EDone, delta_nil. intros s. now rewrite extend_nil. Qed.

Lemma log_extend x s : log x s = extend s (mkDelta [] [] [] [x] 0).
Proof.
  destruct s. unfold log, extend. cbn. now rewrite !app_nil_r, Nat.add_0_r.
Qed.

Lemma skip_log_extend x s : skip_one (log x s) = extend s (mkDelta [] [] [] [x] 1).
Proof.
  destruct s. unfold skip_one, log, extend. cbn.
  now rewrite !app_nil_r, Nat.add_1_r.
Qed.

Lemma writerow_extend r s : writerow r s = extend s (mkDelta [] [r] [] [] 0).
Proof.
  destruct s. unfold writerow, extend. cbn. now rewrite !app_nil_r, Nat.add_0_r.
Qed.

Lemma write_poscar_extend p s : write_poscar p s = extend s (mkDelta [p] [] [] [] 0).
Proof.
  destruct s. unfold write_poscar, extend. cbn. now rewrite !app_nil_r, Nat.add_0_r.
Qed.

Lemma uniform_done_log x : uniform (fun s => Done (log x s)).
Proof. apply (uniform_added EDone (log x) _ (log_extend x)). Qed.

Lemma uniform_done_skip x : uniform (fun s => Done (skip_one (log x s))).
Proof.
  apply (uniform_added EDone (fun s => skip_one (log x s)) _ (skip_log_extend x)).
Qed.

Lemma uniform_done_row r : uniform (fun s => Done (writerow r s)).
Proof. apply (uniform_added EDone (writerow r) _ (writerow_extend r)). Qed.

Lemma uniform_done_poscar p : uniform (fun s => Done (write_poscar p s)).
Proof. apply (uniform_added EDone (write_poscar p) _ (write_poscar_extend p)). Qed.

Lemma uniform_for_enum {A} (body : nat -> A -> effects -> outcome) l :
  (forall i x, uniform (body i x)) ->
  forall i, uniform (fun s => for_enum body i l s).
Proof.
  intros Hb. induction l as [|x l IH]; intros i.
  - apply uniform_done.
  - destruct (Hb i x) as (k1 & d1 & H1).
    destruct (IH (S i)) as (k2 & d2 & H2).
    destruct k1 as [|c|e].
    + exists k2, (delta_app d1 d2). intros s. cbn [for_enum].
      rewrite H1. cbn [finish andthen]. now rewrite H2, extend_extend.
    + exists (EExit c), d1. intros s. cbn [for_enum]. now rewrite H1.
    + exists (ECrash e), d1. intros s. cbn [for_enum]. now rewrite H1.
Qed.

Lemma for_enum_any_index {A} (body : nat -> A -> effects -> outcome) l :
  (forall i j x s, body i x s = body j x s) ->
  forall i j s, for_enum body i l s = for_enum body j l s.
Proof.
  intros Hb. induction l as [|x l IH]; intros i j s; [reflexivity|].
  cbn [for_enum]. rewrite (Hb i j x s).
  destruct (body j x s); cbn [andthen]; auto.
Qed.

Ltac uniform_leaf :=
  first [ apply uniform_crash | apply uniform_done | apply uniform_done_log
        | apply uniform_done_skip | apply uniform_done_row
        | apply uniform_done_poscar ].

Lemma IdProp2D_do_step_uniform sb sk k ei si step :
  uniform (IdProp2D.do_step sb sk k ei si step).
Proof.
  unfold IdProp2D.do_step.
  destruct (Py.get step "structure" JNull) as [sd|]; cbn [eval_in]; [|uniform_leaf].
  destruct (Py.get step "energy" JNull) as [en|]; cbn [eval_in]; [|uniform_leaf].
  destruct (negb (Py.truthy sd) || is_none en); uniform_leaf.
Qed.

Lemma IdProp2D_do_entry_uniform sb sk k ei entry :
  uniform (IdProp2D.do_entry sb sk k ei entry).
Proof.
  unfold IdProp2D.do_entry.
  destruct (Py.get entry "steps" (JArr [])) as [steps|]; cbn [eval_in]; [|uniform_leaf].
  destruct (negb (Py.truthy steps)); [uniform_leaf|].
  destruct (Py.iter steps) as [items|]; cbn [eval_in]; [|uniform_leaf].
  apply uniform_for_enum. intros; apply IdProp2D_do_step_uniform.
Qed.

Lemma IdProp2D_do_key_uniform sb data i key :
  uniform (IdProp2D.do_key sb data i key).
Proof.
  unfold IdProp2D.do_key.
  destruct (Py.getitem data key) as [entries|]; cbn [eval_in]; [|uniform_leaf].
  destruct (negb (Py.truthy entries)); [uniform_leaf|].
  destruct (sanitize_filename key) as [st|]; cbn [eval_in]; [|uniform_leaf].
  destruct (Py.iter entries) as [items|]; cbn [eval_in]; [|uniform_leaf].
  apply uniform_for_enum. intros; apply IdProp2D_do_entry_uniform.
Qed.

Lemma IdProp2D_do_file_uniform w i p : uniform (IdProp2D.do_file w i p).
Proof.
  unfold IdProp2D.do_file, IdProp2D.load_json.
  destruct (json_load w p) as [data|]; cbn [is_none]; [|uniform_leaf].
  destruct (is_none data); [uniform_leaf|].
  destruct (sanitize_filename _) as [sb|]; cbn [eval_in]; [|uniform_leaf].
  destruct (Py.iter data) as [keys|]; cbn [eval_in]; [|uniform_leaf].
  apply uniform_for_enum. intros; apply IdProp2D_do_key_uniform.
Qed.

Lemma Make2D_do_step_uniform w a fp k ei si step :
  uniform (Make2D.do_step w a fp k ei si step).
Proof.
  unfold Make2D.do_step, Make2D.generate_poscar.
  destruct (Py.get step "structure" JNull) as [sd|]; cbn [eval_in]; [|uniform_leaf].
  destruct (negb (Py.truthy sd)); [uniform_leaf|].
  destruct (negb (structure_from_dict w sd)); [uniform_leaf|].
  destruct (Make2D.poscar_filename a fp k ei si) as [name|]; cbn [eval_in];
    [|uniform_leaf].
  destruct (structure_to w sd _); uniform_leaf.
Qed.

Lemma Make2D_do_entry_uniform w a fp k ei entry :
  uniform (Make2D.do_entry w a fp k ei entry).
Proof.
  unfold Make2D.do_entry.
  destruct (Py.get entry "steps" (JArr [])) as [steps|]; cbn [eval_in]; [|uniform_leaf].
  destruct (negb (Py.truthy steps)); [uniform_leaf|].
  destruct (Py.iter steps) as [items|]; cbn [eval_in]; [|uniform_leaf].
  apply uniform_for_enum. intros; apply Make2D_do_step_uniform.
Qed.

Lemma Make2D_do_key_uniform w a fp data i key :
  uniform (Make2D.do_key w a fp data i key).
Proof.
  unfold Make2D.do_key.
  destruct (Py.getitem data key) as [entries|]; cbn [eval_in]; [|uniform_leaf].
  destruct (negb (Py.truthy entries)); [uniform_leaf|].
  destruct (Py.iter entries) as [items|]; cbn [eval_in]; [|uniform_leaf].
  apply uniform_for_enum. intros; apply Make2D_do_entry_uniform.
Qed.

Lemma Make2D_do_file_uniform w a i p : uniform (Make2D.do_file w a i p).
Proof.
  unfold Make2D.do_file, Make2D.load_json.
  destruct (json_load w p) as [data|]; cbn [is_none]; [|uniform_leaf].
  destruct (is_none data); [uniform_leaf|].
  destruct (Py.iter data) as [keys|]; cbn [eval_in]; [|uniform_leaf].
  apply uniform_for_enum. intros; apply Make2D_do_key_uniform.
Qed.

Lemma batch_split {A} (body : nat -> A -> effects -> outcome) pre post s0 :
  (forall i j x s, body i x s = body j x s) ->
  (forall i x, uniform (body i x)) ->
  is_done (for_enum body 0 pre s0) = true ->
  exists d,
    final (for_enum body 0 (pre ++ post) s0) =
      extend (final (for_enum body 0 pre s0)) d /\
    final (for_enum body 0 post no_effects) = extend no_effects d.
Proof.
  intros Hidx Huni Hdone.
  destruct (uniform_for_enum body post Huni 0) as (k & d & H).
  exists d. rewrite for_enum_app.
  destruct (for_enum body 0 pre s0) as [s1| |]; try discriminate.
  cbn [andthen final].
  rewrite (for_enum_any_index body post Hidx (0 + length pre) 0 s1).
  rewrite !H. destruct k; split; reflexivity.
Qed.

(** X15: in the nested-schema tools what a file contributes depends neither
    on its position in the batch nor on the files before it: after a first
    part that is processed to the end, the CSV rows, the skip counter and
    the geometry files of a batch are those of the first part followed by
    those of the rest run on its own.  (The flat-schema names carry the file
    index, so this does not hold there.) *)
Theorem X15_nested_batches_concatenate :
  forall (w : world) (pre post : list string) (s0 : effects),
    (is_done (for_enum (IdProp2D.do_file w) 0 pre s0) = true ->
     rows (final (for_enum (IdProp2D.do_file w) 0 (pre ++ post) s0)) =
       (rows (final (for_enum (IdProp2D.do_file w) 0 pre s0)) ++
        rows (final (for_enum (IdProp2D.do_file w) 0 post no_effects)))%list /\
     skipped (final (for_enum (IdProp2D.do_file w) 0 (pre ++ post) s0)) =
       skipped (final (for_enum (IdProp2D.do_file w) 0 pre s0)) +
       skipped (final (for_enum (IdProp2D.do_file w) 0 post no_effects))) /\
    (forall a : Make2D.args,
        is_done (for_enum (Make2D.do_file w a) 0 pre s0) = true ->
        poscars (final (for_enum (Make2D.do_file w a) 0 (pre ++ post) s0)) =
          (poscars (final (for_enum (Make2D.do_file w a) 0 pre s0)) ++
           poscars (final (for_enum (Make2D.do_file w a) 0 post no_effects)))%list).
Proof.
  intros w pre post s0. split.
  - intros Hdone.
    destruct (batch_split (IdProp2D.do_file w) pre post s0
                (fun i j x s => eq_refl) (IdProp2D_do_file_uniform w) Hdone)
      as (d & H1 & H2).
    rewrite H1, H2. split; reflexivity.
  - intros a Hdone.
    destruct (batch_split (Make2D.do_file w a) pre post s0
                (fun i j x s => eq_refl) (Make2D_do_file_uniform w a) Hdone)
      as (d & H1 & H2).
    rewrite H1, H2. reflexivity.
Qed.

Lemma X15_nested_batches_witness :
  rows (final (for_enum
    (IdProp2D.do_file (world_of [("in/a.json", Some doc_two_groups);
                                 ("in/c.json", Some (docA (JInt 1)))]))
    0 (["in/a.json"] ++ ["in/c.json"]) no_effects)) =
  [("POSCAR_a_g1_entry0_step0.vasp", JInt 2);
   ("POSCAR_c_groupA_entry0_step0.vasp", JInt 1)].
Proof.
  exact (proj1 (proj1 (X15_nested_batches_concatenate
                         (world_of [("in/a.json", Some doc_two_groups);
                                    ("in/c.json", Some (docA (JInt 1)))])
                         ["in/a.json"] ["in/c.json"] no_effects) eq_refl)).
Defined.

(** The flat-schema names do depend on the position in the batch. *)
Example flat_names_depend_on_position :
  rows (final (IdProp3D.do_file
    (world_of [("in/a.json", Some (docB some_structure))])
    {| IdProp3D.input := "in"; IdProp3D.output := ".";
       IdProp3D.filename_prefix := "POSCAR_" |} 1 "in/a.json" no_effects)) =
  [("POSCAR__jsonNum_1_entryNum1_mp-1.vasp", JFloat (8 # 10))].
Proof. reflexivity. Qed.
